(** * Sewing-schedule visualizer: record loader, dominant-category ranker
      and filter engine

    Shallow embedding of [Locally Ran/gantt_app.py] (desktop chart) and
    [dynamic_gantt.py] (dashboard).  Both programs are pipelines of pandas
    calls over a table read from a CSV file; the table operations they use
    are modelled here on lists of rows, one definition per pandas call, and
    the functions of the two programs are composed from them in the order of
    the source lines.

    Conventions of the model.
    - A string is a Rocq [string], one character per code point (code points
      below 256); lexical order is [String.compare], the order Python uses
      for [str].
    - A cell of the columns Sewer Name, Machine Name and Sew Type is a
      [Value]: an integer when pandas has typed the column as numbers
      ([int64]), a text otherwise.  A column holds integers or texts, not
      both, and every cell is present (no missing value, no floating-point
      number).  The order of a column of integers is the numeric one, that
      of a column of texts the lexical one.
    - [Operation Time] holds 64-bit integers; [sum] wraps around as the
      [int64] sum of pandas does.
    - A timestamp is the number of nanoseconds since the epoch, as pandas
      stores [datetime64[ns]]; durations are nanoseconds too.  Both are
      64-bit integers whose smallest value stands for "not a time": pandas
      raises when a conversion or an addition leaves the range.
    - What belongs to the libraries is a parameter of the model ([Pandas]):
      the conversion of one cell by [pd.to_datetime] under the format of the
      programs, the text of the exceptions that the libraries raise, and
      what [pd.read_json] makes of the stored table, which it types anew.
    - Reading the file ([pd.read_csv]) and the drawing of the chart are
      outside the model: a function receives what [read_csv] returned and
      produces what is handed to the chart library. *)

From Stdlib Require Import List ZArith Lia Bool String Ascii.
From Stdlib Require Import Permutation Sorted OrderedTypeEx DecimalString.
Import ListNotations.

Local Open Scope string_scope.
Local Open Scope Z_scope.
Local Open Scope list_scope.

(* ===================================================================== *)
(** * Part I: definitions                                                 *)
(* ===================================================================== *)

(** ** Cells *)

Inductive Value : Type :=
| VInt (z : Z)
| VStr (s : string).

(** [a == b] *)
Definition value_eqb (a b : Value) : bool :=
  match a, b with
  | VInt x, VInt y => x =? y
  | VStr s, VStr t => (s =? t)%string
  | _, _ => false
  end.

(** The order in which pandas and [sorted] put the cells of one column:
    integers by value, texts lexically.  An integer and a text are never in
    one column; the comparison puts the integer first. *)
Definition value_compare (a b : Value) : comparison :=
  match a, b with
  | VInt x, VInt y => x ?= y
  | VStr s, VStr t => String.compare s t
  | VInt _, VStr _ => Lt
  | VStr _, VInt _ => Gt
  end.

Definition value_leb (a b : Value) : bool :=
  match value_compare a b with
  | Gt => false
  | _ => true
  end.

Definition value_ltb (a b : Value) : bool :=
  match value_compare a b with
  | Lt => true
  | _ => false
  end.

(** [str(z)] *)
Definition decimal (z : Z) : string := NilZero.string_of_int (Z.to_int z).

(** [Series.astype(str)] on one cell. *)
Definition astype_str (v : Value) : string :=
  match v with
  | VInt z => decimal z
  | VStr s => s
  end.

(** ** 64-bit integers *)

Definition int64_min : Z := -9223372036854775808.
Definition int64_max : Z := 9223372036854775807.

(** The 64-bit integer that the mathematical integer [z] wraps to. *)
Definition wrap_int64 (z : Z) : Z :=
  (z + 9223372036854775808) mod 18446744073709551616 - 9223372036854775808.

Definition exact_sum (l : list Z) : Z := fold_right Z.add 0 l.

(** [sum()] of a column of 64-bit integers: the sum wraps around. *)
Definition sum (l : list Z) : Z := wrap_int64 (exact_sum l).

(** ** Exceptions and results *)

Definition Timestamp := Z.
Definition Timedelta := Z.

(** The Python exceptions the two programs can meet. *)
Inductive PyError : Type :=
| KeyError (key : Value)
    (** [df[key]] on a table without that column, [d[key]] on a dict
        without that key *)
| ValueError_time_data (cell : string) (position : nat)
    (** [pd.to_datetime]: the conversion rejects [cell], at row [position] *)
| OutOfBoundsTimedelta (minutes : Z)
    (** [pd.to_timedelta]: that many minutes are not a 64-bit number of
        nanoseconds *)
| OutOfBoundsDatetime (start : Timestamp) (delta : Timedelta)
    (** the sum of a timestamp and a duration is not a timestamp *)
| OutOfBoundsDifference (fin start : Timestamp)
    (** the difference of two timestamps is not a duration *)
| AttributeError_str
    (** [Series.str] on a column that holds numbers *)
| ReadError (message : string)
    (** [pd.read_csv] could not read the file *)
| ValueError_ticklabels (ticks labels : nat)
    (** [set_yticklabels]: as many labels as ticks are required *)
| ValueError_axis_limits
    (** [set_xlim(NaT, NaT)] *)
| TypeError_not_iterable.
    (** a [for] loop over [None] *)

Inductive Result (A : Type) : Type :=
| Ok (a : A)
| Raise (e : PyError).
Arguments Ok {A} a.
Arguments Raise {A} e.

Definition bind {A B : Type} (r : Result A) (k : A -> Result B) : Result B :=
  match r with
  | Ok a => k a
  | Raise e => Raise e
  end.

Notation "x <- r ;; k" := (bind r (fun x => k))
  (at level 61, r at next level, right associativity).
Notation "r ;;; k" := (bind r (fun _ => k))
  (at level 61, right associativity).

(** A [for] loop, or an operation on a whole column, whose body can raise:
    the first exception ends it. *)
Fixpoint for_each {A B : Type} (body : A -> Result B) (l : list A)
  : Result (list B) :=
  match l with
  | [] => Ok []
  | a :: l' =>
      b <- body a ;;
      bs <- for_each body l' ;;
      Ok (b :: bs)
  end.

(** ** [repr] of a key *)

Definition single_quote : ascii := "'"%char.
Definition double_quote : ascii := "034"%char.
Definition backslash : ascii := "\"%char.

Fixpoint contains (c : ascii) (s : string) : bool :=
  match s with
  | EmptyString => false
  | String c' s' => (c' =? c)%char || contains c s'
  end.

Definition hex_digit (n : nat) : ascii :=
  match String.get n "0123456789abcdef" with
  | Some c => c
  | None => "0"%char
  end.

(** One character of a string inside the quotes [q], as [repr] writes it. *)
Definition repr_char (q c : ascii) : string :=
  let n := nat_of_ascii c in
  if (c =? q)%char || (c =? backslash)%char then
    String backslash (String c EmptyString)
  else if (n =? 9)%nat then "\t"
  else if (n =? 10)%nat then "\n"
  else if (n =? 13)%nat then "\r"
  else if ((n <? 32) || (127 <=? n) && (n <=? 160) || (n =? 173))%nat then
    String backslash
      (String "x" (String (hex_digit (n / 16))
                          (String (hex_digit (n mod 16)) EmptyString)))
  else String c EmptyString.

Fixpoint repr_chars (q : ascii) (s : string) : string :=
  match s with
  | EmptyString => EmptyString
  | String c s' => (repr_char q c ++ repr_chars q s')%string
  end.

(** [repr(s)] of a [str]: single quotes, unless the string holds a single
    quote and no double quote. *)
Definition repr_str (s : string) : string :=
  let q := if contains single_quote s && negb (contains double_quote s)
           then double_quote else single_quote in
  String q (repr_chars q s ++ String q EmptyString).

Definition repr (v : Value) : string :=
  match v with
  | VInt z => decimal z
  | VStr s => repr_str s
  end.

(** ** Tables *)

(** One line of the CSV file as [read_csv] returns it.  A field whose column
    is not in the header of the table carries no information.  [Start Time]
    is kept as the text of the cell, which is what the conversion reads. *)
Record RawRow : Type := mkRawRow {
  raw_sewer_name : Value;
  raw_machine_name : Value;
  raw_sew_type : Value;
  raw_start_time : string;
  raw_operation_time : Z
}.

Record CsvFrame : Type := mkCsvFrame {
  csv_columns : list string;
  csv_rows : list RawRow
}.

(** A processed line: the start time is a timestamp and the end time has
    been derived. *)
Record ScheduleRecord : Type := mkRecord {
  sewer_name : Value;
  machine_name : Value;
  sew_type : Value;
  start_time : Timestamp;
  operation_time : Z;
  end_time : Timestamp
}.

Record DataFrame : Type := mkDataFrame {
  columns : list string;
  rows : list ScheduleRecord
}.

(** ** What belongs to the libraries *)

(** - [strptime]: the conversion of one cell by
      [pd.to_datetime(..., format='%Y-%m-%d %H:%M')], the timestamp or [None]
      when pandas rejects the cell;
    - [library_message]: [str(e)] for an exception that a library raises
      with a text of its own;
    - [read_json]: the table that [pd.read_json(data, orient="split")] makes
      of the stored table [df.to_json(date_format="iso", orient="split")].
      The table has the columns and as many lines as the stored table; the
      columns are typed anew, so that a column of texts that are all
      numbers comes back as integers. *)
Class Pandas : Type := {
  strptime : string -> option Timestamp;
  library_message : PyError -> string;
  read_json : DataFrame -> DataFrame;
  read_json_columns : forall df, columns (read_json df) = columns df;
  read_json_lines :
    forall df, List.length (rows (read_json df)) = List.length (rows df)
}.

(** ** pandas and Python primitives *)

(** [col in df.columns] *)
Definition has_column (cols : list string) (col : string) : bool :=
  existsb (String.eqb col) cols.

(** [df[col]] raises [KeyError] when the column is absent. *)
Definition getitem (cols : list string) (col : string) : Result unit :=
  if has_column cols col then Ok tt else Raise (KeyError (VStr col)).

(** [str.isspace] on one character. *)
Definition is_space (c : ascii) : bool :=
  let n := nat_of_ascii c in
  ((9 <=? n) && (n <=? 13) || (28 <=? n) && (n <=? 32)
   || (n =? 133) || (n =? 160))%nat.

Fixpoint lstrip (s : string) : string :=
  match s with
  | EmptyString => EmptyString
  | String c s' => if is_space c then lstrip s' else s
  end.

Fixpoint rstrip (s : string) : string :=
  match s with
  | EmptyString => EmptyString
  | String c s' =>
      match rstrip s' with
      | EmptyString => if is_space c then EmptyString else String c EmptyString
      | t => String c t
      end
  end.

(** [str.strip()] *)
Definition str_strip (s : string) : string := rstrip (lstrip s).

(** [Series.str.strip()]: the accessor [str] raises on a column of numbers;
    a column without lines is a column of texts. *)
Definition str_strip_column (cells : list Value) : Result (list Value) :=
  for_each (fun cell =>
              match cell with
              | VStr s => Ok (VStr (str_strip s))
              | VInt _ => Raise AttributeError_str
              end)
           cells.

(** [Series.astype(str).str.strip()] *)
Definition astype_str_strip_column (cells : list Value) : list Value :=
  map (fun cell => VStr (str_strip (astype_str cell))) cells.

Section Conversion.
Context `{PD : Pandas}.

(** [str(e)]: the text of an exception, as the programs show it.  The text
    of a [KeyError] is the [repr] of the key. *)
Definition exception_text (e : PyError) : string :=
  match e with
  | KeyError key => repr key
  | ReadError message => message
  | _ => library_message e
  end.

(** [pd.to_datetime(series, format=...)]: all cells are converted, and the
    first cell that is rejected raises, naming the cell and its
    position. *)
Fixpoint to_datetime_from (position : nat) (cells : list string)
  : Result (list Timestamp) :=
  match cells with
  | [] => Ok []
  | v :: cells' =>
      match strptime v with
      | None => Raise (ValueError_time_data v position)
      | Some t =>
          ts <- to_datetime_from (S position) cells' ;;
          Ok (t :: ts)
      end
  end.

Definition to_datetime (cells : list string) : Result (list Timestamp) :=
  to_datetime_from 0 cells.
End Conversion.

Definition ns_per_minute : Z := 60 * 1000000000.

(** A number of nanoseconds that is a timestamp or a duration. *)
Definition in_time_range (t : Z) : bool :=
  (- int64_max <=? t) && (t <=? int64_max).

(** [pd.to_timedelta(x, unit="m")] on one cell. *)
Definition to_timedelta_minutes (x : Z) : Result Timedelta :=
  if in_time_range (x * ns_per_minute) then Ok (x * ns_per_minute)
  else Raise (OutOfBoundsTimedelta x).

(** [pd.to_timedelta(series, unit="m")] *)
Definition to_timedelta (cells : list Z) : Result (list Timedelta) :=
  for_each to_timedelta_minutes cells.

(** [start + delta] on one line. *)
Definition add_timedelta (start : Timestamp) (delta : Timedelta)
  : Result Timestamp :=
  if in_time_range (start + delta) then Ok (start + delta)
  else Raise (OutOfBoundsDatetime start delta).

(** [fin - start] on the timestamps of one line. *)
Definition sub_timestamps (fin start : Timestamp) : Result Timedelta :=
  if in_time_range (fin - start) then Ok (fin - start)
  else Raise (OutOfBoundsDifference fin start).

(** [starts + deltas] on two columns. *)
Definition add_columns (starts : list Timestamp) (deltas : list Timedelta)
  : Result (list Timestamp) :=
  for_each (fun p => add_timedelta (fst p) (snd p)) (combine starts deltas).

(** [df["Start Time"] + pd.to_timedelta(df["Operation Time"], unit="m")] *)
Definition end_times (starts : list Timestamp) (minutes : list Z)
  : Result (list Timestamp) :=
  deltas <- to_timedelta minutes ;;
  add_columns starts deltas.

Section TableOperations.
Context {A : Type}.

(** [Series.unique()]: the distinct values in order of first appearance. *)
Fixpoint unique (eqb : A -> A -> bool) (l : list A) : list A :=
  match l with
  | [] => []
  | x :: l' => x :: filter (fun y => negb (eqb x y)) (unique eqb l')
  end.

Fixpoint insert_sorted (leb : A -> A -> bool) (x : A) (l : list A) : list A :=
  match l with
  | [] => [x]
  | y :: l' => if leb x y then x :: l else y :: insert_sorted leb x l'
  end.

(** [DataFrame.sort_values] on several keys and Python's [sorted]: a stable
    sort, here by insertion; [leb] compares the keys of two rows. *)
Fixpoint sort_values (leb : A -> A -> bool) (l : list A) : list A :=
  match l with
  | [] => []
  | x :: l' => insert_sorted leb x (sort_values leb l')
  end.
End TableOperations.

(** ** Orders on keys *)

(** Ascending on a first key given by a comparison, then by [leb2]. *)
Definition lex_leb {A : Type} (cmp1 : A -> A -> comparison)
    (leb2 : A -> A -> bool) (x y : A) : bool :=
  match cmp1 x y with
  | Lt => true
  | Gt => false
  | Eq => leb2 x y
  end.

Definition by_key {A K : Type} (key : A -> K) {B : Type} (f : K -> K -> B)
    (x y : A) : B :=
  f (key x) (key y).

(** ** Record loader of the desktop program: [load_and_process_data] *)

(** Order of [df.sort_values(["Sewer Name", "Start Time"])]. *)
Definition sewer_start_leb : ScheduleRecord -> ScheduleRecord -> bool :=
  lex_leb (by_key sewer_name value_compare) (by_key start_time Z.leb).

(** The lines of the table once the columns Sewer Name, Start Time and End
    Time have been assigned: line [i] carries cell [i] of each of them. *)
Fixpoint assign_columns (machine : RawRow -> Value) (lines : list RawRow)
    (names : list Value) (starts ends : list Timestamp)
  : list ScheduleRecord :=
  match lines, names, starts, ends with
  | row :: lines', name :: names', start :: starts', fin :: ends' =>
      {| sewer_name := name;
         machine_name := machine row;
         sew_type := raw_sew_type row;
         start_time := start;
         operation_time := raw_operation_time row;
         end_time := fin |}
        :: assign_columns machine lines' names' starts' ends'
  | _, _, _, _ => []
  end.

Section Loaders.
Context `{PD : Pandas}.

Definition load_and_process_data (file : Result CsvFrame) : Result DataFrame :=
  df <- file ;;
  getitem (csv_columns df) "Sewer Name" ;;;
  names <- str_strip_column (map raw_sewer_name (csv_rows df)) ;;
  getitem (csv_columns df) "Start Time" ;;;
  starts <- to_datetime (map raw_start_time (csv_rows df)) ;;
  getitem (csv_columns df) "Operation Time" ;;;
  ends <- end_times starts (map raw_operation_time (csv_rows df)) ;;
  let records := assign_columns raw_machine_name (csv_rows df) names starts ends in
  Ok {| columns := csv_columns df ++ ["End Time"];
        rows := sort_values sewer_start_leb records |}.

(** ** Record loader of the dashboard: [parse_upload] *)

Definition required_columns : list string :=
  ["Sewer Name"; "Start Time"; "Operation Time"; "Sew Type"].

(** [contents] is [None] before any upload; otherwise it is what
    [read_csv] made of the uploaded text.  When the callback returns, the
    result is the pair of its outputs: the new content of the store and the
    status line.  The end times are computed outside any [try]: an
    exception there leaves the callback. *)
Definition parse_upload (contents : option (Result CsvFrame)) (filename : string)
  : Result (option DataFrame * string) :=
  match contents with
  | None => Ok (None, "No file uploaded yet.")
  | Some (Raise e) =>
      Ok (None, ("Error reading CSV: " ++ exception_text e)%string)
  | Some (Ok df) =>
      match find (fun col => negb (has_column (csv_columns df) col))
                 required_columns with
      | Some col => Ok (None, ("Missing required column: " ++ col)%string)
      | None =>
          let with_machine := has_column (csv_columns df) "Machine Name" in
          let cols :=
            if with_machine then csv_columns df
            else csv_columns df ++ ["Machine Name"] in
          let machine :=
            if with_machine then raw_machine_name
            else fun _ => VStr "Unknown" in
          let names :=
            astype_str_strip_column (map raw_sewer_name (csv_rows df)) in
          match to_datetime (map raw_start_time (csv_rows df)) with
          | Raise e =>
              Ok (None,
                  ("Error parsing Start Time: " ++ exception_text e)%string)
          | Ok starts =>
              ends <- end_times starts
                        (map raw_operation_time (csv_rows df)) ;;
              Ok (Some {| columns := cols ++ ["End Time"];
                          rows := assign_columns machine (csv_rows df)
                                    names starts ends |},
                  ("File successfully uploaded: " ++ filename)%string)
          end
      end
  end.

(** The dashboard keeps the dataset in a store and a status line beside
    it; the framework writes the two outputs of the callback over them, and
    leaves them as they are when the callback raises. *)
Record Dashboard : Type := mkDashboard {
  stored_data : option DataFrame;
  upload_status : string
}.

Definition on_upload (app : Dashboard) (contents : option (Result CsvFrame))
    (filename : string) : Dashboard :=
  match parse_upload contents filename with
  | Ok (data, status) => {| stored_data := data; upload_status := status |}
  | Raise _ => app
  end.
End Loaders.

(** ** Dominant-category ranker: [group_and_sort_sewers] *)

(** A line of the table [grouped]: a sewer, a sew type and the summed
    operation time of that pair. *)
Record GroupRow : Type := mkGroupRow {
  g_sewer_name : Value;
  g_sew_type : Value;
  g_operation_time : Z
}.

Definition pair_eqb (a b : Value * Value) : bool :=
  value_eqb (fst a) (fst b) && value_eqb (snd a) (snd b).

Definition pair_leb : Value * Value -> Value * Value -> bool :=
  lex_leb (by_key fst value_compare) (by_key snd value_leb).

Definition group_key (r : ScheduleRecord) : Value * Value :=
  (sewer_name r, sew_type r).

(** [df.groupby(["Sewer Name", "Sew Type"])["Operation Time"].sum()]: one
    line per distinct pair, the pairs in ascending order (groupby sorts its
    keys). *)
Definition groupby_sum (rs : list ScheduleRecord) : list GroupRow :=
  map (fun k =>
         {| g_sewer_name := fst k;
            g_sew_type := snd k;
            g_operation_time :=
              sum (map operation_time
                       (filter (fun r => pair_eqb (group_key r) k) rs)) |})
      (sort_values pair_leb (unique pair_eqb (map group_key rs))).

(** [reset_index()]: the lines are labelled 0, 1, 2, ... *)
Definition reset_index {A : Type} (l : list A) : list (nat * A) :=
  combine (seq 0 (List.length l)) l.

Fixpoint idxmax_from (best : nat * Z) (l : list (nat * Z)) : nat :=
  match l with
  | [] => fst best
  | p :: l' => if snd best <? snd p then idxmax_from p l' else idxmax_from best l'
  end.

(** [Series.idxmax()]: the label of the first occurrence of the maximum. *)
Definition idxmax (l : list (nat * Z)) : option nat :=
  match l with
  | [] => None
  | p :: l' => Some (idxmax_from p l')
  end.

Definition group_of (grouped : list (nat * GroupRow)) (s : Value)
  : list (nat * GroupRow) :=
  filter (fun ir => value_eqb (g_sewer_name (snd ir)) s) grouped.

(** [grouped.groupby("Sewer Name")["Operation Time"].idxmax()]: one label per
    sewer, the sewers in ascending order. *)
Definition groupby_idxmax (grouped : list (nat * GroupRow)) : list nat :=
  flat_map
    (fun s =>
       match idxmax (map (fun ir => (fst ir, g_operation_time (snd ir)))
                         (group_of grouped s)) with
       | Some i => [i]
       | None => []
       end)
    (sort_values value_leb
       (unique value_eqb (map (fun ir => g_sewer_name (snd ir)) grouped))).

(** [grouped.loc[labels]]: the lines with these labels, in the order of the
    labels.  The labels handed over by [idxmax] are labels of the table. *)
Definition loc (grouped : list (nat * GroupRow)) (labels : list nat)
  : list GroupRow :=
  flat_map
    (fun i =>
       match find (fun ir => (fst ir =? i)%nat) grouped with
       | Some ir => [snd ir]
       | None => []
       end)
    labels.

(** The table [dominant]: for each sewer the line of [grouped] with the
    largest summed time. *)
Definition dominant (rs : list ScheduleRecord) : list GroupRow :=
  let grouped := reset_index (groupby_sum rs) in
  loc grouped (groupby_idxmax grouped).

(** Order of [sort_values(by=["Sew Type", "Dominant Time"],
    ascending=[True, False])]. *)
Definition dominant_leb : GroupRow -> GroupRow -> bool :=
  lex_leb (by_key g_sew_type value_compare)
          (fun x y => g_operation_time y <=? g_operation_time x).

Definition dominant_sorted (rs : list ScheduleRecord) : list GroupRow :=
  sort_values dominant_leb (dominant rs).

Definition sorted_sewers (rs : list ScheduleRecord) : list Value :=
  map g_sewer_name (dominant_sorted rs).

(** [...["Operation Time"]] on a groupby. *)
Definition select_operation_time (cols : list string) : Result unit :=
  if has_column cols "Operation Time" then Ok tt
  else Raise (KeyError (VStr "Column not found: Operation Time")).

(** [df.groupby(["Sewer Name", "Sew Type"])] looks the two names up among
    the columns.  When one of them is not a column, it raises its
    [KeyError], except on a table of exactly two lines: a list of as many
    keys as the table has lines is then read as one label per line, the
    grouping goes through, and the table [grouped] that comes out of it has
    no column Sewer Name for the second [groupby]. *)
Definition group_and_sort_sewers (df : DataFrame) : Result (list Value) :=
  if has_column (columns df) "Sewer Name" && has_column (columns df) "Sew Type"
  then
    select_operation_time (columns df) ;;;
    Ok (sorted_sewers (rows df))
  else if (List.length (rows df) =? 2)%nat then
    select_operation_time (columns df) ;;;
    Raise (KeyError (VStr "Sewer Name"))
  else
    getitem (columns df) "Sewer Name" ;;;
    getitem (columns df) "Sew Type" ;;;
    Ok (sorted_sewers (rows df)).

(** ** Filter engine of the dashboard: [update_dynamic_graph] *)

(** The three columns the dropdowns offer for the axis, the colour and the
    filters. *)
Inductive Field : Type := MachineName | SewType | SewerName.

Definition field_value (f : Field) (r : ScheduleRecord) : Value :=
  match f with
  | MachineName => machine_name r
  | SewType => sew_type r
  | SewerName => sewer_name r
  end.

(** The value of a filter dropdown: [None] when nothing is selected, and
    otherwise the value of one of its options. *)
Definition Selection := option Value.

(** Python's truth value of a dropdown value. *)
Definition truthy (v : Selection) : bool :=
  match v with
  | Some (VStr s) => negb (s =? "")%string
  | Some (VInt z) => negb (z =? 0)
  | None => false
  end.

(** [v == "ALL"] and [v != "ALL"] *)
Definition is_ALL (v : Selection) : bool :=
  match v with
  | Some s => value_eqb s (VStr "ALL")
  | None => false
  end.

(** [if v and v != "ALL": df = df[df[f] == v]] *)
Definition apply_filter (f : Field) (v : Selection) (rs : list ScheduleRecord)
  : list ScheduleRecord :=
  if truthy v && negb (is_ALL v) then
    match v with
    | Some s => filter (fun r => value_eqb (field_value f r) s) rs
    | None => rs
    end
  else rs.

Definition apply_filters (machine_filter sewtype_filter sewer_filter : Selection)
    (rs : list ScheduleRecord) : list ScheduleRecord :=
  apply_filter SewerName sewer_filter
    (apply_filter SewType sewtype_filter
       (apply_filter MachineName machine_filter rs)).

(** [sorted(df[view_by].unique())] *)
Definition sorted_unique (view_by : Field) (rs : list ScheduleRecord)
  : list Value :=
  sort_values value_leb (unique value_eqb (map (field_value view_by) rs)).

(** What the callback returns: nothing, a figure that only carries a title,
    or the timeline with the table, the two axis choices, the category
    array of the y axis and the height handed to the chart library.  The
    chart library is taken not to raise, so the title [Error generating
    chart] does not occur. *)
Inductive Figure : Type :=
| NoFigure
| TitleOnly (title : string)
| Timeline (df : DataFrame) (y color : Field) (categoryarray : list Value)
           (height : Z).

Section Callbacks.
Context `{PD : Pandas}.

Definition update_dynamic_graph (data : option DataFrame)
    (view_by color_by : Field)
    (machine_filter sewtype_filter sewer_filter : Selection) : Figure :=
  match data with
  | None => NoFigure
  | Some stored =>
      let full_df := read_json stored in
      let df :=
        {| columns := columns full_df;
           rows := apply_filters machine_filter sewtype_filter sewer_filter
                     (rows full_df) |} in
      match rows df with
      | [] => TitleOnly "No data matches the selected filters."
      | _ :: _ =>
          let categories :=
            if is_ALL machine_filter && is_ALL sewtype_filter
               && is_ALL sewer_filter
            then sorted_unique view_by (rows full_df)
            else sorted_unique view_by (rows df) in
          let chart_height := Z.max 600 (40 * Z.of_nat (List.length categories)) in
          Timeline df view_by color_by categories chart_height
      end
  end.
End Callbacks.

(** ** The dropdowns of the dashboard: [update_filter_options] *)

(** One entry of a dropdown: [{"label": ..., "value": ...}]. *)
Record DropdownOption : Type := mkOption {
  option_label : Value;
  option_value : Value
}.

(** [[{"label": "ALL", "value": "ALL"}] + [{"label": v, "value": v}
    for v in sorted(df[column].unique())]] *)
Definition options_for (f : Field) (rs : list ScheduleRecord)
  : list DropdownOption :=
  {| option_label := VStr "ALL"; option_value := VStr "ALL" |}
    :: map (fun v => {| option_label := v; option_value := v |})
           (sorted_unique f rs).

(** The six outputs of the callback: the options and the selected value of
    the three filter dropdowns. *)
Record FilterControls : Type := mkFilterControls {
  machine_options : list DropdownOption;
  machine_value : Selection;
  sewtype_options : list DropdownOption;
  sewtype_value : Selection;
  sewer_options : list DropdownOption;
  sewer_value : Selection
}.

Section Dropdowns.
Context `{PD : Pandas}.

Definition update_filter_options (data : option DataFrame) : FilterControls :=
  match data with
  | None =>
      {| machine_options := []; machine_value := None;
         sewtype_options := []; sewtype_value := None;
         sewer_options := []; sewer_value := None |}
  | Some stored =>
      let df := read_json stored in
      {| machine_options := options_for MachineName (rows df);
         machine_value := Some (VStr "ALL");
         sewtype_options := options_for SewType (rows df);
         sewtype_value := Some (VStr "ALL");
         sewer_options := options_for SewerName (rows df);
         sewer_value := Some (VStr "ALL") |}
  end.
End Dropdowns.

(** ** The trace values of a figure: [convert_timedelta_in_fig] *)

Section Traces.
(** [V] holds the values a trace can carry besides durations (numbers,
    strings, dates), [O] the other attributes of a trace, and [milliseconds]
    is [val.total_seconds() * 1000], a floating-point number. *)
Context {V O : Type} (milliseconds : Timedelta -> V).

Inductive XValue : Type :=
| XTimedelta (d : Timedelta)
| XPlain (v : V).

(** The attribute [x] of a trace: the kind of trace has no such attribute,
    or it has one that is not set ([None]), or it holds values. *)
Inductive TraceX : Type :=
| NoAttribute
| XNone
| XValues (xs : list XValue).

Record Trace : Type := mkTrace {
  trace_x : TraceX;
  trace_other : O
}.

Definition convert_value (val : XValue) : XValue :=
  match val with
  | XTimedelta d => XPlain (milliseconds d)
  | XPlain v => XPlain v
  end.

(** The value is not a duration. *)
Definition is_plain (val : XValue) : Prop :=
  match val with
  | XTimedelta _ => False
  | XPlain _ => True
  end.

(** The body of the loop over the traces: [hasattr(trace, 'x')] holds also
    when the attribute is [None], and the inner loop then raises. *)
Definition convert_trace (trace : Trace) : Result Trace :=
  match trace_x trace with
  | NoAttribute => Ok trace
  | XNone => Raise TypeError_not_iterable
  | XValues xs =>
      Ok {| trace_x := XValues (map convert_value xs);
            trace_other := trace_other trace |}
  end.

(** The function rewrites [trace.x] of every trace of [fig.data] and returns
    the figure; the figure is modelled by the list of its traces. *)
Definition convert_timedelta_in_fig (fig_data : list Trace)
  : Result (list Trace) :=
  for_each convert_trace fig_data.
End Traces.

(** ** The chart of the desktop program: [generate_gantt_chart] *)

(** [enumerate(l)] *)
Definition enumerate {A : Type} (l : list A) : list (nat * A) :=
  combine (seq 0 (List.length l)) l.

(** A Python dict: the items in insertion order.  Setting a key that is
    present replaces its value in place. *)
Fixpoint dict_set {V : Type} (k : Value) (v : V) (d : list (Value * V))
  : list (Value * V) :=
  match d with
  | [] => [(k, v)]
  | kv :: d' =>
      if value_eqb (fst kv) k then (k, v) :: d' else kv :: dict_set k v d'
  end.

(** [{k: v for ...}] *)
Definition dict_of {V : Type} (items : list (Value * V)) : list (Value * V) :=
  fold_left (fun d kv => dict_set (fst kv) (snd kv) d) items [].

Definition dict_lookup {V : Type} (d : list (Value * V)) (k : Value)
  : option V :=
  option_map snd (find (fun kv => value_eqb (fst kv) k) d).

(** [d[k]] raises [KeyError] when the key is absent. *)
Definition dict_getitem {V : Type} (d : list (Value * V)) (k : Value)
  : Result V :=
  match dict_lookup d k with
  | Some v => Ok v
  | None => Raise (KeyError k)
  end.

(** [Series.min()] and [Series.max()]: [None] (NaT) on an empty column. *)
Fixpoint minimum (l : list Z) : option Z :=
  match l with
  | [] => None
  | x :: l' =>
      match minimum l' with
      | None => Some x
      | Some m => Some (Z.min x m)
      end
  end.

Fixpoint maximum (l : list Z) : option Z :=
  match l with
  | [] => None
  | x :: l' =>
      match maximum l' with
      | None => Some x
      | Some m => Some (Z.max x m)
      end
  end.

(** One horizontal bar: its row on the y axis, its left end, its width and
    its colour, an index into the 20 colours of [plt.cm.tab20].  The width is
    kept as the duration [end - start], which pandas refuses to compute when
    it is not a 64-bit number of nanoseconds; the program hands it to
    matplotlib converted to days, a floating-point number. *)
Record Bar : Type := mkBar {
  bar_y : nat;
  bar_left : Timestamp;
  bar_width : Timedelta;
  bar_color : nat
}.

(** What is handed to matplotlib: the bars, the ticks of the y axis and
    their labels, the limits of the x axis and the entries of the legend
    (colour and sew type). *)
Record Chart : Type := mkChart {
  bars : list Bar;
  yticks : list nat;
  yticklabels : list Value;
  xlim : option Timestamp * option Timestamp;
  legend : list (nat * Value)
}.

(** [color_map]: the colour of the sew type at position [i] of
    [unique_sew_types] is [colors[i % len(colors)]], and tab20 has 20
    colours. *)
Definition color_map_of (unique_sew_types : list Value) : list (Value * nat) :=
  dict_of (map (fun ist => (snd ist, (fst ist mod 20)%nat))
               (enumerate unique_sew_types)).

(** [y_positions]: the position of each sewer in [sorted_sewers]. *)
Definition y_positions_of (sorted_sewers : list Value) : list (Value * nat) :=
  dict_of (map (fun isw => (snd isw, fst isw)) (enumerate sorted_sewers)).

(** The body of the loop over the lines of the table. *)
Definition draw_bar (cols : list string) (y_positions color_map : list (Value * nat))
    (row : ScheduleRecord) : Result Bar :=
  getitem cols "Sewer Name" ;;;
  y <- dict_getitem y_positions (sewer_name row) ;;
  getitem cols "Start Time" ;;;
  getitem cols "End Time" ;;;
  width <- sub_timestamps (end_time row) (start_time row) ;;
  color <- dict_getitem color_map (sew_type row) ;;
  Ok {| bar_y := y;
        bar_left := start_time row;
        bar_width := width;
        bar_color := color |}.

(** One entry of the legend. *)
Definition legend_handle (color_map : list (Value * nat)) (stype : Value)
  : Result (nat * Value) :=
  color <- dict_getitem color_map stype ;;
  Ok (color, stype).

(** [ax.set_yticks(ticks); ax.set_yticklabels(labels)]: matplotlib raises
    unless there are as many labels as ticks. *)
Definition set_yticklabels (ticks : list nat) (labels : list Value)
  : Result unit :=
  if (List.length ticks =? List.length labels)%nat then Ok tt
  else Raise (ValueError_ticklabels (List.length ticks) (List.length labels)).

(** [ax.set_xlim(lo, hi)]: matplotlib raises on NaT, the minimum and the
    maximum of a column without lines. *)
Definition set_xlim (lo hi : option Timestamp)
  : Result (option Timestamp * option Timestamp) :=
  match lo, hi with
  | Some _, Some _ => Ok (lo, hi)
  | _, _ => Raise ValueError_axis_limits
  end.

Definition generate_gantt_chart (df : DataFrame) (sorted_sewers : list Value)
  : Result Chart :=
  getitem (columns df) "Sew Type" ;;;
  let unique_sew_types := unique value_eqb (map sew_type (rows df)) in
  let color_map := color_map_of unique_sew_types in
  let y_positions := y_positions_of sorted_sewers in
  drawn <- for_each (draw_bar (columns df) y_positions color_map) (rows df) ;;
  set_yticklabels (map snd y_positions) sorted_sewers ;;;
  getitem (columns df) "Start Time" ;;;
  getitem (columns df) "End Time" ;;;
  limits <- set_xlim (minimum (map start_time (rows df)))
                     (maximum (map end_time (rows df))) ;;
  handles <- for_each (legend_handle color_map) unique_sew_types ;;
  Ok {| bars := drawn;
        yticks := map snd y_positions;
        yticklabels := sorted_sewers;
        xlim := limits;
        legend := handles |}.

(** ** The desktop program: [select_file_and_visualize] *)

(** What the user gets: nothing (the dialog was cancelled), the chart, or
    the error box with its title and message. *)
Inductive Outcome : Type :=
| NothingDone
| ChartShown (chart : Chart)
| ErrorBox (title message : string).

Definition newline : string := String "010"%char EmptyString.

Section Desktop.
Context `{PD : Pandas}.

(** [file_path] is what the file dialog returned, the empty string when it
    was cancelled; [file] is what [read_csv] makes of that path. *)
Definition select_file_and_visualize (file_path : string)
    (file : Result CsvFrame) : Outcome :=
  if (file_path =? "")%string then NothingDone
  else
    match (df <- load_and_process_data file ;;
           sorted_sewers <- group_and_sort_sewers df ;;
           generate_gantt_chart df sorted_sewers) with
    | Ok chart => ChartShown chart
    | Raise e =>
        ErrorBox "Error"
                 ("An error occurred:" ++ newline ++ exception_text e)%string
    end.
End Desktop.

(** ** A sample of the library for running the model *)

Definition digit (c : ascii) : option Z :=
  let n := nat_of_ascii c in
  if ((48 <=? n) && (n <=? 57))%nat then Some (Z.of_nat (n - 48)) else None.

Definition number (cs : list ascii) : option Z :=
  fold_left (fun acc c =>
               match acc, digit c with
               | Some a, Some d => Some (10 * a + d)
               | _, _ => None
               end) cs (Some 0).

(** The leading digits of a text and what follows them. *)
Fixpoint span_digits (cs : list ascii) : list ascii * list ascii :=
  match cs with
  | [] => ([], [])
  | c :: cs' =>
      match digit c with
      | Some _ => let '(ds, rest) := span_digits cs' in (c :: ds, rest)
      | None => ([], cs)
      end
  end.

Fixpoint skip_spaces (cs : list ascii) : list ascii :=
  match cs with
  | [] => []
  | c :: cs' => if is_space c then skip_spaces cs' else cs
  end.

(** A field of one or two digits. *)
Definition short_number (ds : list ascii) : option Z :=
  match ds with
  | [_] | [_; _] => number ds
  | _ => None
  end.

Definition is_leap (y : Z) : bool :=
  ((y mod 4 =? 0) && negb (y mod 100 =? 0)) || (y mod 400 =? 0).

Definition days_in_month (y m : Z) : Z :=
  if m =? 2 then (if is_leap y then 29 else 28)
  else if (m =? 4) || (m =? 6) || (m =? 9) || (m =? 11) then 30 else 31.

(** Days between 1970-01-01 and the given civil date. *)
Definition days_from_civil (y m d : Z) : Z :=
  let y' := if m <=? 2 then y - 1 else y in
  let era := y' / 400 in
  let yoe := y' - era * 400 in
  let mp := (m + 9) mod 12 in
  let doy := (153 * mp + 2) / 5 + d - 1 in
  let doe := yoe * 365 + yoe / 4 - yoe / 100 + doy in
  era * 146097 + doe - 719468.

(** The timestamp of a date and a time of day, when the date exists and the
    timestamp is in the range of pandas. *)
Definition timestamp_of (y m d h n : Z) : option Timestamp :=
  let t := ((days_from_civil y m d * 24 + h) * 60 + n) * ns_per_minute in
  if (1 <=? m) && (m <=? 12) && (1 <=? d) && (d <=? days_in_month y m)
     && (h <=? 23) && (n <=? 59) && in_time_range t
  then Some t else None.

(** The minutes: one digit, or two of which the first is at most 5. *)
Definition parse_minute (cs : list ascii) : option Z :=
  match cs with
  | [_] | [_; _] => number cs
  | _ => None
  end.

Definition parse_time (y m d : Z) (cs : list ascii) : option Timestamp :=
  let '(hs, rest) := span_digits cs in
  match short_number hs, rest with
  | Some h, ":"%char :: ns =>
      match parse_minute ns with
      | Some n => timestamp_of y m d h n
      | None => None
      end
  | _, _ => None
  end.

(** The day, then whitespace, then the time.  The day is written with one or
    two digits, or with a space and one digit. *)
Definition parse_day_time (y m : Z) (cs : list ascii) : option Timestamp :=
  let '(ds, rest) :=
    match cs with
    | " "%char :: c :: cs' => ([c], cs')
    | _ => span_digits cs
    end in
  match short_number ds, rest with
  | Some d, c :: rest' =>
      if is_space c then parse_time y m d (skip_spaces rest') else None
  | _, _ => None
  end.

(** A sample of the conversion of pandas under the format [%Y-%m-%d %H:%M]:
    a year of four digits, then month, day, hour and minute of one or two
    digits each, an existing date and a timestamp in the range of pandas. *)
Definition strptime_sample (s : string) : option Timestamp :=
  match list_ascii_of_string s with
  | y1 :: y2 :: y3 :: y4 :: "-"%char :: cs =>
      let '(ms, rest) := span_digits cs in
      match number [y1; y2; y3; y4], short_number ms, rest with
      | Some y, Some m, "-"%char :: cs' => parse_day_time y m cs'
      | _, _, _ => None
      end
  | _ => None
  end.

(** A text that is an integer: an optional minus sign and digits. *)
Definition integer_of_text (s : string) : option Z :=
  match list_ascii_of_string s with
  | [] => None
  | ["-"%char] => None
  | "-"%char :: cs => option_map Z.opp (number cs)
  | cs => number cs
  end.

Definition integer_of_value (v : Value) : option Z :=
  match v with
  | VInt z => Some z
  | VStr s => integer_of_text s
  end.

(** A column with lines whose cells are all integers comes back as a column
    of integers. *)
Definition all_integers (cells : list Value) : bool :=
  match cells with
  | [] => false
  | _ :: _ =>
      forallb (fun v => match integer_of_value v with
                        | Some _ => true
                        | None => false
                        end) cells
  end.

Definition retype (as_integer : bool) (v : Value) : Value :=
  if as_integer then
    match integer_of_value v with
    | Some z => VInt z
    | None => v
    end
  else v.

Definition read_json_sample (df : DataFrame) : DataFrame :=
  let sewers := all_integers (map sewer_name (rows df)) in
  let machines := all_integers (map machine_name (rows df)) in
  let types := all_integers (map sew_type (rows df)) in
  {| columns := columns df;
     rows := map (fun r =>
                    {| sewer_name := retype sewers (sewer_name r);
                       machine_name := retype machines (machine_name r);
                       sew_type := retype types (sew_type r);
                       start_time := start_time r;
                       operation_time := operation_time r;
                       end_time := end_time r |})
                 (rows df) |}.

(** The sample of the library: the conversion and the typing above; the
    texts of the library exceptions, which depend on the version of the
    library, are replaced by the name of the exception. *)
Definition sample_pandas : Pandas :=
  {| strptime := strptime_sample;
     library_message := fun e =>
       match e with
       | ValueError_time_data _ _ => "ValueError"
       | OutOfBoundsTimedelta _ => "OutOfBoundsTimedelta"
       | OutOfBoundsDatetime _ _ => "OutOfBoundsDatetime"
       | OutOfBoundsDifference _ _ => "OutOfBoundsTimedelta"
       | AttributeError_str => "AttributeError"
       | ValueError_ticklabels _ _ => "ValueError"
       | ValueError_axis_limits => "ValueError"
       | TypeError_not_iterable => "TypeError"
       | KeyError _ => "KeyError"
       | ReadError _ => "Exception"
       end;
     read_json := read_json_sample;
     read_json_columns := fun df => eq_refl;
     read_json_lines := fun df => length_map _ (rows df) |}.

(** The exact zero-padded form [YYYY-MM-DD HH:MM]: four digits, two, two,
    two and two. *)
Definition exact_form (s : string) : bool :=
  match list_ascii_of_string s with
  | [y1; y2; y3; y4; "-"%char; m1; m2; "-"%char; d1; d2; " "%char;
     h1; h2; ":"%char; n1; n2] =>
      match number [y1; y2; y3; y4; m1; m2; d1; d2; h1; h2; n1; n2] with
      | Some _ => true
      | None => false
      end
  | _ => false
  end.

(** The three lines of the scenario of the specification. *)
Definition scenario_rows : list RawRow :=
  [ mkRawRow (VStr "A") (VStr "M1") (VStr "X") "2024-01-01 08:00" 30;
    mkRawRow (VStr "A") (VStr "M1") (VStr "Y") "2024-01-01 09:00" 90;
    mkRawRow (VStr "B") (VStr "M1") (VStr "Y") "2024-01-01 08:00" 60 ].

Definition all_columns : list string :=
  ["Sewer Name"; "Machine Name"; "Sew Type"; "Start Time"; "Operation Time"].

Definition scenario_csv : CsvFrame :=
  {| csv_columns := all_columns; csv_rows := scenario_rows |}.

(** Two rows have the same sort key. *)
Definition same_key {A : Type} (leb : A -> A -> bool) (x y : A) : bool :=
  leb x y && leb y x.

(** Orders used for sorting: total and transitive boolean relations. *)
Class TotalPreorder {A : Type} (leb : A -> A -> bool) : Prop := {
  leb_total : forall x y, leb x y = true \/ leb y x = true;
  leb_trans : forall x y z, leb x y = true -> leb y z = true -> leb x z = true
}.

(** Comparisons that decide a strict total order. *)
Class TotalComparison {K : Type} (cmp : K -> K -> comparison) : Prop := {
  cmp_eq : forall x y, cmp x y = Eq <-> x = y;
  cmp_antisym : forall x y, cmp y x = CompOpp (cmp x y);
  cmp_lt_trans : forall x y z, cmp x y = Lt -> cmp y z = Lt -> cmp x z = Lt
}.

(** ** Vocabulary of the statements *)

(** A number of nanoseconds that is a timestamp or a duration of pandas. *)
Definition fits_time (t : Z) : Prop :=
  -9223372036854775807 <= t <= 9223372036854775807.

(** A number that is a 64-bit integer. *)
Definition fits_int64 (z : Z) : Prop :=
  -9223372036854775808 <= z <= 9223372036854775807.

(** The sewer name of a loaded line: the text of the cell, stripped. *)
Definition stripped_name (cell : Value) : Value :=
  VStr (str_strip (astype_str cell)).

Definition is_text (cell : Value) : Prop :=
  match cell with
  | VStr _ => True
  | VInt _ => False
  end.

(** The column Sewer Name of the file holds texts. *)
Definition text_sewer_names (df : CsvFrame) : Prop :=
  Forall (fun row => is_text (raw_sewer_name row)) (csv_rows df).

Section LoaderVocabulary.
Context `{PD : Pandas}.

(** [r] is the record derived from the line [row]: the name stripped, the
    start time converted, the end time the start time plus the operation
    time in minutes. *)
Definition derives (machine : RawRow -> Value) (row : RawRow)
    (r : ScheduleRecord) : Prop :=
  exists t, strptime (raw_start_time row) = Some t
            /\ r = {| sewer_name := stripped_name (raw_sewer_name row);
                      machine_name := machine row;
                      sew_type := raw_sew_type row;
                      start_time := t;
                      operation_time := raw_operation_time row;
                      end_time := t + raw_operation_time row * (60 * 1000000000) |}.

(** The machine name a dashboard record gets. *)
Definition machine_or_unknown (cols : list string) : RawRow -> Value :=
  if has_column cols "Machine Name" then raw_machine_name
  else fun _ => VStr "Unknown".

(** Every start time of the file is accepted by the conversion. *)
Definition all_start_times_match (df : CsvFrame) : Prop :=
  Forall (fun row => strptime (raw_start_time row) <> None) (csv_rows df).

(** Some start time of the file is rejected by the conversion. *)
Definition some_start_time_mismatch (df : CsvFrame) : Prop :=
  Exists (fun row => strptime (raw_start_time row) = None) (csv_rows df).

(** [v], at [position], is the first cell that is rejected. *)
Definition first_mismatch (cells : list string) (v : string) (position : nat)
  : Prop :=
  nth_error cells position = Some v
  /\ strptime v = None
  /\ forall j w, (j < position)%nat -> nth_error cells j = Some w ->
                 strptime w <> None.

(** The operation time of the line is a duration of pandas (at most
    153722867 minutes either way), and so is the end time a timestamp. *)
Definition duration_fits (row : RawRow) : Prop :=
  fits_time (raw_operation_time row * (60 * 1000000000))
  /\ forall t, strptime (raw_start_time row) = Some t ->
               fits_time (t + raw_operation_time row * (60 * 1000000000)).

Definition durations_fit (df : CsvFrame) : Prop :=
  Forall duration_fits (csv_rows df).

(** The failed uploads: the text is not a readable CSV, a required column
    is missing, or a start time is rejected by the conversion. *)
Inductive upload_failed : Result CsvFrame -> Prop :=
| unreadable_csv e : upload_failed (Raise e)
| missing_column df col :
    In col required_columns -> ~ In col (csv_columns df) ->
    upload_failed (Ok df)
| unparseable_start_time df :
    some_start_time_mismatch df -> upload_failed (Ok df).
End LoaderVocabulary.

(** A file has the required columns. *)
Definition has_required_columns (df : CsvFrame) : Prop :=
  forall col, In col required_columns -> In col (csv_columns df).

(** The cell holds nothing but whitespace. *)
Fixpoint whitespace_only (s : string) : bool :=
  match s with
  | EmptyString => true
  | String c s' => is_space c && whitespace_only s'
  end.

(** [col] is the first required column that the header [cols] lacks. *)
Definition first_missing (cols : list string) (col : string) : Prop :=
  exists before after,
    required_columns = before ++ col :: after
    /\ ~ In col cols
    /\ forall c, In c before -> In c cols.

(** The end time is the start time plus the operation time in minutes. *)
Definition end_after_minutes (r : ScheduleRecord) : Prop :=
  end_time r = start_time r + operation_time r * (60 * 1000000000).

(** [l] lists the distinct members of [values] in strictly ascending
    order: numerically for integers, lexically for texts. *)
Definition sorted_distinct (l values : list Value) : Prop :=
  StronglySorted (fun a b => value_ltb a b = true) l
  /\ forall x, In x l <-> In x values.

Definition ALL : Selection := Some (VStr "ALL").

(** The key of a line of [grouped]. *)
Definition group_key_of_row (g : GroupRow) : Value * Value :=
  (g_sewer_name g, g_sew_type g).

(** Among the lines [G] of [grouped], [g] is the one [idxmax] selects for
    its sewer: no line of the sewer has a larger time, and the lines of the
    sewer with the same time have a sew type that is not smaller. *)
Definition selected (G : list GroupRow) (g : GroupRow) : Prop :=
  In g G
  /\ (forall g', In g' G -> g_sewer_name g' = g_sewer_name g ->
                 g_operation_time g' <= g_operation_time g)
  /\ (forall g', In g' G -> g_sewer_name g' = g_sewer_name g ->
                 g_operation_time g' = g_operation_time g ->
                 value_leb (g_sew_type g) (g_sew_type g') = true).

(** [a] comes before [b] in the list. *)
Definition precedes {A : Type} (l : list A) (a b : A) : Prop :=
  exists l1 l2 l3, l = l1 ++ a :: l2 ++ b :: l3.

(** The minutes the entity [e] spends in the category [c]: the sum of the
    operation times, as a mathematical integer. *)
Definition total_minutes (rs : list ScheduleRecord) (e c : Value) : Z :=
  exact_sum
    (map operation_time
         (filter (fun r => value_eqb (sewer_name r) e && value_eqb (sew_type r) c)
                 rs)).

(** The same total as the 64-bit integer it wraps to. *)
Definition int64_total (rs : list ScheduleRecord) (e c : Value) : Z :=
  wrap_int64 (total_minutes rs e c).

(** Some record of the entity [e] has the category [c]. *)
Definition works_in (rs : list ScheduleRecord) (e c : Value) : Prop :=
  exists r, In r rs /\ sewer_name r = e /\ sew_type r = c.

(** The totals of the entities in their categories are 64-bit integers. *)
Definition totals_fit (rs : list ScheduleRecord) : Prop :=
  forall e c, works_in rs e c -> fits_int64 (total_minutes rs e c).

(** The line of the table [dominant] for the entity [e], and the category
    the ranker has selected for it. *)
Definition dominant_row (rs : list ScheduleRecord) (e : Value)
  : option GroupRow :=
  find (fun g => value_eqb (g_sewer_name g) e) (dominant rs).

Definition dominant_category (rs : list ScheduleRecord) (e : Value)
  : option Value :=
  option_map g_sew_type (dominant_row rs e).

(** The tie-break of the specification: among the categories of [e] in the
    order in which the lines first show them, the first whose total is the
    largest. *)
Definition categories_in_row_order (rs : list ScheduleRecord) (e : Value)
  : list Value :=
  unique value_eqb
    (map sew_type (filter (fun r => value_eqb (sewer_name r) e) rs)).

Definition first_seen_dominant (rs : list ScheduleRecord) (e : Value)
  : option Value :=
  let categories := categories_in_row_order rs e in
  find (fun c =>
          forallb (fun c' => total_minutes rs e c' <=? total_minutes rs e c)
                  categories)
       categories.


(** The table the dashboard stores for the scenario. *)
Definition scenario_records : list ScheduleRecord :=
  [ mkRecord (VStr "A") (VStr "M1") (VStr "X")
             1704096000000000000 30 1704097800000000000;
    mkRecord (VStr "A") (VStr "M1") (VStr "Y")
             1704099600000000000 90 1704105000000000000;
    mkRecord (VStr "B") (VStr "M1") (VStr "Y")
             1704096000000000000 60 1704099600000000000 ].

Definition scenario_data : DataFrame :=
  {| columns := all_columns ++ ["End Time"]; rows := scenario_records |}.

(** One sewer, two sew types with the same total, Y on the first line. *)
Definition tie_records : list ScheduleRecord :=
  [ mkRecord (VStr "A") (VStr "M1") (VStr "Y")
             1704096000000000000 30 1704097800000000000;
    mkRecord (VStr "A") (VStr "M1") (VStr "X")
             1704099600000000000 30 1704101400000000000 ].


(** Sample files. *)

(** Two lines whose sewers are not in ascending order. *)
Definition unordered_csv : CsvFrame :=
  {| csv_columns := all_columns;
     csv_rows := [ mkRawRow (VStr "B") (VStr "M1") (VStr "X") "2024-01-01 08:00" 30;
                   mkRawRow (VStr "A") (VStr "M1") (VStr "X") "2024-01-01 08:00" 30 ] |}.

(** A file without the column [Sew Type]. *)
Definition no_sew_type_csv : CsvFrame :=
  {| csv_columns := ["Sewer Name"; "Start Time"; "Operation Time"];
     csv_rows := [ mkRawRow (VStr "A") (VStr "") (VStr "") "2024-01-01 08:00" 30 ] |}.

(** A file of two lines without the column [Sew Type]. *)
Definition two_lines_no_sew_type_csv : CsvFrame :=
  {| csv_columns := ["Sewer Name"; "Start Time"; "Operation Time"];
     csv_rows := [ mkRawRow (VStr "A") (VStr "") (VStr "") "2024-01-01 08:00" 30;
                   mkRawRow (VStr "B") (VStr "") (VStr "") "2024-01-01 09:00" 60 ] |}.

(** A file without the column [Sewer Name]. *)
Definition no_sewer_name_csv : CsvFrame :=
  {| csv_columns := ["Start Time"; "Operation Time"; "Sew Type"];
     csv_rows := [ mkRawRow (VStr "") (VStr "") (VStr "X") "2024-01-01 08:00" 30 ] |}.

(** A line whose sewer name holds two spaces only. *)
Definition blank_name_csv : CsvFrame :=
  {| csv_columns := all_columns;
     csv_rows := [ mkRawRow (VStr "  ") (VStr "M1") (VStr "X") "2024-01-01 08:00" 30 ] |}.

(** The second start time is not in the format. *)
Definition bad_time_csv : CsvFrame :=
  {| csv_columns := all_columns;
     csv_rows := [ mkRawRow (VStr "A") (VStr "M1") (VStr "X") "2024-01-01 08:00" 30;
                   mkRawRow (VStr "B") (VStr "M1") (VStr "Y") "01/01/2024 9am" 60 ] |}.

(** A start time whose month, day and hour are written without padding. *)
Definition unpadded_time_csv : CsvFrame :=
  {| csv_columns := all_columns;
     csv_rows := [ mkRawRow (VStr "A") (VStr "M1") (VStr "X") "2024-1-1 8:00" 30 ] |}.

(** An operation time of 200000000000 minutes. *)
Definition long_operation_csv : CsvFrame :=
  {| csv_columns := all_columns;
     csv_rows := [ mkRawRow (VStr "A") (VStr "M1") (VStr "X") "2024-01-01 08:00"
                            200000000000 ] |}.

(** Sewer names that are numbers. *)
Definition numbered_sewers_csv : CsvFrame :=
  {| csv_columns := all_columns;
     csv_rows := [ mkRawRow (VInt 10) (VStr "M1") (VStr "X") "2024-01-01 08:00" 30;
                   mkRawRow (VInt 7) (VStr "M1") (VStr "Y") "2024-01-01 09:00" 60 ] |}.

(** ** Vocabulary of the further statements *)

(** The record passes the filter [v] on the column [f]: nothing is selected,
    the selection is empty, zero or ALL, or the record has the selected
    value. *)
Definition satisfies (f : Field) (v : Selection) (r : ScheduleRecord) : bool :=
  match v with
  | None => true
  | Some s =>
      value_eqb s (VStr "") || value_eqb s (VInt 0) || value_eqb s (VStr "ALL")
      || value_eqb (field_value f r) s
  end.

(** The records that pass the three filters. *)
Definition matching (machine_filter sewtype_filter sewer_filter : Selection)
    (rs : list ScheduleRecord) : list ScheduleRecord :=
  filter (fun r => satisfies MachineName machine_filter r
                   && satisfies SewType sewtype_filter r
                   && satisfies SewerName sewer_filter r) rs.

(** The options of the dropdown that filters the column [f]. *)
Definition dropdown (f : Field) (controls : FilterControls)
  : list DropdownOption :=
  match f with
  | MachineName => machine_options controls
  | SewType => sewtype_options controls
  | SewerName => sewer_options controls
  end.

(** The filter values when only the dropdown of [f] is moved, to [v]. *)
Definition only_filter (f g : Field) (v : Value) : Selection :=
  match f, g with
  | MachineName, MachineName | SewType, SewType | SewerName, SewerName => Some v
  | _, _ => ALL
  end.

(** The filter value that bears on the column [f]. *)
Definition filter_on (f : Field)
    (machine_filter sewtype_filter sewer_filter : Selection) : Selection :=
  match f with
  | MachineName => machine_filter
  | SewType => sewtype_filter
  | SewerName => sewer_filter
  end.

Definition starts_with_space (s : string) : bool :=
  match s with
  | EmptyString => false
  | String c _ => is_space c
  end.

Fixpoint ends_with_space (s : string) : bool :=
  match s with
  | EmptyString => false
  | String c EmptyString => is_space c
  | String _ s' => ends_with_space s'
  end.

(** The cell is a text that neither begins nor ends with whitespace. *)
Definition is_stripped (cell : Value) : Prop :=
  exists s, cell = VStr s
            /\ starts_with_space s = false
            /\ ends_with_space s = false
            /\ str_strip s = s.

(** The three keys that order the output of the ranker: the dominant sew
    type, the 64-bit total in it and the name. *)
Definition ranks_before (rs : list ScheduleRecord) (a b : Value) : Prop :=
  exists ca cb,
    dominant_category rs a = Some ca /\ dominant_category rs b = Some cb
    /\ (value_ltb ca cb = true
        \/ (ca = cb
            /\ (int64_total rs b cb < int64_total rs a ca
                \/ (int64_total rs b cb = int64_total rs a ca
                    /\ value_ltb a b = true)))).

(** The record lasts a duration of pandas. *)
Definition span_fits (r : ScheduleRecord) : Prop :=
  fits_time (end_time r - start_time r).

(** The table the desktop loader returns for the scenario. *)
Definition scenario_desktop : DataFrame :=
  {| columns := all_columns ++ ["End Time"]; rows := scenario_records |}.

(** The attribute [x] of the trace is not [None]. *)
Definition x_is_set {V O : Type} (trace : Trace (V := V) (O := O)) : Prop :=
  trace_x trace <> XNone.

(** The number of values of the trace, when it has values. *)
Definition values_count {V O : Type} (trace : Trace (V := V) (O := O))
  : option nat :=
  match trace_x trace with
  | XValues xs => Some (List.length xs)
  | _ => None
  end.

(** The values of the trace, when it has values, are not durations. *)
Definition no_timedelta {V O : Type} (trace : Trace (V := V) (O := O)) : Prop :=
  forall xs, trace_x trace = XValues xs -> Forall is_plain xs.

(* ===================================================================== *)
(** * Part II: properties                                                 *)
(* ===================================================================== *)

(** ** The order of the cells *)

Lemma string_compare_refl (s : string) : String.compare s s = Eq.
Proof. now apply String_as_OT.cmp_eq. Qed.

Lemma string_compare_lt_trans (a b c : string) :
  String.compare a b = Lt -> String.compare b c = Lt -> String.compare a c = Lt.
Proof.
  intros Hab Hbc.
  apply String_as_OT.cmp_lt.
  apply String_as_OT.lt_trans with b; now apply String_as_OT.cmp_lt.
Qed.

Lemma value_eqb_eq (a b : Value) : value_eqb a b = true <-> a = b.
Proof.
  destruct a as [x|s], b as [y|t]; simpl.
  - rewrite Z.eqb_eq. split; [now intros ->|now intros [= ->]].
  - split; discriminate.
  - split; discriminate.
  - rewrite String.eqb_eq. split; [now intros ->|now intros [= ->]].
Qed.

Lemma value_eqb_refl (a : Value) : value_eqb a a = true.
Proof. now apply value_eqb_eq. Qed.

Lemma value_eqb_neq (a b : Value) : value_eqb a b = false <-> a <> b.
Proof.
  rewrite <- value_eqb_eq. destruct (value_eqb a b); split; congruence.
Qed.

#[export] Instance value_compare_total : TotalComparison value_compare.
Proof.
  split.
  - intros [x|s] [y|t]; simpl.
    + rewrite Z.compare_eq_iff. split; [now intros ->|now intros [= ->]].
    + split; discriminate.
    + split; discriminate.
    + split.
      * intros E. apply String.compare_eq_iff in E. now subst.
      * intros [= ->]. apply string_compare_refl.
  - intros [x|s] [y|t]; simpl; try reflexivity.
    + apply Z.compare_antisym.
    + apply String.compare_antisym.
  - intros [x|s] [y|t] [z|u]; simpl; try discriminate; try reflexivity.
    + rewrite !Z.compare_lt_iff. lia.
    + apply string_compare_lt_trans.
Qed.

Section Comparisons.
Context {K : Type} (cmp : K -> K -> comparison) `{!TotalComparison cmp}.

Lemma cmp_refl (x : K) : cmp x x = Eq.
Proof. now apply cmp_eq. Qed.

Lemma cmp_gt_lt (x y : K) : cmp x y = Gt <-> cmp y x = Lt.
Proof.
  rewrite (cmp_antisym (cmp := cmp) x y).
  destruct (cmp x y); simpl; split; congruence.
Qed.
End Comparisons.

Lemma value_compare_refl (a : Value) : value_compare a a = Eq.
Proof. apply cmp_refl. typeclasses eauto. Qed.

Lemma value_leb_refl (a : Value) : value_leb a a = true.
Proof. unfold value_leb. now rewrite value_compare_refl. Qed.

Lemma value_ltb_irrefl (a : Value) : value_ltb a a = false.
Proof. unfold value_ltb. now rewrite value_compare_refl. Qed.

Lemma value_leb_antisym (a b : Value) :
  value_leb a b = true -> value_leb b a = true -> a = b.
Proof.
  unfold value_leb. rewrite (cmp_antisym (cmp := value_compare) a b).
  destruct (value_compare a b) eqn:E; simpl; try discriminate.
  intros _ _. now apply (cmp_eq (cmp := value_compare)).
Qed.

Lemma value_ltb_leb (a b : Value) :
  value_ltb a b = true <-> value_leb a b = true /\ a <> b.
Proof.
  unfold value_ltb, value_leb.
  destruct (value_compare a b) eqn:E.
  - apply (cmp_eq (cmp := value_compare)) in E.
    split; [discriminate|]. now intros [_ Hne].
  - split; [|reflexivity]. intros _. split; [reflexivity|]. intros ->.
    rewrite value_compare_refl in E. discriminate.
  - split; [discriminate|]. now intros [? _].
Qed.

Lemma value_ltb_asym (a b : Value) :
  value_ltb a b = true -> value_ltb b a = true -> False.
Proof.
  rewrite !value_ltb_leb. intros [Hab Hne] [Hba _].
  apply Hne. now apply value_leb_antisym.
Qed.

(** On two integers the order is the numeric one, on two texts the lexical
    one. *)
Lemma value_ltb_cells :
  (forall x y, value_ltb (VInt x) (VInt y) = (x <? y))
  /\ (forall s t, value_ltb (VStr s) (VStr t) = String.ltb s t).
Proof.
  split.
  - intros x y. unfold value_ltb. simpl. unfold Z.ltb.
    now destruct (x ?= y).
  - intros s t. reflexivity.
Qed.

#[export] Instance comparison_leb_preorder {K : Type}
    (cmp : K -> K -> comparison) `{!TotalComparison cmp} :
  TotalPreorder (fun x y => match cmp x y with Gt => false | _ => true end).
Proof.
  split.
  - intros x y. rewrite (cmp_antisym (cmp := cmp) x y).
    destruct (cmp x y); simpl; auto.
  - intros x y z.
    destruct (cmp x y) eqn:Exy; try discriminate;
      destruct (cmp y z) eqn:Eyz; try discriminate; intros _ _.
    + apply (cmp_eq (cmp := cmp)) in Exy, Eyz. subst.
      now rewrite (cmp_refl cmp).
    + apply (cmp_eq (cmp := cmp)) in Exy. subst. now rewrite Eyz.
    + apply (cmp_eq (cmp := cmp)) in Eyz. subst. now rewrite Exy.
    + now rewrite (cmp_lt_trans (cmp := cmp) _ _ _ Exy Eyz).
Qed.

#[export] Instance value_leb_preorder : TotalPreorder value_leb.
Proof. unfold value_leb. apply comparison_leb_preorder. typeclasses eauto. Qed.

#[export] Instance Z_leb_preorder : TotalPreorder Z.leb.
Proof. split; intros; lia. Qed.

#[export] Instance by_key_preorder {A K : Type} (key : A -> K)
    (leb : K -> K -> bool) `{!TotalPreorder leb} :
  TotalPreorder (by_key key leb).
Proof.
  split; unfold by_key.
  - intros x y. apply leb_total.
  - intros x y z. apply leb_trans.
Qed.

(** A first key with a total comparison, then any total preorder: a total
    preorder. *)
#[export] Instance lex_preorder {A K : Type} (key : A -> K)
    (cmp : K -> K -> comparison) `{!TotalComparison cmp}
    (leb2 : A -> A -> bool) `{!TotalPreorder leb2} :
  TotalPreorder (lex_leb (by_key key cmp) leb2).
Proof.
  split; unfold lex_leb, by_key.
  - intros x y. rewrite (cmp_antisym (cmp := cmp) (key x) (key y)).
    destruct (cmp (key x) (key y)); simpl; auto.
    apply leb_total.
  - intros x y z.
    destruct (cmp (key x) (key y)) eqn:Exy; try discriminate;
      destruct (cmp (key y) (key z)) eqn:Eyz; try discriminate.
    + apply (cmp_eq (cmp := cmp)) in Exy, Eyz. rewrite Exy, Eyz.
      rewrite (cmp_refl cmp). apply leb_trans.
    + apply (cmp_eq (cmp := cmp)) in Exy. rewrite Exy, Eyz. reflexivity.
    + apply (cmp_eq (cmp := cmp)) in Eyz. rewrite <- Eyz, Exy. reflexivity.
    + rewrite (cmp_lt_trans (cmp := cmp) _ _ _ Exy Eyz). reflexivity.
Qed.

#[export] Instance Z_geb_preorder {A : Type} (key : A -> Z) :
  TotalPreorder (fun x y => key y <=? key x).
Proof. split; intros; lia. Qed.

#[export] Instance pair_leb_preorder : TotalPreorder pair_leb.
Proof. unfold pair_leb. typeclasses eauto. Qed.

#[export] Instance sewer_start_leb_preorder : TotalPreorder sewer_start_leb.
Proof. unfold sewer_start_leb. typeclasses eauto. Qed.

#[export] Instance dominant_leb_preorder : TotalPreorder dominant_leb.
Proof. unfold dominant_leb. typeclasses eauto. Qed.

Lemma pair_eqb_eq (a b : Value * Value) : pair_eqb a b = true <-> a = b.
Proof.
  unfold pair_eqb. destruct a as [a1 a2], b as [b1 b2]; simpl.
  rewrite andb_true_iff, !value_eqb_eq. split.
  - now intros [-> ->].
  - intros E. now inversion E.
Qed.

Lemma pair_leb_antisym (a b : Value * Value) :
  pair_leb a b = true -> pair_leb b a = true -> a = b.
Proof.
  unfold pair_leb, lex_leb, by_key. destruct a as [a1 a2], b as [b1 b2]; simpl.
  rewrite (cmp_antisym (cmp := value_compare) a1 b1).
  destruct (value_compare a1 b1) eqn:E; simpl; try discriminate.
  apply (cmp_eq (cmp := value_compare)) in E. subst.
  intros H1 H2. f_equal. now apply value_leb_antisym.
Qed.

(** ** 64-bit integers *)

Lemma wrap_int64_fits (z : Z) : fits_int64 z -> wrap_int64 z = z.
Proof.
  unfold fits_int64, wrap_int64. intros Hz.
  rewrite Z.mod_small by lia. lia.
Qed.

Lemma wrap_int64_range (z : Z) : fits_int64 (wrap_int64 z).
Proof.
  unfold fits_int64, wrap_int64.
  pose proof (Z.mod_pos_bound (z + 9223372036854775808) 18446744073709551616).
  lia.
Qed.

Lemma wrap_int64_add_l (a b : Z) : wrap_int64 (wrap_int64 a + b) = wrap_int64 (a + b).
Proof.
  unfold wrap_int64. f_equal.
  replace ((a + 9223372036854775808) mod 18446744073709551616
           - 9223372036854775808 + b + 9223372036854775808)
    with ((a + 9223372036854775808) mod 18446744073709551616 + b) by lia.
  rewrite Zplus_mod_idemp_l. f_equal. lia.
Qed.

Lemma wrap_int64_add_r (a b : Z) : wrap_int64 (a + wrap_int64 b) = wrap_int64 (a + b).
Proof. rewrite (Z.add_comm a), wrap_int64_add_l. f_equal. lia. Qed.

Lemma in_time_range_fits (t : Z) : in_time_range t = true <-> fits_time t.
Proof.
  unfold in_time_range, fits_time, int64_max.
  rewrite andb_true_iff, !Z.leb_le. lia.
Qed.

Lemma in_time_range_not (t : Z) : in_time_range t = false <-> ~ fits_time t.
Proof.
  rewrite <- in_time_range_fits. destruct (in_time_range t); split; congruence.
Qed.

(** ** [unique] and [sort_values] *)

Section TableFacts.
Context {A : Type}.

Lemma unique_In (eqb : A -> A -> bool)
    (eqb_eq : forall x y, eqb x y = true <-> x = y) (l : list A) (x : A) :
  In x (unique eqb l) <-> In x l.
Proof.
  induction l as [|y l IH]; simpl; [tauto|].
  rewrite filter_In, IH, negb_true_iff.
  split.
  - tauto.
  - intros [->|Hin]; [now left|].
    destruct (eqb y x) eqn:E.
    + left. now apply eqb_eq.
    + right. now split.
Qed.

Lemma unique_NoDup (eqb : A -> A -> bool)
    (eqb_eq : forall x y, eqb x y = true <-> x = y) (l : list A) :
  NoDup (unique eqb l).
Proof.
  induction l as [|y l IH]; simpl; constructor.
  - rewrite filter_In, negb_true_iff. intros [_ E].
    assert (eqb y y = true) by now apply eqb_eq. congruence.
  - now apply NoDup_filter.
Qed.

Lemma insert_sorted_perm (leb : A -> A -> bool) (x : A) (l : list A) :
  Permutation (x :: l) (insert_sorted leb x l).
Proof.
  induction l as [|y l IH]; simpl; [reflexivity|].
  destruct (leb x y); [reflexivity|].
  rewrite perm_swap. now constructor.
Qed.

Lemma sort_values_perm (leb : A -> A -> bool) (l : list A) :
  Permutation l (sort_values leb l).
Proof.
  induction l as [|x l IH]; simpl; [constructor|].
  rewrite <- insert_sorted_perm. now constructor.
Qed.

Lemma sort_values_In (leb : A -> A -> bool) (l : list A) (x : A) :
  In x (sort_values leb l) <-> In x l.
Proof.
  split; apply Permutation_in;
    [symmetry|]; apply sort_values_perm.
Qed.

Lemma sort_values_NoDup (leb : A -> A -> bool) (l : list A) :
  NoDup l -> NoDup (sort_values leb l).
Proof. apply Permutation_NoDup, sort_values_perm. Qed.

Lemma sort_values_length (leb : A -> A -> bool) (l : list A) :
  List.length (sort_values leb l) = List.length l.
Proof. symmetry. apply Permutation_length, sort_values_perm. Qed.

Section Sorted.
Context (leb : A -> A -> bool) `{!TotalPreorder leb}.

Let le (x y : A) : Prop := leb x y = true.

Lemma insert_sorted_sorted (x : A) (l : list A) :
  StronglySorted le l -> StronglySorted le (insert_sorted leb x l).
Proof.
  induction l as [|y l IH]; simpl; intros Hs.
  - repeat constructor.
  - inversion Hs as [|? ? Hl Hy]; subst.
    destruct (leb x y) eqn:E.
    + constructor; [assumption|]. constructor; [exact E|].
      apply Forall_impl with (2 := Hy). intros z Hz.
      unfold le in *. now apply leb_trans with y.
    + constructor; [now apply IH|].
      assert (Hyx : le y x).
      { unfold le. destruct (leb_total x y); congruence. }
      apply Forall_forall. intros z Hz.
      apply (Permutation_in _ (Permutation_sym (insert_sorted_perm leb x l)))
        in Hz.
      destruct Hz as [<-|Hz]; [assumption|].
      rewrite Forall_forall in Hy. now apply Hy.
Qed.

Lemma sort_values_sorted (l : list A) :
  StronglySorted le (sort_values leb l).
Proof.
  induction l as [|x l IH]; simpl; [constructor|].
  now apply insert_sorted_sorted.
Qed.

(** The sort is stable: rows with the same key keep their order. *)
Lemma insert_sorted_same_key (x a : A) (l : list A) :
  filter (same_key leb x) (insert_sorted leb a l)
  = if same_key leb x a then a :: filter (same_key leb x) l
    else filter (same_key leb x) l.
Proof.
  induction l as [|y l IH]; simpl; [reflexivity|].
  destruct (leb a y) eqn:E; simpl; [reflexivity|].
  rewrite IH.
  destruct (same_key leb x a) eqn:Ea; [|reflexivity].
  destruct (same_key leb x y) eqn:Ey; [|reflexivity].
  unfold same_key in Ea, Ey. apply andb_true_iff in Ea, Ey.
  destruct Ea as [_ Hax], Ey as [Hxy _].
  rewrite (leb_trans _ _ _ Hax Hxy) in E. discriminate.
Qed.

Lemma sort_values_stable (x : A) (l : list A) :
  filter (same_key leb x) (sort_values leb l) = filter (same_key leb x) l.
Proof.
  induction l as [|a l IH]; simpl; [reflexivity|].
  rewrite insert_sorted_same_key, IH. reflexivity.
Qed.
End Sorted.
End TableFacts.

(** ** Pointwise relations between two lists *)

Lemma Forall2_In_l {A B : Type} (R : A -> B -> Prop) (l : list A) (l' : list B)
    (x : A) :
  Forall2 R l l' -> In x l -> exists y, In y l' /\ R x y.
Proof.
  induction 1 as [|a b l l' Hab _ IH]; simpl; [tauto|].
  intros [<-|Hin].
  - exists b. auto.
  - destruct (IH Hin) as (y & Hy & Hxy). exists y. auto.
Qed.

Lemma Forall2_In_r {A B : Type} (R : A -> B -> Prop) (l : list A) (l' : list B)
    (y : B) :
  Forall2 R l l' -> In y l' -> exists x, In x l /\ R x y.
Proof.
  induction 1 as [|a b l l' Hab _ IH]; simpl; [tauto|].
  intros [<-|Hin].
  - exists a. auto.
  - destruct (IH Hin) as (x & Hx & Hxy). exists x. auto.
Qed.

Lemma Forall2_same_length {A B : Type} (R : A -> B -> Prop) (l : list A)
    (l' : list B) :
  Forall2 R l l' -> List.length l = List.length l'.
Proof. induction 1; simpl; congruence. Qed.

(** ** Loops that can raise *)

Lemma for_each_spec {A B : Type} (body : A -> Result B) (l : list A) :
  match for_each body l with
  | Ok bs => Forall2 (fun a b => body a = Ok b) l bs
  | Raise e =>
      exists before a after,
        l = before ++ a :: after /\ body a = Raise e
        /\ Forall (fun a' => exists b, body a' = Ok b) before
  end.
Proof.
  induction l as [|a l IH]; simpl; [constructor|].
  destruct (body a) as [b|e] eqn:Ea; simpl.
  - destruct (for_each body l) as [bs|e]; simpl.
    + now constructor.
    + destruct IH as (before & a' & after & -> & Ha' & Hb).
      exists (a :: before), a', after. split; [reflexivity|].
      split; [exact Ha'|]. constructor; [now exists b|exact Hb].
  - exists [], a, l. repeat split; [exact Ea|constructor].
Qed.

Lemma for_each_all {A B : Type} (body : A -> Result B) (l : list A) :
  (forall a, In a l -> exists b, body a = Ok b) ->
  exists bs, for_each body l = Ok bs
             /\ Forall2 (fun a b => body a = Ok b) l bs.
Proof.
  intros Hall. pose proof (for_each_spec body l) as Hs.
  destruct (for_each body l) as [bs|e]; [now exists bs|].
  destruct Hs as (before & a & after & -> & Ha & _).
  destruct (Hall a (in_elt _ _ _)) as (b & Hb). congruence.
Qed.

Lemma for_each_raises {A B : Type} (body : A -> Result B)
    (before after : list A) (a : A) (e : PyError) :
  (forall a', In a' before -> exists b, body a' = Ok b) ->
  body a = Raise e ->
  for_each body (before ++ a :: after) = Raise e.
Proof.
  intros Hb Ha. induction before as [|a0 before IH]; simpl.
  - now rewrite Ha.
  - destruct (Hb a0 (or_introl eq_refl)) as (b & ->). simpl.
    rewrite IH; [reflexivity|]. intros a' Ha'. apply Hb. now right.
Qed.

(** A loop whose body checks [P] and otherwise computes [f]. *)
Lemma for_each_checked {A B : Type} (body : A -> Result B) (f : A -> B)
    (P : A -> Prop) (l : list A) :
  (forall a, match body a with
             | Ok b => b = f a /\ P a
             | Raise _ => ~ P a
             end) ->
  match for_each body l with
  | Ok bs => bs = map f l /\ Forall P l
  | Raise _ => ~ Forall P l
  end.
Proof.
  intros Hbody. induction l as [|a l IH]; simpl; [auto|].
  specialize (Hbody a). destruct (body a) as [b|e]; simpl.
  - destruct Hbody as [-> Ha].
    destruct (for_each body l) as [bs|e]; simpl.
    + destruct IH as [-> Hl]. auto.
    + intros Hall. inversion Hall; subst. contradiction.
  - intros Hall. inversion Hall; subst. contradiction.
Qed.

(** ** Facts on the loaders *)

Lemma has_column_In (cols : list string) (col : string) :
  has_column cols col = true <-> In col cols.
Proof.
  unfold has_column. rewrite existsb_exists. split.
  - intros [x [Hin E]]. apply String.eqb_eq in E. now subst.
  - intros Hin. exists col. split; [assumption|apply String.eqb_refl].
Qed.

Lemma has_column_false (cols : list string) (col : string) :
  has_column cols col = false <-> ~ In col cols.
Proof.
  rewrite <- has_column_In. destruct (has_column cols col); split; congruence.
Qed.

Lemma getitem_present (cols : list string) (col : string) :
  In col cols -> getitem cols col = Ok tt.
Proof. intros Hin. unfold getitem. now rewrite (proj2 (has_column_In _ _) Hin). Qed.

Lemma getitem_absent (cols : list string) (col : string) :
  ~ In col cols -> getitem cols col = Raise (KeyError (VStr col)).
Proof.
  intros Hin. unfold getitem. now rewrite (proj2 (has_column_false _ _) Hin).
Qed.

Lemma required_columns_find (cols : list string) :
  find (fun col => negb (has_column cols col)) required_columns = None
  <-> forall col, In col required_columns -> In col cols.
Proof.
  split.
  - intros Hf col Hin. apply has_column_In.
    apply (find_none _ _ Hf) in Hin. now apply negb_false_iff in Hin.
  - intros Hall.
    destruct (find _ required_columns) as [col|] eqn:E; [|reflexivity].
    apply find_some in E. destruct E as [Hin E].
    apply negb_true_iff, has_column_false in E. now apply Hall in Hin.
Qed.

Lemma required_columns_desktop (df : CsvFrame) :
  has_required_columns df ->
  In "Sewer Name" (csv_columns df) /\ In "Start Time" (csv_columns df)
  /\ In "Operation Time" (csv_columns df) /\ In "Sew Type" (csv_columns df).
Proof.
  intros Hcols. repeat split; apply Hcols; simpl; tauto.
Qed.

Lemma find_first {A : Type} (f : A -> bool) (l : list A) (x : A) :
  find f l = Some x ->
  exists before after,
    l = before ++ x :: after /\ f x = true
    /\ forall y, In y before -> f y = false.
Proof.
  induction l as [|a l IH]; simpl; [discriminate|].
  destruct (f a) eqn:E.
  - intros [= <-]. exists [], l. simpl. tauto.
  - intros Hf. destruct (IH Hf) as (before & after & -> & Hx & Hb).
    exists (a :: before), after. simpl. repeat split; auto.
    intros y [<-|Hy]; auto.
Qed.

(** The column of stripped names: the desktop program gets it for a column
    of texts and raises otherwise. *)
Lemma str_strip_column_spec (lines : list RawRow) :
  match str_strip_column (map raw_sewer_name lines) with
  | Ok names =>
      names = map stripped_name (map raw_sewer_name lines)
      /\ Forall (fun row => is_text (raw_sewer_name row)) lines
  | Raise e =>
      e = AttributeError_str
      /\ ~ Forall (fun row => is_text (raw_sewer_name row)) lines
  end.
Proof.
  unfold str_strip_column.
  induction lines as [|row lines IH]; simpl; [auto|].
  destruct (raw_sewer_name row) as [z|s] eqn:E; simpl.
  - split; [reflexivity|]. intros Hall. inversion Hall as [|? ? Hrow _]; subst.
    now rewrite E in Hrow.
  - destruct (for_each _ (map raw_sewer_name lines)) as [names|e]; simpl.
    + destruct IH as [-> Hl]. split; [reflexivity|].
      constructor; [now rewrite E|exact Hl].
    + destruct IH as [-> Hl]. split; [reflexivity|].
      intros Hall. inversion Hall; subst. contradiction.
Qed.

Lemma to_timedelta_minutes_spec (x : Z) :
  match to_timedelta_minutes x with
  | Ok d => d = x * ns_per_minute /\ fits_time (x * ns_per_minute)
  | Raise e => e = OutOfBoundsTimedelta x /\ ~ fits_time (x * ns_per_minute)
  end.
Proof.
  unfold to_timedelta_minutes.
  destruct (in_time_range (x * ns_per_minute)) eqn:E.
  - split; [reflexivity|]. now apply in_time_range_fits.
  - split; [reflexivity|]. now apply in_time_range_not.
Qed.

Lemma add_timedelta_spec (t d : Z) :
  match add_timedelta t d with
  | Ok e => e = t + d /\ fits_time (t + d)
  | Raise e => e = OutOfBoundsDatetime t d /\ ~ fits_time (t + d)
  end.
Proof.
  unfold add_timedelta.
  destruct (in_time_range (t + d)) eqn:E.
  - split; [reflexivity|]. now apply in_time_range_fits.
  - split; [reflexivity|]. now apply in_time_range_not.
Qed.

Section LoaderFacts.
Context `{PD : Pandas}.

Lemma to_datetime_from_spec (position : nat) (cells : list string) :
  match to_datetime_from position cells with
  | Ok ts => Forall2 (fun c t => strptime c = Some t) cells ts
  | Raise e =>
      exists v k, e = ValueError_time_data v (position + k)
                  /\ first_mismatch cells v k
  end.
Proof.
  revert position. induction cells as [|c cells IH]; intros position; simpl.
  - constructor.
  - destruct (strptime c) as [t|] eqn:E.
    + specialize (IH (S position)).
      destruct (to_datetime_from (S position) cells) as [ts|e]; simpl.
      * now constructor.
      * destruct IH as (v & k & -> & Hnth & Hv & Hbefore).
        exists v, (S k). split; [f_equal; lia|].
        split; [exact Hnth|]. split; [exact Hv|].
        intros [|j] w Hj; simpl.
        -- intros [= <-]. congruence.
        -- apply Hbefore. lia.
    + exists c, 0%nat. split; [f_equal; lia|].
      split; [reflexivity|]. split; [exact E|]. intros j w Hj. lia.
Qed.

Lemma to_datetime_match (lines : list RawRow) :
  Forall (fun row => strptime (raw_start_time row) <> None) lines ->
  exists ts, to_datetime (map raw_start_time lines) = Ok ts
             /\ Forall2 (fun c t => strptime c = Some t)
                        (map raw_start_time lines) ts.
Proof.
  intros Hall. unfold to_datetime.
  pose proof (to_datetime_from_spec 0 (map raw_start_time lines)) as Hs.
  destruct (to_datetime_from 0 (map raw_start_time lines)) as [ts|e].
  - now exists ts.
  - destruct Hs as (v & k & _ & Hnth & Hv & _).
    apply nth_error_In, in_map_iff in Hnth. destruct Hnth as (row & <- & Hin).
    rewrite Forall_forall in Hall. now apply Hall in Hin.
Qed.

Lemma to_datetime_mismatch (lines : list RawRow) :
  Exists (fun row => strptime (raw_start_time row) = None) lines ->
  exists v k, to_datetime (map raw_start_time lines)
              = Raise (ValueError_time_data v k)
              /\ first_mismatch (map raw_start_time lines) v k.
Proof.
  intros Hex. unfold to_datetime.
  pose proof (to_datetime_from_spec 0 (map raw_start_time lines)) as Hs.
  destruct (to_datetime_from 0 (map raw_start_time lines)) as [ts|e].
  - exfalso. apply Exists_exists in Hex. destruct Hex as (row & Hin & Hrow).
    assert (Hc : In (raw_start_time row) (map raw_start_time lines))
      by now apply in_map.
    destruct (Forall2_In_l _ _ _ _ Hs Hc) as (t & _ & Ht).
    congruence.
  - destruct Hs as (v & k & -> & Hfirst). now exists v, k.
Qed.

Lemma to_datetime_converted (lines : list RawRow) (ts : list Timestamp) :
  to_datetime (map raw_start_time lines) = Ok ts ->
  Forall2 (fun c t => strptime c = Some t) (map raw_start_time lines) ts
  /\ Forall (fun row => strptime (raw_start_time row) <> None) lines.
Proof.
  intros E. unfold to_datetime in E.
  pose proof (to_datetime_from_spec 0 (map raw_start_time lines)) as Hs.
  rewrite E in Hs. split; [exact Hs|].
  apply Forall_forall. intros row Hrow.
  assert (Hc : In (raw_start_time row) (map raw_start_time lines))
    by now apply in_map.
  destruct (Forall2_In_l _ _ _ _ Hs Hc) as (t & _ & Ht). congruence.
Qed.

(** The end times of the lines whose start times have been converted: all of
    them when every duration fits, an exception otherwise. *)
Lemma end_times_spec (lines : list RawRow) (starts : list Timestamp) :
  Forall2 (fun c t => strptime c = Some t) (map raw_start_time lines) starts ->
  match end_times starts (map raw_operation_time lines) with
  | Ok ends =>
      Forall duration_fits lines
      /\ forall machine,
           Forall2 (derives machine) lines
             (assign_columns machine lines
                (map stripped_name (map raw_sewer_name lines)) starts ends)
  | Raise _ => ~ Forall duration_fits lines
  end.
Proof.
  intros Hstarts. unfold end_times, to_timedelta.
  assert (Hbody : forall x,
             match to_timedelta_minutes x with
             | Ok d => d = x * ns_per_minute /\ fits_time (x * ns_per_minute)
             | Raise _ => ~ fits_time (x * ns_per_minute)
             end).
  { intros x. pose proof (to_timedelta_minutes_spec x) as Hx.
    destruct (to_timedelta_minutes x); tauto. }
  pose proof (for_each_checked to_timedelta_minutes
                (fun x => x * ns_per_minute)
                (fun x => fits_time (x * ns_per_minute))
                (map raw_operation_time lines) Hbody) as Hd.
  destruct (for_each to_timedelta_minutes _) as [deltas|e]; simpl.
  - destruct Hd as [-> Hfit]. unfold add_columns.
    rewrite Forall_map in Hfit.
    revert starts Hstarts Hfit.
    induction lines as [|row lines IH]; intros starts Hstarts Hfit;
      inversion Hstarts as [|c t cs ts Ht Hts]; subst; simpl.
    + split; [constructor|]. intros machine. constructor.
    + inversion Hfit as [|? ? Hrow Hfit']; subst.
      pose proof (add_timedelta_spec t (raw_operation_time row * ns_per_minute))
        as Ha.
      destruct (add_timedelta t _) as [fin|e]; simpl.
      * destruct Ha as [-> Hend].
        specialize (IH ts Hts Hfit').
        destruct (for_each _ (combine ts _)) as [ends|e]; simpl.
        -- destruct IH as [Hl Hder]. split.
           ++ constructor; [|exact Hl]. split; [exact Hrow|].
              intros t' Ht'. rewrite Ht in Ht'. now injection Ht' as <-.
           ++ intros machine. constructor; [|apply Hder].
              exists t. split; [exact Ht|reflexivity].
        -- intros Hall. inversion Hall; subst. contradiction.
      * destruct Ha as [_ Hend]. intros Hall.
        inversion Hall as [|? ? [_ Hrow'] _]; subst.
        apply Hend. now apply Hrow'.
  - intros Hall. apply Hd.
    apply Forall_map. eapply Forall_impl; [|exact Hall].
    now intros row [Hrow _].
Qed.
End LoaderFacts.

Section LoaderResults.
Context `{PD : Pandas}.

(** What [parse_upload] stores, when it stores something. *)
Lemma parse_upload_stored (df : CsvFrame) (filename : string)
    (data : DataFrame) (status : string) :
  parse_upload (Some (Ok df)) filename = Ok (Some data, status) ->
  has_required_columns df
  /\ status = ("File successfully uploaded: " ++ filename)%string
  /\ all_start_times_match df
  /\ durations_fit df
  /\ Forall2 (derives (machine_or_unknown (csv_columns df)))
             (csv_rows df) (rows data)
  /\ columns data
     = (if has_column (csv_columns df) "Machine Name" then csv_columns df
        else csv_columns df ++ ["Machine Name"]) ++ ["End Time"].
Proof.
  unfold parse_upload.
  destruct (find _ required_columns) as [col|] eqn:Ef; [discriminate|].
  pose proof (proj1 (required_columns_find _) Ef) as Hcols.
  destruct (to_datetime (map raw_start_time (csv_rows df))) as [ts|e] eqn:Et;
    [|discriminate].
  destruct (to_datetime_converted _ _ Et) as [Hts Hall].
  pose proof (end_times_spec (csv_rows df) ts Hts) as He.
  destruct (end_times ts _) as [ends|e]; simpl; [|discriminate].
  destruct He as [Hfit Hder].
  intros [= <- <-]. simpl.
  repeat (split; [assumption || reflexivity|]).
  split; [|reflexivity].
  exact (Hder (machine_or_unknown (csv_columns df))).
Qed.

(** A file with its columns, start times that are converted and durations
    that fit is stored. *)
Lemma parse_upload_accepts (df : CsvFrame) (filename : string) :
  has_required_columns df -> all_start_times_match df -> durations_fit df ->
  exists data,
    parse_upload (Some (Ok df)) filename
    = Ok (Some data, ("File successfully uploaded: " ++ filename)%string).
Proof.
  intros Hcols Hall Hfit. unfold parse_upload.
  rewrite (proj2 (required_columns_find _) Hcols).
  destruct (to_datetime_match _ Hall) as (ts & -> & Hts).
  pose proof (end_times_spec (csv_rows df) ts Hts) as He.
  destruct (end_times ts _) as [ends|e]; simpl; [|contradiction].
  eexists. reflexivity.
Qed.

(** With a duration that does not fit the callback raises. *)
Lemma parse_upload_overflow (df : CsvFrame) (filename : string) :
  has_required_columns df -> all_start_times_match df -> ~ durations_fit df ->
  exists e, parse_upload (Some (Ok df)) filename = Raise e.
Proof.
  intros Hcols Hall Hfit. unfold parse_upload.
  rewrite (proj2 (required_columns_find _) Hcols).
  destruct (to_datetime_match _ Hall) as (ts & -> & Hts).
  pose proof (end_times_spec (csv_rows df) ts Hts) as He.
  destruct (end_times ts _) as [ends|e]; simpl.
  - destruct He as [He _]. contradiction.
  - now exists e.
Qed.

(** What [load_and_process_data] returns, when it returns. *)
Lemma load_and_process_data_returned (df : CsvFrame) (out : DataFrame) :
  load_and_process_data (Ok df) = Ok out ->
  In "Sewer Name" (csv_columns df) /\ In "Start Time" (csv_columns df)
  /\ In "Operation Time" (csv_columns df)
  /\ text_sewer_names df /\ all_start_times_match df /\ durations_fit df
  /\ columns out = csv_columns df ++ ["End Time"]
  /\ exists records,
       Forall2 (derives raw_machine_name) (csv_rows df) records
       /\ rows out = sort_values sewer_start_leb records.
Proof.
  unfold load_and_process_data, getitem; simpl.
  destruct (has_column _ "Sewer Name") eqn:E1; [|discriminate]. simpl.
  pose proof (str_strip_column_spec (csv_rows df)) as Hn.
  destruct (str_strip_column _) as [names|e]; [|discriminate]. simpl.
  destruct Hn as [-> Htext].
  destruct (has_column _ "Start Time") eqn:E2; [|discriminate]. simpl.
  destruct (to_datetime (map raw_start_time (csv_rows df))) as [ts|e] eqn:Et;
    [|discriminate]. simpl.
  destruct (to_datetime_converted _ _ Et) as [Hts Hall].
  destruct (has_column _ "Operation Time") eqn:E3; [|discriminate]. simpl.
  pose proof (end_times_spec (csv_rows df) ts Hts) as He.
  destruct (end_times ts _) as [ends|e]; simpl; [|discriminate].
  destruct He as [Hfit Hder].
  intros [= <-]. rewrite has_column_In in E1, E2, E3. simpl.
  repeat (split; [assumption || reflexivity|]).
  eexists. split; [apply Hder|reflexivity].
Qed.

Lemma load_and_process_data_accepts (df : CsvFrame) :
  In "Sewer Name" (csv_columns df) -> In "Start Time" (csv_columns df) ->
  In "Operation Time" (csv_columns df) ->
  text_sewer_names df -> all_start_times_match df -> durations_fit df ->
  exists out, load_and_process_data (Ok df) = Ok out.
Proof.
  intros H1 H2 H3 Htext Hall Hfit. unfold load_and_process_data; simpl.
  rewrite (getitem_present _ _ H1); simpl.
  pose proof (str_strip_column_spec (csv_rows df)) as Hn.
  destruct (str_strip_column _) as [names|e]; simpl;
    [|destruct Hn as [_ Hn]; contradiction].
  rewrite (getitem_present _ _ H2); simpl.
  destruct (to_datetime_match _ Hall) as (ts & -> & Hts); simpl.
  rewrite (getitem_present _ _ H3); simpl.
  pose proof (end_times_spec (csv_rows df) ts Hts) as He.
  destruct (end_times ts _) as [ends|e]; simpl; [|contradiction].
  eexists. reflexivity.
Qed.

Lemma derives_end_time (machine : RawRow -> Value) (row : RawRow)
    (r : ScheduleRecord) :
  derives machine row r ->
  strptime (raw_start_time row) = Some (start_time r)
  /\ operation_time r = raw_operation_time row
  /\ end_after_minutes r.
Proof. intros (t & Ht & ->). unfold end_after_minutes. simpl. auto. Qed.

Lemma on_upload_stored (app : Dashboard) (contents : option (Result CsvFrame))
    (filename : string) (data : option DataFrame) (status : string) :
  parse_upload contents filename = Ok (data, status) ->
  stored_data (on_upload app contents filename) = data.
Proof. intros E. unfold on_upload. now rewrite E. Qed.
End LoaderResults.

(** ** Stripping *)

Lemma lstrip_empty (s : string) :
  lstrip s = EmptyString <-> whitespace_only s = true.
Proof.
  induction s as [|c s IH]; simpl; [tauto|].
  destruct (is_space c); simpl; [exact IH|]. split; discriminate.
Qed.

Lemma rstrip_empty (s : string) :
  rstrip s = EmptyString <-> whitespace_only s = true.
Proof.
  induction s as [|c s IH]; simpl; [tauto|].
  destruct (rstrip s) eqn:E.
  - destruct (is_space c); simpl.
    + split; [intros _; now apply IH|reflexivity].
    + split; discriminate.
  - split; [discriminate|]. rewrite andb_true_iff. intros [_ Hs].
    apply IH in Hs. discriminate.
Qed.

Lemma lstrip_whitespace_only (s : string) :
  whitespace_only (lstrip s) = whitespace_only s.
Proof.
  induction s as [|c s IH]; simpl; [reflexivity|].
  destruct (is_space c) eqn:E; simpl; [exact IH|]. now rewrite E.
Qed.

(** A cell is empty after stripping exactly when it holds only whitespace. *)
Lemma str_strip_empty (s : string) :
  str_strip s = EmptyString <-> whitespace_only s = true.
Proof.
  unfold str_strip. now rewrite rstrip_empty, lstrip_whitespace_only.
Qed.

(** ** The record loader *)

Section LoaderClaims.
Context `{PD : Pandas}.

(** C3 (corrected statement): [parse_upload] keeps the order of the lines,
    record [i] of the stored table being derived from line [i] of the file;
    [load_and_process_data] derives one record per line as well, and then
    returns them sorted by sewer name and start time, a stable sort of the
    file order.  A file with the required columns whose start times are all
    converted and whose durations fit the range of timestamps is stored by
    [parse_upload], and loaded by [load_and_process_data] when its sewer
    names are texts. *)
Theorem loaders_row_order (df : CsvFrame) (filename : string) :
  (forall data status,
      parse_upload (Some (Ok df)) filename = Ok (Some data, status) ->
      Forall2 (derives (machine_or_unknown (csv_columns df)))
              (csv_rows df) (rows data))
  /\ (forall out,
        load_and_process_data (Ok df) = Ok out ->
        exists records,
          Forall2 (derives raw_machine_name) (csv_rows df) records
          /\ rows out = sort_values sewer_start_leb records
          /\ Permutation records (rows out)
          /\ StronglySorted (fun x y => sewer_start_leb x y = true) (rows out)
          /\ forall x, filter (same_key sewer_start_leb x) (rows out)
                       = filter (same_key sewer_start_leb x) records)
  /\ (has_required_columns df -> all_start_times_match df ->
      durations_fit df ->
      (exists data,
          parse_upload (Some (Ok df)) filename
          = Ok (Some data, ("File successfully uploaded: " ++ filename)%string))
      /\ (text_sewer_names df ->
          exists out, load_and_process_data (Ok df) = Ok out)).
Proof.
  split; [|split].
  - intros data status Hp.
    now destruct (parse_upload_stored _ _ _ _ Hp) as (_ & _ & _ & _ & Hd & _).
  - intros out Hl.
    destruct (load_and_process_data_returned _ _ Hl)
      as (_ & _ & _ & _ & _ & _ & _ & records & Hd & ->).
    exists records.
    split; [exact Hd|].
    split; [reflexivity|].
    split; [apply sort_values_perm|].
    split; [apply sort_values_sorted; typeclasses eauto|].
    intros x. apply sort_values_stable. typeclasses eauto.
  - intros Hcols Hall Hfit. split.
    + now apply parse_upload_accepts.
    + intros Htext.
      destruct (required_columns_desktop _ Hcols) as (H1 & H2 & H3 & _).
      now apply load_and_process_data_accepts.
Qed.

(** C4: the loaders give every line of the file a record that starts at the
    converted start time of the line, has its operation time and ends at the
    start time plus the operation time counted in minutes: [parse_upload]
    the record at the place of the line, [load_and_process_data] one record
    per line, in another order.  A file with the required columns whose
    start times are converted and whose durations fit the range of
    timestamps is loaded (by the desktop program when its sewer names are
    texts). *)
Theorem end_time_is_start_plus_minutes (df : CsvFrame) (filename : string) :
  (forall data status,
      parse_upload (Some (Ok df)) filename = Ok (Some data, status) ->
      Forall2 (fun row r =>
                 strptime (raw_start_time row) = Some (start_time r)
                 /\ operation_time r = raw_operation_time row
                 /\ end_time r
                    = start_time r + operation_time r * (60 * 1000000000))
              (csv_rows df) (rows data))
  /\ (forall out,
        load_and_process_data (Ok df) = Ok out ->
        exists records,
          Forall2 (fun row r =>
                     strptime (raw_start_time row) = Some (start_time r)
                     /\ operation_time r = raw_operation_time row
                     /\ end_time r
                        = start_time r + operation_time r * (60 * 1000000000))
                  (csv_rows df) records
          /\ Permutation records (rows out))
  /\ (has_required_columns df -> all_start_times_match df ->
      durations_fit df ->
      (exists data,
          parse_upload (Some (Ok df)) filename
          = Ok (Some data, ("File successfully uploaded: " ++ filename)%string))
      /\ (text_sewer_names df ->
          exists out, load_and_process_data (Ok df) = Ok out)).
Proof.
  split; [|split].
  - intros data status Hp.
    destruct (parse_upload_stored _ _ _ _ Hp) as (_ & _ & _ & _ & Hd & _).
    eapply Forall2_impl; [|exact Hd].
    intros row r Hr. exact (derives_end_time _ _ _ Hr).
  - intros out Hl.
    destruct (load_and_process_data_returned _ _ Hl)
      as (_ & _ & _ & _ & _ & _ & _ & records & Hd & ->).
    exists records. split; [|apply sort_values_perm].
    eapply Forall2_impl; [|exact Hd].
    intros row r Hr. exact (derives_end_time _ _ _ Hr).
  - intros Hcols Hall Hfit. split.
    + now apply parse_upload_accepts.
    + intros Htext.
      destruct (required_columns_desktop _ Hcols) as (H1 & H2 & H3 & _).
      now apply load_and_process_data_accepts.
Qed.
End LoaderClaims.

Section LoaderFailures.
Context `{PD : Pandas}.

Lemma parse_upload_missing (df : CsvFrame) (filename : string) (col : string) :
  In col required_columns -> ~ In col (csv_columns df) ->
  exists c, first_missing (csv_columns df) c
            /\ parse_upload (Some (Ok df)) filename
               = Ok (None, ("Missing required column: " ++ c)%string).
Proof.
  intros Hreq Hmiss. unfold parse_upload.
  destruct (find _ required_columns) as [c|] eqn:Ef.
  - exists c. split; [|reflexivity].
    destruct (find_first _ _ _ Ef) as (before & after & Hl & Hc & Hb).
    exists before, after. split; [exact Hl|]. split.
    + now apply has_column_false, negb_true_iff.
    + intros y Hy. apply has_column_In. apply Hb in Hy.
      now apply negb_false_iff in Hy.
  - pose proof (proj1 (required_columns_find _) Ef col Hreq). contradiction.
Qed.

(** The table that [load_and_process_data] returns for a file without the
    column Sew Type is refused by the ranker. *)
Lemma ranker_without_sew_type (df : CsvFrame) (out : DataFrame) :
  load_and_process_data (Ok df) = Ok out ->
  ~ In "Sew Type" (csv_columns df) ->
  group_and_sort_sewers out
  = Raise (KeyError (VStr (if (List.length (csv_rows df) =? 2)%nat
                           then "Sewer Name" else "Sew Type"))).
Proof.
  intros El Hno.
  destruct (load_and_process_data_returned _ _ El)
    as (H1 & _ & H3 & _ & _ & _ & Hc & records & Hd & Hrows).
  assert (Hlen : List.length (rows out) = List.length (csv_rows df)).
  { rewrite Hrows, sort_values_length. symmetry.
    exact (Forall2_same_length _ _ _ Hd). }
  assert (Hno' : ~ In "Sew Type" (columns out)).
  { rewrite Hc. intros Hin. apply in_app_or in Hin.
    destruct Hin as [Hin|[Hin|[]]]; [contradiction|discriminate]. }
  assert (H1' : In "Sewer Name" (columns out))
    by (rewrite Hc; apply in_or_app; now left).
  assert (H3' : In "Operation Time" (columns out))
    by (rewrite Hc; apply in_or_app; now left).
  unfold group_and_sort_sewers, select_operation_time.
  rewrite (proj2 (has_column_In _ _) H1'), (proj2 (has_column_false _ _) Hno').
  simpl. rewrite Hlen.
  destruct (List.length (csv_rows df) =? 2)%nat.
  - now rewrite (proj2 (has_column_In _ _) H3').
  - rewrite (getitem_present _ _ H1'), (getitem_absent _ _ Hno'). reflexivity.
Qed.

(** C7 (corrected statement): when a required column is missing,
    [parse_upload] stores nothing and its status names the first missing
    column, in the order Sewer Name, Start Time, Operation Time, Sew Type.
    [load_and_process_data] returns no table when Sewer Name, Start Time or
    Operation Time is missing: it raises the [KeyError] of the first of
    them (after the names have been stripped, which needs a column of
    texts, and for Operation Time once every start time has been
    converted).  It never reads Sew Type: on a table it has loaded without
    that column the ranker raises the [KeyError] of Sew Type, or that of
    Sewer Name when the table has exactly two lines. *)
Theorem missing_column_reported (df : CsvFrame) (filename : string)
    (col : string) :
  In col required_columns -> ~ In col (csv_columns df) ->
  (exists c, first_missing (csv_columns df) c
             /\ parse_upload (Some (Ok df)) filename
                = Ok (None, ("Missing required column: " ++ c)%string))
  /\ (col <> "Sew Type" -> exists e, load_and_process_data (Ok df) = Raise e)
  /\ (~ In "Sewer Name" (csv_columns df) ->
      load_and_process_data (Ok df) = Raise (KeyError (VStr "Sewer Name")))
  /\ (In "Sewer Name" (csv_columns df) -> text_sewer_names df ->
      ~ In "Start Time" (csv_columns df) ->
      load_and_process_data (Ok df) = Raise (KeyError (VStr "Start Time")))
  /\ (In "Sewer Name" (csv_columns df) -> text_sewer_names df ->
      In "Start Time" (csv_columns df) ->
      ~ In "Operation Time" (csv_columns df) -> all_start_times_match df ->
      load_and_process_data (Ok df) = Raise (KeyError (VStr "Operation Time")))
  /\ (forall out,
        load_and_process_data (Ok df) = Ok out ->
        col = "Sew Type"
        /\ group_and_sort_sewers out
           = Raise (KeyError (VStr (if (List.length (csv_rows df) =? 2)%nat
                                    then "Sewer Name" else "Sew Type")))).
Proof.
  intros Hreq Hmiss.
  split; [now apply parse_upload_missing with col|].
  assert (Hno : col <> "Sew Type" ->
                exists e, load_and_process_data (Ok df) = Raise e).
  { intros Hne.
    destruct (load_and_process_data (Ok df)) as [out|e] eqn:El;
      [|now exists e].
    destruct (load_and_process_data_returned _ _ El) as (H1 & H2 & H3 & _).
    simpl in Hreq. destruct Hreq as [<-|[<-|[<-|[<-|[]]]]]; contradiction. }
  assert (Hnames : text_sewer_names df ->
            str_strip_column (map raw_sewer_name (csv_rows df))
            = Ok (map stripped_name (map raw_sewer_name (csv_rows df)))).
  { intros Htext. pose proof (str_strip_column_spec (csv_rows df)) as Hn.
    destruct (str_strip_column _) as [names|e].
    - now destruct Hn as [-> _].
    - destruct Hn as [_ Hn]. contradiction. }
  split; [exact Hno|].
  split; [|split; [|split]].
  - intros H1. unfold load_and_process_data; simpl.
    now rewrite (getitem_absent _ _ H1).
  - intros H1 Htext H2. unfold load_and_process_data; simpl.
    rewrite (getitem_present _ _ H1); simpl. rewrite (Hnames Htext); simpl.
    now rewrite (getitem_absent _ _ H2).
  - intros H1 Htext H2 H3 Hall. unfold load_and_process_data; simpl.
    rewrite (getitem_present _ _ H1); simpl. rewrite (Hnames Htext); simpl.
    rewrite (getitem_present _ _ H2); simpl.
    destruct (to_datetime_match _ Hall) as (ts & -> & _); simpl.
    now rewrite (getitem_absent _ _ H3).
  - intros out El.
    assert (Hcol : col = "Sew Type").
    { destruct (string_dec col "Sew Type") as [E|Hne]; [exact E|].
      destruct (Hno Hne) as (e & He). congruence. }
    split; [exact Hcol|]. subst col.
    now apply ranker_without_sew_type.
Qed.

Lemma parse_upload_rejects_mismatch (df : CsvFrame) (filename : string) :
  some_start_time_mismatch df ->
  exists status, parse_upload (Some (Ok df)) filename = Ok (None, status).
Proof.
  intros Hbad.
  destruct (to_datetime_mismatch _ Hbad) as (v & k & Hraise & _).
  unfold parse_upload.
  destruct (find _ required_columns); [eexists; reflexivity|].
  rewrite Hraise. eexists; reflexivity.
Qed.

Lemma parse_upload_failed_none (res : Result CsvFrame) (filename : string) :
  upload_failed res ->
  exists status, parse_upload (Some res) filename = Ok (None, status).
Proof.
  intros [e|df col Hreq Hmiss|df Hbad].
  - eexists; reflexivity.
  - destruct (parse_upload_missing df filename col Hreq Hmiss) as (c & _ & ->).
    eexists; reflexivity.
  - now apply parse_upload_rejects_mismatch.
Qed.

(** C8 (corrected statement): when the conversion of pandas rejects some
    start time, neither loader returns a record: [parse_upload] stores
    nothing and [load_and_process_data] raises.  With the columns present,
    the error is the conversion error of the first cell that is rejected,
    which carries that cell and its position; [parse_upload] reports its
    text after [Error parsing Start Time: ]. *)
Theorem malformed_start_time_aborts_load (df : CsvFrame) (filename : string) :
  some_start_time_mismatch df ->
  (exists status, parse_upload (Some (Ok df)) filename = Ok (None, status))
  /\ (exists e, load_and_process_data (Ok df) = Raise e)
  /\ exists v position,
       first_mismatch (map raw_start_time (csv_rows df)) v position
       /\ (has_required_columns df ->
           parse_upload (Some (Ok df)) filename
           = Ok (None,
                 ("Error parsing Start Time: "
                    ++ exception_text (ValueError_time_data v position))%string))
       /\ (In "Sewer Name" (csv_columns df) -> text_sewer_names df ->
           In "Start Time" (csv_columns df) ->
           load_and_process_data (Ok df)
           = Raise (ValueError_time_data v position)).
Proof.
  intros Hbad.
  destruct (to_datetime_mismatch _ Hbad) as (v & k & Hraise & Hfirst).
  split; [|split].
  - now apply parse_upload_rejects_mismatch.
  - unfold load_and_process_data, getitem; simpl.
    destruct (has_column _ "Sewer Name"); simpl; [|eexists; reflexivity].
    destruct (str_strip_column _); simpl; [|eexists; reflexivity].
    destruct (has_column _ "Start Time"); simpl; [|eexists; reflexivity].
    rewrite Hraise. simpl. eexists; reflexivity.
  - exists v, k. split; [exact Hfirst|]. split.
    + intros Hcols. unfold parse_upload.
      rewrite (proj2 (required_columns_find _) Hcols).
      now rewrite Hraise.
    + intros H1 Htext H2. unfold load_and_process_data; simpl.
      rewrite (getitem_present _ _ H1); simpl.
      pose proof (str_strip_column_spec (csv_rows df)) as Hn.
      destruct (str_strip_column _) as [names|e]; simpl;
        [|destruct Hn as [_ Hn]; contradiction].
      rewrite (getitem_present _ _ H2); simpl.
      now rewrite Hraise.
Qed.

(** C9 (corrected statement): the loaders strip the sewer name and check
    nothing about it.  A file with the required columns whose start times
    are converted and whose durations fit is loaded, every line giving a
    record whose sewer name is the stripped text of the cell: the empty
    text when the cell holds only whitespace.  ([load_and_process_data]
    strips a column of texts only.) *)
Theorem sewer_name_stripped_not_validated (df : CsvFrame) (filename : string) :
  has_required_columns df -> all_start_times_match df -> durations_fit df ->
  (exists data,
      parse_upload (Some (Ok df)) filename
      = Ok (Some data, ("File successfully uploaded: " ++ filename)%string)
      /\ Forall2 (fun row r =>
                    sewer_name r
                    = VStr (str_strip (astype_str (raw_sewer_name row)))
                    /\ (whitespace_only (astype_str (raw_sewer_name row)) = true ->
                        sewer_name r = VStr EmptyString))
                 (csv_rows df) (rows data))
  /\ (text_sewer_names df ->
      exists out,
        load_and_process_data (Ok df) = Ok out
        /\ forall row, In row (csv_rows df) ->
             exists r, In r (rows out)
               /\ sewer_name r
                  = VStr (str_strip (astype_str (raw_sewer_name row)))
               /\ (whitespace_only (astype_str (raw_sewer_name row)) = true ->
                   sewer_name r = VStr EmptyString)).
Proof.
  intros Hcols Hall Hfit.
  assert (Hname : forall machine row r,
             derives machine row r ->
             sewer_name r = VStr (str_strip (astype_str (raw_sewer_name row)))
             /\ (whitespace_only (astype_str (raw_sewer_name row)) = true ->
                 sewer_name r = VStr EmptyString)).
  { intros machine row r (t & _ & ->). simpl. split; [reflexivity|].
    intros Hw. unfold stripped_name. f_equal. now apply str_strip_empty. }
  split.
  - destruct (parse_upload_accepts df filename Hcols Hall Hfit) as (data & Hp).
    exists data. split; [exact Hp|].
    destruct (parse_upload_stored _ _ _ _ Hp) as (_ & _ & _ & _ & Hd & _).
    eapply Forall2_impl; [|exact Hd]. apply Hname.
  - intros Htext.
    destruct (required_columns_desktop _ Hcols) as (H1 & H2 & H3 & _).
    destruct (load_and_process_data_accepts df H1 H2 H3 Htext Hall Hfit)
      as (out & Hl).
    exists out. split; [exact Hl|].
    destruct (load_and_process_data_returned _ _ Hl)
      as (_ & _ & _ & _ & _ & _ & _ & records & Hd & ->).
    intros row Hrow.
    destruct (Forall2_In_l _ _ _ _ Hd Hrow) as (r & Hr & Hder).
    exists r. split; [now apply sort_values_In|].
    exact (Hname _ _ _ Hder).
Qed.

(** C10: on a failed upload (unreadable CSV, missing required column or
    start time that the conversion rejects) [parse_upload] returns [None]
    for the store, so that whatever the store held before, it holds nothing
    afterwards. *)
Theorem failed_upload_clears_store (app : Dashboard) (res : Result CsvFrame)
    (filename : string) :
  upload_failed res ->
  (exists status, parse_upload (Some res) filename = Ok (None, status))
  /\ stored_data (on_upload app (Some res) filename) = None.
Proof.
  intros Hfail.
  destruct (parse_upload_failed_none res filename Hfail) as (status & Hp).
  split; [now exists status|].
  exact (on_upload_stored app _ _ _ _ Hp).
Qed.
End LoaderFailures.

(** ** The loaders on the sample files *)

Ltac start_times_match :=
  unfold all_start_times_match; simpl;
  repeat constructor; intros E; vm_compute in E; discriminate E.

Ltac columns_present :=
  unfold has_required_columns;
  refine (proj1 (required_columns_find _) _); reflexivity.

Ltac durations_in_range :=
  unfold durations_fit; simpl;
  repeat match goal with
         | |- Forall _ _ => first [apply Forall_nil | apply Forall_cons]
         | |- duration_fits _ =>
             split; [|intros t E; vm_compute in E; injection E as <-]
         | |- fits_time _ =>
             let H := fresh in vm_compute; split; intros H; discriminate H
         end.

Ltac names_are_texts :=
  unfold text_sewer_names; simpl; repeat constructor.

Lemma scenario_csv_columns : has_required_columns scenario_csv.
Proof. columns_present. Qed.

Lemma scenario_csv_start_times :
  all_start_times_match (PD := sample_pandas) scenario_csv.
Proof. start_times_match. Qed.

Lemma scenario_csv_durations : durations_fit (PD := sample_pandas) scenario_csv.
Proof. durations_in_range. Qed.

Lemma scenario_csv_names : text_sewer_names scenario_csv.
Proof. names_are_texts. Qed.

(** The scenario of the specification: without the column Sewer Name the
    upload is refused and the status names the column. *)
Example parse_upload_without_sewer_name :
  parse_upload (PD := sample_pandas) (Some (Ok no_sewer_name_csv)) "schedule.csv"
  = Ok (None, "Missing required column: Sewer Name").
Proof. reflexivity. Qed.

Example load_without_sewer_name :
  load_and_process_data (PD := sample_pandas) (Ok no_sewer_name_csv)
  = Raise (KeyError (VStr "Sewer Name")).
Proof. reflexivity. Qed.

Example scenario_data_loaded :
  parse_upload (PD := sample_pandas) (Some (Ok scenario_csv)) "schedule.csv"
  = Ok (Some scenario_data, "File successfully uploaded: schedule.csv").
Proof. reflexivity. Qed.

(** An operation time of 200000000000 minutes is not a duration of pandas:
    the desktop program raises, and so does the callback of the dashboard,
    whose store is left as it was. *)
Example long_operation_raises :
  load_and_process_data (PD := sample_pandas) (Ok long_operation_csv)
  = Raise (OutOfBoundsTimedelta 200000000000)
  /\ parse_upload (PD := sample_pandas) (Some (Ok long_operation_csv))
                  "schedule.csv"
     = Raise (OutOfBoundsTimedelta 200000000000)
  /\ forall app,
       on_upload (PD := sample_pandas) app (Some (Ok long_operation_csv))
                 "schedule.csv" = app.
Proof. repeat split. Qed.

(** Sewer names that are numbers: the desktop program raises on [.str], the
    dashboard stores their decimal texts. *)
Example numbered_sewers_loaded :
  load_and_process_data (PD := sample_pandas) (Ok numbered_sewers_csv)
  = Raise AttributeError_str
  /\ exists data,
       parse_upload (PD := sample_pandas) (Some (Ok numbered_sewers_csv))
                    "schedule.csv"
       = Ok (Some data, "File successfully uploaded: schedule.csv")
       /\ map sewer_name (rows data) = [VStr "10"; VStr "7"].
Proof. split; [reflexivity|]. eexists. split; reflexivity. Qed.

Lemma loaders_row_order_witness :
  has_required_columns scenario_csv
  /\ all_start_times_match (PD := sample_pandas) scenario_csv
  /\ durations_fit (PD := sample_pandas) scenario_csv
  /\ text_sewer_names scenario_csv
  /\ (exists data,
        parse_upload (PD := sample_pandas) (Some (Ok scenario_csv)) "schedule.csv"
        = Ok (Some data, "File successfully uploaded: schedule.csv")
        /\ Forall2 (derives (PD := sample_pandas) (machine_or_unknown all_columns))
                   scenario_rows (rows data))
  /\ exists out,
       load_and_process_data (PD := sample_pandas) (Ok scenario_csv) = Ok out.
Proof.
  destruct (loaders_row_order (PD := sample_pandas) scenario_csv "schedule.csv")
    as (Hkept & _ & Hloaded).
  destruct (Hloaded scenario_csv_columns scenario_csv_start_times
              scenario_csv_durations) as ((data & Hdata) & Hdesktop).
  split; [exact scenario_csv_columns|].
  split; [exact scenario_csv_start_times|].
  split; [exact scenario_csv_durations|].
  split; [exact scenario_csv_names|].
  split; [|exact (Hdesktop scenario_csv_names)].
  exists data. split; [exact Hdata|]. exact (Hkept _ _ Hdata).
Defined.

(** C3, counterexample: on a file whose two lines name the sewers B and A in
    that order, [load_and_process_data] returns the record of A first:
    record 0 is not derived from line 0. *)
Lemma load_and_process_data_reorders :
  map raw_sewer_name (csv_rows unordered_csv) = [VStr "B"; VStr "A"]
  /\ exists out,
       load_and_process_data (PD := sample_pandas) (Ok unordered_csv) = Ok out
       /\ map sewer_name (rows out) = [VStr "A"; VStr "B"]
       /\ ~ Forall2 (derives (PD := sample_pandas) raw_machine_name)
                    (csv_rows unordered_csv) (rows out).
Proof.
  split; [reflexivity|].
  eexists. split; [reflexivity|]. split; [reflexivity|].
  intros Hd. inversion Hd as [|row r lines records (t & _ & E) _]; subst.
  apply (f_equal sewer_name) in E. vm_compute in E. discriminate E.
Qed.

Lemma end_time_is_start_plus_minutes_witness :
  has_required_columns scenario_csv
  /\ all_start_times_match (PD := sample_pandas) scenario_csv
  /\ durations_fit (PD := sample_pandas) scenario_csv
  /\ text_sewer_names scenario_csv
  /\ exists out records,
       load_and_process_data (PD := sample_pandas) (Ok scenario_csv) = Ok out
       /\ Forall2 (fun row r =>
                     strptime_sample (raw_start_time row) = Some (start_time r)
                     /\ operation_time r = raw_operation_time row
                     /\ end_time r
                        = start_time r + operation_time r * (60 * 1000000000))
                  scenario_rows records
       /\ Permutation records (rows out).
Proof.
  destruct (end_time_is_start_plus_minutes (PD := sample_pandas)
              scenario_csv "schedule.csv") as (_ & Hends & Hloaded).
  destruct (Hloaded scenario_csv_columns scenario_csv_start_times
              scenario_csv_durations) as (_ & Hdesktop).
  destruct (Hdesktop scenario_csv_names) as (out & Hout).
  split; [exact scenario_csv_columns|].
  split; [exact scenario_csv_start_times|].
  split; [exact scenario_csv_durations|].
  split; [exact scenario_csv_names|].
  destruct (Hends _ Hout) as (records & Hrecords & Hperm).
  exists out, records. split; [exact Hout|]. split; [exact Hrecords|exact Hperm].
Defined.

Example scenario_end_times :
  match parse_upload (PD := sample_pandas) (Some (Ok scenario_csv))
                     "schedule.csv" with
  | Ok (Some df, _) =>
      map (fun r => (end_time r - start_time r) / ns_per_minute) (rows df)
  | _ => []
  end
  = [30; 90; 60].
Proof. reflexivity. Qed.

Lemma missing_column_reported_witness :
  In "Sewer Name" required_columns
  /\ ~ In "Sewer Name" (csv_columns no_sewer_name_csv)
  /\ load_and_process_data (PD := sample_pandas) (Ok no_sewer_name_csv)
     = Raise (KeyError (VStr "Sewer Name")).
Proof.
  assert (Hreq : In "Sewer Name" required_columns) by (simpl; tauto).
  assert (Hmiss : ~ In "Sewer Name" (csv_columns no_sewer_name_csv)).
  { apply has_column_false. reflexivity. }
  split; [exact Hreq|]. split; [exact Hmiss|].
  destruct (missing_column_reported (PD := sample_pandas) no_sewer_name_csv
              "schedule.csv" "Sewer Name" Hreq Hmiss)
    as (_ & _ & Hkey & _).
  exact (Hkey Hmiss).
Defined.

(** C7, counterexample: a file without the required column Sew Type is
    loaded by [load_and_process_data], which returns its record. *)
Lemma desktop_loader_ignores_sew_type :
  In "Sew Type" required_columns
  /\ ~ In "Sew Type" (csv_columns no_sew_type_csv)
  /\ exists out,
       load_and_process_data (PD := sample_pandas) (Ok no_sew_type_csv) = Ok out
       /\ map sewer_name (rows out) = [VStr "A"].
Proof.
  split; [simpl; tauto|].
  split; [apply has_column_false; reflexivity|].
  eexists. split; reflexivity.
Qed.

(** Without the column Sew Type the ranker names Sew Type on a table of one
    line and Sewer Name on a table of two lines. *)
Example ranker_without_sew_type_samples :
  (df <- load_and_process_data (PD := sample_pandas) (Ok no_sew_type_csv) ;;
   group_and_sort_sewers df)
  = Raise (KeyError (VStr "Sew Type"))
  /\ (df <- load_and_process_data (PD := sample_pandas)
              (Ok two_lines_no_sew_type_csv) ;;
      group_and_sort_sewers df)
     = Raise (KeyError (VStr "Sewer Name")).
Proof. split; reflexivity. Qed.

Lemma bad_time_csv_mismatch :
  some_start_time_mismatch (PD := sample_pandas) bad_time_csv.
Proof. apply Exists_cons_tl, Exists_cons_hd. reflexivity. Qed.

Lemma malformed_start_time_aborts_load_witness :
  some_start_time_mismatch (PD := sample_pandas) bad_time_csv
  /\ (exists status,
        parse_upload (PD := sample_pandas) (Some (Ok bad_time_csv)) "schedule.csv"
        = Ok (None, status))
  /\ exists e,
       load_and_process_data (PD := sample_pandas) (Ok bad_time_csv) = Raise e.
Proof.
  split; [exact bad_time_csv_mismatch|].
  destruct (malformed_start_time_aborts_load (PD := sample_pandas)
              bad_time_csv "schedule.csv" bad_time_csv_mismatch)
    as (Hparse & Hload & _).
  split; [exact Hparse|exact Hload].
Defined.

Example bad_time_csv_desktop :
  load_and_process_data (PD := sample_pandas) (Ok bad_time_csv)
  = Raise (ValueError_time_data "01/01/2024 9am" 1).
Proof. reflexivity. Qed.

(** C8, counterexample: the start time [2024-1-1 8:00] is not of the exact
    form [YYYY-MM-DD HH:MM], its month, day and hour having one digit; the
    conversion accepts it and both loaders return the record, which starts
    on 2024-01-01 at 08:00. *)
Lemma unpadded_start_time_is_loaded :
  map raw_start_time (csv_rows unpadded_time_csv) = ["2024-1-1 8:00"]
  /\ exact_form "2024-1-1 8:00" = false
  /\ exact_form "2024-01-01 08:00" = true
  /\ (exists data,
        parse_upload (PD := sample_pandas) (Some (Ok unpadded_time_csv))
                     "schedule.csv"
        = Ok (Some data, "File successfully uploaded: schedule.csv")
        /\ map start_time (rows data) = [1704096000000000000])
  /\ (exists out,
        load_and_process_data (PD := sample_pandas) (Ok unpadded_time_csv)
        = Ok out
        /\ map start_time (rows out) = [1704096000000000000]).
Proof.
  split; [reflexivity|]. split; [reflexivity|]. split; [reflexivity|].
  split; eexists; split; reflexivity.
Qed.

Lemma blank_name_csv_columns : has_required_columns blank_name_csv.
Proof. columns_present. Qed.

Lemma blank_name_csv_start_times :
  all_start_times_match (PD := sample_pandas) blank_name_csv.
Proof. start_times_match. Qed.

Lemma blank_name_csv_durations :
  durations_fit (PD := sample_pandas) blank_name_csv.
Proof. durations_in_range. Qed.

Lemma blank_name_csv_names : text_sewer_names blank_name_csv.
Proof. names_are_texts. Qed.

Lemma sewer_name_stripped_not_validated_witness :
  has_required_columns blank_name_csv
  /\ all_start_times_match (PD := sample_pandas) blank_name_csv
  /\ durations_fit (PD := sample_pandas) blank_name_csv
  /\ text_sewer_names blank_name_csv
  /\ (exists data,
        parse_upload (PD := sample_pandas) (Some (Ok blank_name_csv)) "blank.csv"
        = Ok (Some data, "File successfully uploaded: blank.csv"))
  /\ exists out,
       load_and_process_data (PD := sample_pandas) (Ok blank_name_csv) = Ok out.
Proof.
  split; [exact blank_name_csv_columns|].
  split; [exact blank_name_csv_start_times|].
  split; [exact blank_name_csv_durations|].
  split; [exact blank_name_csv_names|].
  destruct (sewer_name_stripped_not_validated (PD := sample_pandas)
              blank_name_csv "blank.csv"
              blank_name_csv_columns blank_name_csv_start_times
              blank_name_csv_durations)
    as ((data & Hdata & _) & Hdesktop).
  split; [exists data; exact Hdata|].
  destruct (Hdesktop blank_name_csv_names) as (out & Hout & _).
  exists out. exact Hout.
Defined.

(** C9, counterexample: a line whose sewer name is two spaces is empty after
    stripping, and both loaders accept the file and return a record whose
    sewer name is empty. *)
Lemma blank_sewer_name_is_loaded :
  map (fun row => str_strip (astype_str (raw_sewer_name row)))
      (csv_rows blank_name_csv)
  = [EmptyString]
  /\ (exists data,
        parse_upload (PD := sample_pandas) (Some (Ok blank_name_csv)) "blank.csv"
        = Ok (Some data, "File successfully uploaded: blank.csv")
        /\ map sewer_name (rows data) = [VStr EmptyString])
  /\ (exists out,
        load_and_process_data (PD := sample_pandas) (Ok blank_name_csv) = Ok out
        /\ map sewer_name (rows out) = [VStr EmptyString]).
Proof.
  split; [reflexivity|].
  split; eexists; split; reflexivity.
Qed.

Lemma failed_upload_clears_store_witness :
  let app := {| stored_data := Some {| columns := all_columns; rows := [] |};
                upload_status := "File successfully uploaded: first.csv" |} in
  upload_failed (PD := sample_pandas) (Ok bad_time_csv)
  /\ stored_data app <> None
  /\ stored_data (on_upload (PD := sample_pandas) app (Some (Ok bad_time_csv))
                            "second.csv") = None.
Proof.
  intros app.
  assert (Hfail : upload_failed (PD := sample_pandas) (Ok bad_time_csv)).
  { apply unparseable_start_time. exact bad_time_csv_mismatch. }
  split; [exact Hfail|]. split; [discriminate|].
  exact (proj2 (failed_upload_clears_store (PD := sample_pandas) app
                  (Ok bad_time_csv) "second.csv" Hfail)).
Defined.

(** ** The filter engine *)

Lemma sorted_strictly (l : list Value) :
  StronglySorted (fun a b => value_leb a b = true) l -> NoDup l ->
  StronglySorted (fun a b => value_ltb a b = true) l.
Proof.
  induction 1 as [|a l Hs IH Ha]; intros Hnd; constructor;
    inversion Hnd as [|? ? Hnotin Hnd']; subst.
  - now apply IH.
  - rewrite Forall_forall in *. intros x Hx.
    apply value_ltb_leb. split; [now apply Ha|].
    intros ->. contradiction.
Qed.

Lemma sort_unique_values (values : list Value) :
  sorted_distinct (sort_values value_leb (unique value_eqb values)) values.
Proof.
  split.
  - apply sorted_strictly.
    + apply sort_values_sorted. typeclasses eauto.
    + apply sort_values_NoDup, unique_NoDup, value_eqb_eq.
  - intros x. rewrite sort_values_In. apply unique_In, value_eqb_eq.
Qed.

Lemma sorted_unique_distinct (view_by : Field) (rs : list ScheduleRecord) :
  sorted_distinct (sorted_unique view_by rs) (map (field_value view_by) rs).
Proof. apply sort_unique_values. Qed.

Lemma filter_all {A : Type} (p : A -> bool) (l : list A) :
  (forall x, In x l -> p x = true) -> filter p l = l.
Proof.
  induction l as [|a l IH]; simpl; intros Hp; [reflexivity|].
  rewrite (Hp a) by now left. f_equal. apply IH. intros x Hx. apply Hp. now right.
Qed.

Lemma filter_none {A : Type} (p : A -> bool) (l : list A) :
  (forall x, In x l -> p x = false) -> filter p l = [].
Proof.
  induction l as [|a l IH]; simpl; intros Hp; [reflexivity|].
  rewrite (Hp a) by now left. apply IH. intros x Hx. apply Hp. now right.
Qed.

Lemma filter_filter {A : Type} (p q : A -> bool) (l : list A) :
  filter p (filter q l) = filter (fun x => q x && p x) l.
Proof.
  induction l as [|a l IH]; simpl; [reflexivity|].
  destruct (q a); simpl; [|exact IH]. destruct (p a); now rewrite IH.
Qed.

Lemma apply_filter_satisfies (f : Field) (v : Selection)
    (rs : list ScheduleRecord) :
  apply_filter f v rs = filter (satisfies f v) rs.
Proof.
  unfold apply_filter, satisfies. destruct v as [[z|s]|]; simpl.
  - destruct (z =? 0); simpl; [|reflexivity].
    symmetry. now apply filter_all.
  - destruct (s =? "")%string; simpl.
    + symmetry. now apply filter_all.
    + destruct (s =? "ALL")%string; simpl; [|reflexivity].
      symmetry. now apply filter_all.
  - symmetry. now apply filter_all.
Qed.

Lemma apply_filters_matching
    (machine_filter sewtype_filter sewer_filter : Selection)
    (rs : list ScheduleRecord) :
  apply_filters machine_filter sewtype_filter sewer_filter rs
  = matching machine_filter sewtype_filter sewer_filter rs.
Proof.
  unfold apply_filters, matching.
  rewrite !apply_filter_satisfies, !filter_filter.
  apply filter_ext. intros r. now rewrite andb_assoc.
Qed.

Lemma satisfies_selected (f : Field) (s : Value) (r : ScheduleRecord) :
  s <> VStr "" -> s <> VInt 0 -> s <> VStr "ALL" ->
  (satisfies f (Some s) r = true <-> field_value f r = s).
Proof.
  intros H1 H2 H3. unfold satisfies.
  rewrite (proj2 (value_eqb_neq _ _) H1), (proj2 (value_eqb_neq _ _) H2),
    (proj2 (value_eqb_neq _ _) H3).
  simpl. apply value_eqb_eq.
Qed.

Lemma is_ALL_true (v : Selection) : is_ALL v = true -> v = ALL.
Proof.
  destruct v as [s|]; simpl; [|discriminate].
  intros E. apply value_eqb_eq in E. now subst.
Qed.

Section FilterEngine.
Context `{PD : Pandas}.

(** The figure, read on the filtered table. *)
Lemma figure_of_filtered_table (stored : DataFrame)
    (view_by color_by : Field)
    (machine_filter sewtype_filter sewer_filter : Selection) :
  update_dynamic_graph (Some stored) view_by color_by
                       machine_filter sewtype_filter sewer_filter
  = match apply_filters machine_filter sewtype_filter sewer_filter
                        (rows (read_json stored)) with
    | [] => TitleOnly "No data matches the selected filters."
    | (_ :: _) as filtered =>
        Timeline {| columns := columns (read_json stored); rows := filtered |}
                 view_by color_by (sorted_unique view_by filtered)
                 (Z.max 600
                    (40 * Z.of_nat (List.length (sorted_unique view_by filtered))))
    end.
Proof.
  unfold update_dynamic_graph. simpl.
  destruct (is_ALL machine_filter && is_ALL sewtype_filter
            && is_ALL sewer_filter) eqn:Eall.
  - apply andb_true_iff in Eall. destruct Eall as [Eall E3].
    apply andb_true_iff in Eall. destruct Eall as [E1 E2].
    apply is_ALL_true in E1, E2, E3. subst.
    change (apply_filters ALL ALL ALL (rows (read_json stored)))
      with (rows (read_json stored)).
    now destruct (rows (read_json stored)).
  - now destruct (apply_filters machine_filter sewtype_filter sewer_filter
                                (rows (read_json stored))).
Qed.

(** C5: the callback works on the table that [read_json] makes of the
    store.  With the three filters on ALL the filtered table is that table,
    unchanged, and the figure is its timeline, whose category array is
    [sorted(full_df[view_by].unique())]: the distinct values of the view
    column of the full table in strictly ascending order.  (A table
    without lines gives the title-only figure.) *)
Theorem all_filters_ALL_identity (stored : DataFrame) (view_by color_by : Field) :
  let full_df := read_json stored in
  apply_filters ALL ALL ALL (rows full_df) = rows full_df
  /\ update_dynamic_graph (Some stored) view_by color_by ALL ALL ALL
     = match rows full_df with
       | [] => TitleOnly "No data matches the selected filters."
       | _ :: _ =>
           Timeline full_df view_by color_by
             (sorted_unique view_by (rows full_df))
             (Z.max 600
                (40 * Z.of_nat (List.length (sorted_unique view_by (rows full_df)))))
       end
  /\ sorted_distinct (sorted_unique view_by (rows full_df))
                     (map (field_value view_by) (rows full_df)).
Proof.
  intros full_df.
  split; [reflexivity|]. split; [|apply sorted_unique_distinct].
  unfold update_dynamic_graph. fold full_df.
  destruct full_df as [cols [|r rs]]; reflexivity.
Qed.


(** Without a matching line the figure carries the title only. *)
Lemma no_match_figure (stored : DataFrame) (view_by color_by : Field)
    (machine_filter sewtype_filter sewer_filter : Selection) :
  apply_filters machine_filter sewtype_filter sewer_filter
                (rows (read_json stored)) = [] ->
  update_dynamic_graph (Some stored) view_by color_by
                       machine_filter sewtype_filter sewer_filter
  = TitleOnly "No data matches the selected filters.".
Proof. intros E. rewrite figure_of_filtered_table. now rewrite E. Qed.
End FilterEngine.

Example scenario_all_filters_ALL :
  update_dynamic_graph (PD := sample_pandas) (Some scenario_data)
                       SewType SewerName ALL ALL ALL
  = Timeline scenario_data SewType SewerName [VStr "X"; VStr "Y"] 600.
Proof. reflexivity. Qed.

(** The scenario of the specification: the sewer filter on A keeps the two
    lines of A, and the categories are those of the filtered lines. *)
Example scenario_sewer_filter :
  update_dynamic_graph (PD := sample_pandas) (Some scenario_data)
                       SewType SewerName ALL ALL (Some (VStr "A"))
  = Timeline {| columns := all_columns ++ ["End Time"];
                rows := firstn 2 scenario_records |}
             SewType SewerName [VStr "X"; VStr "Y"] 600.
Proof. reflexivity. Qed.

(** Sewers named 10 and 7: the store holds the texts, [read_json] types the
    column as integers, and the categories come in numeric order. *)
Example numbered_sewers_categories :
  match parse_upload (PD := sample_pandas) (Some (Ok numbered_sewers_csv))
                     "schedule.csv" with
  | Ok (Some data, _) =>
      match update_dynamic_graph (PD := sample_pandas) (Some data)
                                 SewerName SewType ALL ALL ALL with
      | Timeline _ _ _ categories _ => categories
      | _ => []
      end
  | _ => []
  end
  = [VInt 7; VInt 10].
Proof. reflexivity. Qed.


(** ** Lists: order of members, unique keys, singletons *)

Lemma StronglySorted_map {A B : Type} (R : B -> B -> Prop) (f : A -> B)
    (l : list A) :
  StronglySorted R (map f l) <-> StronglySorted (fun x y => R (f x) (f y)) l.
Proof.
  induction l as [|a l IH]; simpl.
  - split; constructor.
  - split; intros Hs; inversion Hs as [|? ? Hl Ha]; subst; constructor.
    + now apply IH.
    + rewrite Forall_forall in *. intros x Hx. apply Ha. now apply in_map.
    + now apply IH.
    + rewrite Forall_forall in *. intros y Hy.
      apply in_map_iff in Hy. destruct Hy as (x & <- & Hx). now apply Ha.
Qed.

Lemma StronglySorted_filter {A : Type} (R : A -> A -> Prop) (p : A -> bool)
    (l : list A) :
  StronglySorted R l -> StronglySorted R (filter p l).
Proof.
  induction 1 as [|a l Hs IH Ha]; simpl; [constructor|].
  destruct (p a); [|exact IH]. constructor; [exact IH|].
  rewrite Forall_forall in *. intros x Hx. apply filter_In in Hx. now apply Ha.
Qed.

Lemma StronglySorted_after {A : Type} (R : A -> A -> Prop)
    (before after : list A) (q : A) :
  StronglySorted R (before ++ q :: after) -> Forall (R q) after.
Proof.
  induction before as [|a before IH]; simpl; intros Hs;
    inversion Hs; subst; auto.
Qed.

Lemma StronglySorted_precedes {A : Type} (R : A -> A -> Prop) (l : list A)
    (a b : A) :
  StronglySorted R l -> precedes l a b -> R a b.
Proof.
  intros Hs (l1 & l2 & l3 & ->).
  apply StronglySorted_after in Hs. rewrite Forall_forall in Hs.
  apply Hs. apply in_elt.
Qed.

Lemma precedes_map {A B : Type} (f : A -> B) (l : list A) (a b : B) :
  precedes (map f l) a b ->
  exists x y, precedes l x y /\ f x = a /\ f y = b.
Proof.
  intros (l1 & l2 & l3 & E).
  apply map_eq_app in E. destruct E as (m1 & n1 & -> & <- & E).
  apply map_eq_cons in E. destruct E as (x & n2 & -> & <- & E).
  apply map_eq_app in E. destruct E as (m2 & n3 & -> & <- & E).
  apply map_eq_cons in E. destruct E as (y & m3 & -> & <- & <-).
  exists x, y. split; [|auto]. now exists m1, m2, m3.
Qed.

Lemma precedes_In {A : Type} (l : list A) (a b : A) :
  precedes l a b -> In a l /\ In b l.
Proof.
  intros (l1 & l2 & l3 & ->). split.
  - apply in_elt.
  - apply in_or_app. right. right. apply in_elt.
Qed.

Lemma precedes_or {A : Type} (l : list A) (a b : A) :
  In a l -> In b l -> a <> b -> precedes l a b \/ precedes l b a.
Proof.
  intros Ha Hb Hne.
  apply in_split in Ha. destruct Ha as (l1 & l2 & ->).
  apply in_app_or in Hb. destruct Hb as [Hb|[Hb|Hb]].
  - right. apply in_split in Hb. destruct Hb as (m1 & m2 & ->).
    exists m1, m2, l2. now rewrite <- app_assoc.
  - contradiction.
  - left. apply in_split in Hb. destruct Hb as (m1 & m2 & ->).
    now exists l1, m1, m2.
Qed.

Lemma find_unique {A K : Type} (key : A -> K) (eqb : K -> K -> bool)
    (eqb_eq : forall x y, eqb x y = true <-> x = y) (l : list A) (x : A) :
  NoDup (map key l) -> In x l ->
  find (fun y => eqb (key y) (key x)) l = Some x.
Proof.
  induction l as [|a l IH]; simpl; [tauto|].
  intros Hnd [->|Hin].
  - now rewrite (proj2 (eqb_eq _ _) eq_refl).
  - inversion Hnd as [|? ? Hnotin Hnd']; subst.
    destruct (eqb (key a) (key x)) eqn:E.
    + apply eqb_eq in E. exfalso. apply Hnotin. rewrite E. now apply in_map.
    + now apply IH.
Qed.

Lemma Forall2_flat_map {A B C : Type} (R1 : A -> B -> Prop) (R2 : A -> C -> Prop)
    (f : B -> list C) (l1 : list A) (l2 : list B) :
  Forall2 R1 l1 l2 ->
  (forall a b, R1 a b -> exists c, f b = [c] /\ R2 a c) ->
  Forall2 R2 l1 (flat_map f l2).
Proof.
  intros H12 Hf. induction H12 as [|a b l1 l2 Hab _ IH]; simpl; [constructor|].
  destruct (Hf a b Hab) as (c & -> & Hc). simpl. now constructor.
Qed.

Lemma Forall2_diag {A : Type} (P : A -> Prop) (l : list A) :
  Forall P l -> Forall2 (fun a b => a = b /\ P a) l l.
Proof. induction 1; now constructor. Qed.

Lemma Forall2_map_eq {A B : Type} (f : B -> A) (l1 : list A) (l2 : list B) :
  Forall2 (fun a b => f b = a) l1 l2 -> map f l2 = l1.
Proof. induction 1; simpl; congruence. Qed.

Lemma combine_seq_snd {A : Type} (l : list A) (start : nat) :
  map snd (combine (seq start (List.length l)) l) = l.
Proof.
  revert start. induction l as [|a l IH]; intros start; simpl; [reflexivity|].
  now rewrite IH.
Qed.

Lemma combine_seq_fst {A : Type} (l : list A) (start : nat) :
  map fst (combine (seq start (List.length l)) l) = seq start (List.length l).
Proof.
  revert start. induction l as [|a l IH]; intros start; simpl; [reflexivity|].
  now rewrite IH.
Qed.

Lemma reset_index_rows {A : Type} (l : list A) : map snd (reset_index l) = l.
Proof. apply combine_seq_snd. Qed.

Lemma reset_index_labels {A : Type} (l : list A) :
  NoDup (map fst (reset_index l)).
Proof. unfold reset_index. rewrite combine_seq_fst. apply seq_NoDup. Qed.

(** ** The ranker: the table [grouped] *)

Lemma pair_leb_same_sewer (s c c' : Value) :
  pair_leb (s, c) (s, c') = value_leb c c'.
Proof.
  unfold pair_leb, lex_leb, by_key. simpl. now rewrite value_compare_refl.
Qed.

Lemma groupby_sum_keys (rs : list ScheduleRecord) :
  map group_key_of_row (groupby_sum rs)
  = sort_values pair_leb (unique pair_eqb (map group_key rs)).
Proof.
  unfold groupby_sum. rewrite map_map. simpl.
  rewrite <- (map_id (sort_values _ _)) at 2.
  apply map_ext. now intros [e c].
Qed.

(** The lines of [grouped]: one for each pair of an entity and a category
    it works in, with the 64-bit total of the pair. *)
Lemma groupby_sum_In (rs : list ScheduleRecord) (g : GroupRow) :
  In g (groupby_sum rs)
  <-> works_in rs (g_sewer_name g) (g_sew_type g)
      /\ g_operation_time g = int64_total rs (g_sewer_name g) (g_sew_type g).
Proof.
  unfold groupby_sum. rewrite in_map_iff. split.
  - intros (k & <- & Hk). simpl. split; [|reflexivity].
    apply sort_values_In, (unique_In _ pair_eqb_eq), in_map_iff in Hk.
    destruct Hk as (r & <- & Hr). now exists r.
  - intros [(r & Hr & He & Hc) Ht].
    exists (g_sewer_name g, g_sew_type g). split.
    + destruct g as [e c t]. simpl in *. now rewrite Ht.
    + apply sort_values_In, (unique_In _ pair_eqb_eq), in_map_iff.
      exists r. split; [|exact Hr]. unfold group_key. now rewrite He, Hc.
Qed.

Lemma groupby_sum_sorted (rs : list ScheduleRecord) :
  StronglySorted
    (fun g g' => pair_leb (group_key_of_row g) (group_key_of_row g') = true)
    (groupby_sum rs).
Proof.
  apply (StronglySorted_map (fun k k' => pair_leb k k' = true) group_key_of_row).
  rewrite groupby_sum_keys. apply sort_values_sorted. typeclasses eauto.
Qed.

Lemma groupby_sum_sewers (rs : list ScheduleRecord) (e : Value) :
  In e (map g_sewer_name (groupby_sum rs)) <-> In e (map sewer_name rs).
Proof.
  rewrite !in_map_iff. split.
  - intros (g & <- & Hg). apply groupby_sum_In in Hg.
    destruct Hg as [(r & Hr & He & _) _]. now exists r.
  - intros (r & <- & Hr).
    exists (mkGroupRow (sewer_name r) (sew_type r)
                       (int64_total rs (sewer_name r) (sew_type r))).
    split; [reflexivity|]. apply groupby_sum_In. simpl. split; [|reflexivity].
    now exists r.
Qed.

(** ** The ranker: [idxmax] within a group *)

Lemma idxmax_from_first (best : nat * GroupRow) (l : list (nat * GroupRow)) :
  exists before q after,
    best :: l = before ++ q :: after
    /\ idxmax_from (fst best, g_operation_time (snd best))
                   (map (fun ir => (fst ir, g_operation_time (snd ir))) l)
       = fst q
    /\ Forall (fun x => g_operation_time (snd x) < g_operation_time (snd q)) before
    /\ Forall (fun x => g_operation_time (snd x) <= g_operation_time (snd q)) after.
Proof.
  revert best. induction l as [|p l IH]; intros best.
  - exists [], best, []. simpl. repeat split; constructor.
  - simpl.
    destruct (g_operation_time (snd best) <? g_operation_time (snd p)) eqn:E.
    + apply Z.ltb_lt in E.
      destruct (IH p) as (before & q & after & Hl & Hi & Hb & Ha).
      exists (best :: before), q, after. simpl. rewrite <- Hl.
      split; [reflexivity|]. split; [exact Hi|]. split; [|exact Ha].
      constructor; [|exact Hb].
      destruct before as [|a before]; simpl in Hl; inversion Hl; subst.
      * exact E.
      * inversion Hb; subst. lia.
    + apply Z.ltb_ge in E.
      destruct (IH best) as (before & q & after & Hl & Hi & Hb & Ha).
      destruct before as [|a before]; simpl in Hl; inversion Hl; subst.
      * exists [], q, (p :: after). simpl.
        split; [reflexivity|]. split; [exact Hi|]. split; [constructor|].
        now constructor.
      * exists (a :: p :: before), q, after. simpl.
        split; [reflexivity|]. split; [exact Hi|]. split; [|exact Ha].
        inversion Hb; subst. constructor; [assumption|].
        constructor; [lia|assumption].
Qed.

(** In a table sorted by sewer and sew type, [idxmax] on the group of a
    sewer returns the label of a line of the group with the largest time,
    and of the smallest sew type among those. *)
Lemma idxmax_of_group (grouped : list (nat * GroupRow)) (s : Value) :
  StronglySorted
    (fun g g' => pair_leb (group_key_of_row g) (group_key_of_row g') = true)
    (map snd grouped) ->
  In s (map (fun ir => g_sewer_name (snd ir)) grouped) ->
  exists q,
    In q grouped
    /\ g_sewer_name (snd q) = s
    /\ idxmax (map (fun ir => (fst ir, g_operation_time (snd ir)))
                   (group_of grouped s))
       = Some (fst q)
    /\ selected (map snd grouped) (snd q).
Proof.
  intros Hsorted Hs.
  assert (Hgroup : forall x, In x (group_of grouped s)
                             <-> In x grouped /\ g_sewer_name (snd x) = s).
  { intros x. unfold group_of. now rewrite filter_In, value_eqb_eq. }
  assert (Hsorted' :
            StronglySorted
              (fun x y => pair_leb (group_key_of_row (snd x))
                                   (group_key_of_row (snd y)) = true)
              (group_of grouped s)).
  { apply StronglySorted_filter. now apply StronglySorted_map in Hsorted. }
  destruct (group_of grouped s) as [|best l] eqn:Eg.
  - exfalso. apply in_map_iff in Hs. destruct Hs as (x & Hx & Hin).
    apply (Hgroup x). now split.
  - destruct (idxmax_from_first best l) as (before & q & after & Hl & Hi & Hb & Ha).
    rewrite Hl in Hgroup, Hsorted'.
    assert (Hq : In q grouped /\ g_sewer_name (snd q) = s)
      by (apply Hgroup, in_elt).
    destruct Hq as [Hq Hqs].
    exists q. split; [exact Hq|]. split; [exact Hqs|].
    split; [simpl; now rewrite Hi|].
    apply StronglySorted_after in Hsorted'.
    rewrite Forall_forall in Hb, Ha, Hsorted'.
    assert (Hcases : forall g', In g' (map snd grouped) ->
                                g_sewer_name g' = g_sewer_name (snd q) ->
                                exists x, snd x = g'
                                  /\ (In x before \/ x = q \/ In x after)).
    { intros g' Hg' Hsame. apply in_map_iff in Hg'.
      destruct Hg' as (x & <- & Hx). exists x. split; [reflexivity|].
      assert (Hin : In x (before ++ q :: after))
        by (apply Hgroup; split; [exact Hx|congruence]).
      apply in_app_or in Hin. destruct Hin as [?|[?|?]]; auto. }
    split; [now apply in_map|]. split.
    + intros g' Hg' Hsame.
      destruct (Hcases g' Hg' Hsame) as (x & <- & [Hx|[->|Hx]]).
      * apply Hb in Hx. lia.
      * lia.
      * now apply Ha.
    + intros g' Hg' Hsame Htime.
      destruct (Hcases g' Hg' Hsame) as (x & <- & [Hx|[->|Hx]]).
      * apply Hb in Hx. lia.
      * apply value_leb_refl.
      * apply Hsorted' in Hx. unfold group_key_of_row in Hx.
        rewrite Hsame in Hx. now rewrite pair_leb_same_sewer in Hx.
Qed.

(** ** The ranker: the table [dominant] *)

Lemma dominant_selected (rs : list ScheduleRecord) :
  Forall2 (fun s g => g_sewer_name g = s /\ selected (groupby_sum rs) g)
          (sort_values value_leb
             (unique value_eqb (map g_sewer_name (groupby_sum rs))))
          (dominant rs).
Proof.
  unfold dominant.
  set (grouped := reset_index (groupby_sum rs)).
  assert (Hrows : map snd grouped = groupby_sum rs) by apply reset_index_rows.
  assert (Hlabels : NoDup (map fst grouped)) by apply reset_index_labels.
  assert (Hsewers : map (fun ir => g_sewer_name (snd ir)) grouped
                    = map g_sewer_name (groupby_sum rs)).
  { now rewrite <- Hrows, map_map. }
  unfold loc, groupby_idxmax. rewrite Hsewers.
  set (sewers := sort_values value_leb
                   (unique value_eqb (map g_sewer_name (groupby_sum rs)))).
  assert (Hin : Forall (fun s => In s (map g_sewer_name (groupby_sum rs))) sewers).
  { apply Forall_forall. intros s Hs. unfold sewers in Hs.
    apply sort_values_In in Hs.
    exact (proj1 (unique_In _ value_eqb_eq _ _) Hs). }
  apply Forall2_flat_map
    with (R1 := fun s i => exists q, In q grouped /\ fst q = i
                                     /\ g_sewer_name (snd q) = s
                                     /\ selected (groupby_sum rs) (snd q)).
  - apply Forall2_flat_map with (1 := Forall2_diag _ _ Hin).
    intros s s' [<- Hs].
    destruct (idxmax_of_group grouped s) as (q & Hq & Hqs & -> & Hsel).
    + rewrite Hrows. apply groupby_sum_sorted.
    + now rewrite Hsewers.
    + exists (fst q). split; [reflexivity|]. exists q.
      rewrite Hrows in Hsel. auto.
  - intros s i (q & Hq & <- & Hqs & Hsel).
    rewrite (find_unique fst Nat.eqb Nat.eqb_eq grouped q Hlabels Hq).
    exists (snd q). auto.
Qed.

Lemma dominant_sewers (rs : list ScheduleRecord) :
  map g_sewer_name (dominant rs)
  = sort_values value_leb
      (unique value_eqb (map g_sewer_name (groupby_sum rs))).
Proof.
  apply Forall2_map_eq.
  apply Forall2_impl with (2 := dominant_selected rs). now intros s g [Hs _].
Qed.

Lemma dominant_NoDup (rs : list ScheduleRecord) :
  NoDup (map g_sewer_name (dominant rs)).
Proof.
  rewrite dominant_sewers.
  apply sort_values_NoDup, unique_NoDup, value_eqb_eq.
Qed.

Lemma dominant_In_sewer (rs : list ScheduleRecord) (e : Value) :
  In e (map g_sewer_name (dominant rs)) <-> In e (map sewer_name rs).
Proof.
  rewrite dominant_sewers, sort_values_In, (unique_In _ value_eqb_eq).
  apply groupby_sum_sewers.
Qed.

Lemma dominant_In_selected (rs : list ScheduleRecord) (g : GroupRow) :
  In g (dominant rs) -> selected (groupby_sum rs) g.
Proof.
  intros Hg.
  destruct (Forall2_In_r _ _ _ _ (dominant_selected rs) Hg) as (s & _ & _ & Hsel).
  exact Hsel.
Qed.

Lemma dominant_row_In (rs : list ScheduleRecord) (g : GroupRow) :
  In g (dominant rs) -> dominant_row rs (g_sewer_name g) = Some g.
Proof.
  intros Hg. unfold dominant_row.
  apply (find_unique g_sewer_name value_eqb value_eqb_eq);
    [apply dominant_NoDup|exact Hg].
Qed.

Lemma dominant_row_Some (rs : list ScheduleRecord) (e : Value) (g : GroupRow) :
  dominant_row rs e = Some g -> In g (dominant rs) /\ g_sewer_name g = e.
Proof.
  intros Hf. apply find_some in Hf. now rewrite value_eqb_eq in Hf.
Qed.

Lemma dominant_row_exists (rs : list ScheduleRecord) (e : Value) :
  In e (map sewer_name rs) ->
  exists g, dominant_row rs e = Some g /\ In g (dominant rs)
            /\ g_sewer_name g = e.
Proof.
  intros He. apply dominant_In_sewer, in_map_iff in He.
  destruct He as (g & <- & Hg). exists g.
  split; [now apply dominant_row_In|]. auto.
Qed.

(** What being selected means on the records: the sew type of the line is
    one of the entity, its time is the 64-bit total of the entity in that
    sew type, no sew type of the entity has a larger 64-bit total, and those
    with the same total are not smaller. *)
Lemma selected_dominates (rs : list ScheduleRecord) (g : GroupRow) :
  selected (groupby_sum rs) g ->
  works_in rs (g_sewer_name g) (g_sew_type g)
  /\ g_operation_time g = int64_total rs (g_sewer_name g) (g_sew_type g)
  /\ (forall c', works_in rs (g_sewer_name g) c' ->
                 int64_total rs (g_sewer_name g) c'
                 <= int64_total rs (g_sewer_name g) (g_sew_type g))
  /\ (forall c', works_in rs (g_sewer_name g) c' ->
                 int64_total rs (g_sewer_name g) c'
                 = int64_total rs (g_sewer_name g) (g_sew_type g) ->
                 value_leb (g_sew_type g) c' = true).
Proof.
  intros (Hg & Hmax & Hfirst).
  apply groupby_sum_In in Hg. destruct Hg as [Hw Ht].
  split; [exact Hw|]. split; [exact Ht|].
  assert (Hother : forall c', works_in rs (g_sewer_name g) c' ->
            In (mkGroupRow (g_sewer_name g) c'
                           (int64_total rs (g_sewer_name g) c'))
               (groupby_sum rs)).
  { intros c' Hc'. apply groupby_sum_In. simpl. now split. }
  split.
  - intros c' Hc'. rewrite <- Ht.
    exact (Hmax _ (Hother c' Hc') eq_refl).
  - intros c' Hc' Heq. rewrite <- Ht in Heq.
    exact (Hfirst _ (Hother c' Hc') eq_refl Heq).
Qed.

(** The dominant category of an entity of the records, on the 64-bit
    totals. *)
Lemma dominant_category_selected (rs : list ScheduleRecord) (e : Value) :
  In e (map sewer_name rs) ->
  exists c,
    dominant_category rs e = Some c
    /\ works_in rs e c
    /\ (forall c', works_in rs e c' -> int64_total rs e c' <= int64_total rs e c)
    /\ (forall c', works_in rs e c' -> int64_total rs e c' = int64_total rs e c ->
                   value_leb c c' = true).
Proof.
  intros He.
  destruct (dominant_row_exists rs e He) as (g & Hrow & Hg & <-).
  exists (g_sew_type g). unfold dominant_category. rewrite Hrow.
  split; [reflexivity|].
  destruct (selected_dominates rs g (dominant_In_selected rs g Hg))
    as (Hw & _ & Hmax & Hfirst).
  auto.
Qed.

Lemma int64_total_fits (rs : list ScheduleRecord) (e c : Value) :
  totals_fit rs -> works_in rs e c -> int64_total rs e c = total_minutes rs e c.
Proof. intros Hfit Hw. apply wrap_int64_fits. now apply Hfit. Qed.

(** C2 (corrected statement): when the totals fit 64-bit integers, every
    entity of the records has a dominant category; it is a category of the
    entity whose total is the largest, and when several categories of the
    entity share the largest total it is the smallest of them in the order
    of the column Sew Type, lexical for texts and numeric for numbers (the
    first line of the entity's group in the table [grouped], which is
    sorted by sew type). *)
Theorem dominant_category_on_ties (rs : list ScheduleRecord) (e : Value) :
  totals_fit rs ->
  In e (map sewer_name rs) ->
  exists c,
    dominant_category rs e = Some c
    /\ works_in rs e c
    /\ (forall c', works_in rs e c' ->
                   total_minutes rs e c' <= total_minutes rs e c)
    /\ (forall c', works_in rs e c' ->
                   total_minutes rs e c' = total_minutes rs e c ->
                   value_leb c c' = true).
Proof.
  intros Hfit He.
  destruct (dominant_category_selected rs e He) as (c & Hc & Hw & Hmax & Hfirst).
  exists c. split; [exact Hc|]. split; [exact Hw|]. split.
  - intros c' Hc'. specialize (Hmax c' Hc').
    now rewrite !int64_total_fits in Hmax.
  - intros c' Hc' Heq. apply Hfirst; [exact Hc'|].
    now rewrite !int64_total_fits.
Qed.

Ltac totals_in_range :=
  let e := fresh "e" in
  let c := fresh "c" in
  let r := fresh "r" in
  let Hr := fresh "Hr" in
  let H := fresh in
  intros e c (r & Hr & <- & <-); simpl in Hr;
  repeat (destruct Hr as [<-|Hr]; [vm_compute; split; intros H; discriminate H|]);
  destruct Hr.

Lemma tie_records_totals : totals_fit tie_records.
Proof. totals_in_range. Qed.

Lemma dominant_category_on_ties_witness :
  totals_fit tie_records
  /\ In (VStr "A") (map sewer_name tie_records)
  /\ exists c,
       dominant_category tie_records (VStr "A") = Some c
       /\ (forall c', works_in tie_records (VStr "A") c' ->
                      total_minutes tie_records (VStr "A") c'
                      = total_minutes tie_records (VStr "A") c ->
                      value_leb c c' = true).
Proof.
  assert (Hin : In (VStr "A") (map sewer_name tie_records)) by (simpl; tauto).
  split; [exact tie_records_totals|]. split; [exact Hin|].
  destruct (dominant_category_on_ties tie_records (VStr "A")
              tie_records_totals Hin)
    as (c & Hc & _ & _ & Hfirst).
  exists c. split; [exact Hc|exact Hfirst].
Defined.

(** C2, counterexample: the sewer A has 30 minutes of Y on the first line and
    30 minutes of X on the second.  The two sew types are tied, Y is the one
    seen first, and the ranker selects X. *)
Lemma tie_selects_lexically_first :
  map sew_type tie_records = [VStr "Y"; VStr "X"]
  /\ total_minutes tie_records (VStr "A") (VStr "Y") = 30
  /\ total_minutes tie_records (VStr "A") (VStr "X") = 30
  /\ first_seen_dominant tie_records (VStr "A") = Some (VStr "Y")
  /\ dominant_category tie_records (VStr "A") = Some (VStr "X").
Proof. repeat split. Qed.

(** Sew types that are numbers: 9 and 10 are tied, and the ranker selects 9,
    the smaller number, where the text 10 would come first. *)
Example tie_between_numbers :
  let rs := [ mkRecord (VStr "A") (VStr "M1") (VInt 10) 0 30 1800000000000;
              mkRecord (VStr "A") (VStr "M1") (VInt 9) 0 30 1800000000000 ] in
  dominant_category rs (VStr "A") = Some (VInt 9)
  /\ String.ltb "10" "9" = true.
Proof. split; reflexivity. Qed.

(** ** The ranker: the order of the entities *)

Lemma dominant_leb_cases (g g' : GroupRow) :
  dominant_leb g g' = true ->
  value_ltb (g_sew_type g) (g_sew_type g') = true
  \/ (g_sew_type g = g_sew_type g'
      /\ g_operation_time g' <= g_operation_time g).
Proof.
  unfold dominant_leb, lex_leb, by_key, value_ltb.
  destruct (value_compare (g_sew_type g) (g_sew_type g')) eqn:E.
  - intros Ht. right.
    split; [now apply (cmp_eq (cmp := value_compare))|lia].
  - now left.
  - discriminate.
Qed.

Lemma sorted_sewers_perm (rs : list ScheduleRecord) :
  Permutation (map g_sewer_name (dominant rs)) (sorted_sewers rs).
Proof. apply Permutation_map, sort_values_perm. Qed.

Lemma sorted_sewers_members (rs : list ScheduleRecord) (e : Value) :
  In e (sorted_sewers rs) <-> In e (map sewer_name rs).
Proof.
  rewrite <- dominant_In_sewer. split; apply Permutation_in;
    [symmetry|]; apply sorted_sewers_perm.
Qed.

Lemma sorted_sewers_NoDup (rs : list ScheduleRecord) : NoDup (sorted_sewers rs).
Proof.
  apply Permutation_NoDup with (1 := sorted_sewers_perm rs).
  apply dominant_NoDup.
Qed.

Lemma dominant_row_keys (rs : list ScheduleRecord) (e : Value) (g : GroupRow) :
  dominant_row rs e = Some g ->
  g_sewer_name g = e
  /\ dominant_category rs e = Some (g_sew_type g)
  /\ works_in rs e (g_sew_type g)
  /\ g_operation_time g = int64_total rs e (g_sew_type g).
Proof.
  intros Hrow. destruct (dominant_row_Some _ _ _ Hrow) as [Hin He].
  split; [exact He|]. split.
  - unfold dominant_category. now rewrite Hrow.
  - destruct (selected_dominates rs g (dominant_In_selected rs g Hin))
      as (Hw & Ht & _). now rewrite <- He.
Qed.




(** The ranker on a table with the three columns it reads. *)
Lemma group_and_sort_sewers_columns (df : DataFrame) :
  In "Sewer Name" (columns df) -> In "Sew Type" (columns df) ->
  In "Operation Time" (columns df) ->
  group_and_sort_sewers df = Ok (sorted_sewers (rows df)).
Proof.
  intros H1 H2 H3. unfold group_and_sort_sewers, select_operation_time.
  now rewrite (proj2 (has_column_In _ _) H1), (proj2 (has_column_In _ _) H2),
    (proj2 (has_column_In _ _) H3).
Qed.


Example scenario_ranking :
  group_and_sort_sewers scenario_data = Ok [VStr "A"; VStr "B"].
Proof. reflexivity. Qed.

Example scenario_dominant :
  dominant scenario_records
  = [mkGroupRow (VStr "A") (VStr "Y") 90; mkGroupRow (VStr "B") (VStr "Y") 60].
Proof. reflexivity. Qed.

Lemma scenario_records_totals : totals_fit scenario_records.
Proof. totals_in_range. Qed.



(** Sew types that are numbers are ranked as numbers: the sewer whose
    dominant sew type is 9 comes before the one whose is 10. *)
Example ranking_of_numbered_sew_types :
  let rs := [ mkRecord (VStr "A") (VStr "M1") (VInt 10) 0 30 1800000000000;
              mkRecord (VStr "B") (VStr "M1") (VInt 9) 0 30 1800000000000 ] in
  sorted_sewers rs = [VStr "B"; VStr "A"].
Proof. reflexivity. Qed.

(* ===================================================================== *)
(** * Part III: further properties of the two programs                    *)
(* ===================================================================== *)

(** ** Filters of the dashboard *)

(** X1: the three filters applied one after the other keep exactly the
    records that pass all three, in the order of the table; a filter on
    which nothing, the empty text, zero or ALL is selected lets every
    record pass, any other selection lets pass the records that have that
    value. *)
Theorem filters_select_exactly
    (machine_filter sewtype_filter sewer_filter : Selection)
    (rs : list ScheduleRecord) :
  apply_filters machine_filter sewtype_filter sewer_filter rs
  = filter (fun r => satisfies MachineName machine_filter r
                     && satisfies SewType sewtype_filter r
                     && satisfies SewerName sewer_filter r) rs
  /\ (forall f r, satisfies f None r = true
                  /\ satisfies f (Some (VStr "")) r = true
                  /\ satisfies f (Some (VInt 0)) r = true
                  /\ satisfies f ALL r = true)
  /\ (forall f s r, s <> VStr "" -> s <> VInt 0 -> s <> VStr "ALL" ->
                    (satisfies f (Some s) r = true <-> field_value f r = s)).
Proof.
  split; [|split].
  - unfold apply_filters. rewrite !apply_filter_satisfies, !filter_filter.
    apply filter_ext. intros r. now rewrite andb_assoc.
  - intros f r. repeat split.
  - intros f s r. apply satisfies_selected.
Qed.

Lemma filters_select_exactly_witness :
  VStr "A" <> VStr "" /\ VStr "A" <> VInt 0 /\ VStr "A" <> VStr "ALL"
  /\ forall r, satisfies SewerName (Some (VStr "A")) r = true
               <-> sewer_name r = VStr "A".
Proof.
  assert (H1 : VStr "A" <> VStr "") by discriminate.
  assert (H2 : VStr "A" <> VInt 0) by discriminate.
  assert (H3 : VStr "A" <> VStr "ALL") by discriminate.
  split; [exact H1|]. split; [exact H2|]. split; [exact H3|].
  intros r.
  exact (proj2 (proj2 (filters_select_exactly ALL ALL (Some (VStr "A")) []))
               SewerName (VStr "A") r H1 H2 H3).
Defined.

Lemma apply_filters_In
    (machine_filter sewtype_filter sewer_filter : Selection)
    (rs : list ScheduleRecord) (r : ScheduleRecord) :
  In r (apply_filters machine_filter sewtype_filter sewer_filter rs)
  <-> In r rs /\ satisfies MachineName machine_filter r = true
      /\ satisfies SewType sewtype_filter r = true
      /\ satisfies SewerName sewer_filter r = true.
Proof.
  rewrite apply_filters_matching. unfold matching.
  rewrite filter_In, !andb_true_iff. tauto.
Qed.

Lemma unique_constant (v : Value) (l : list Value) :
  (forall x, In x l -> x = v) -> l <> [] -> unique value_eqb l = [v].
Proof.
  intros Hall Hne. destruct l as [|x l]; [contradiction|]. simpl.
  rewrite (Hall x) by now left. f_equal.
  apply filter_none. intros y Hy.
  apply (proj1 (unique_In _ value_eqb_eq _ _)) in Hy.
  rewrite (Hall y) by now right.
  now rewrite value_eqb_refl.
Qed.

Lemma unique_length {A : Type} (eqb : A -> A -> bool) (l : list A) :
  (List.length (unique eqb l) <= List.length l)%nat.
Proof.
  induction l as [|a l IH]; simpl; [lia|].
  pose proof (filter_length_le (fun y => negb (eqb a y)) (unique eqb l)). lia.
Qed.

Lemma options_for_values (f : Field) (rs : list ScheduleRecord) :
  map option_value (options_for f rs) = VStr "ALL" :: sorted_unique f rs
  /\ map option_label (options_for f rs) = VStr "ALL" :: sorted_unique f rs.
Proof.
  unfold options_for. simpl. rewrite !map_map. simpl. now rewrite map_id.
Qed.

Lemma satisfies_only_filter (f g : Field) (r : ScheduleRecord) :
  satisfies g (only_filter f g (field_value f r)) r = true.
Proof.
  destruct f, g; simpl; try reflexivity;
    rewrite value_eqb_refl; now rewrite !orb_true_r.
Qed.

Section DashboardFacts.
Context `{PD : Pandas}.

(** X2: the category array of the timeline is always computed from the
    filtered table.  The branch that reads the full table is taken only when
    the three filters are ALL, and then the filtered table is the full
    table: the two branches never differ. *)
Theorem categories_of_filtered_table (stored : DataFrame)
    (view_by color_by : Field)
    (machine_filter sewtype_filter sewer_filter : Selection) :
  update_dynamic_graph (Some stored) view_by color_by
                       machine_filter sewtype_filter sewer_filter
  = match apply_filters machine_filter sewtype_filter sewer_filter
                        (rows (read_json stored)) with
    | [] => TitleOnly "No data matches the selected filters."
    | (_ :: _) as filtered =>
        Timeline {| columns := columns (read_json stored); rows := filtered |}
                 view_by color_by (sorted_unique view_by filtered)
                 (Z.max 600
                    (40 * Z.of_nat (List.length (sorted_unique view_by filtered))))
    end.
Proof.
  unfold update_dynamic_graph. simpl.
  destruct (is_ALL machine_filter && is_ALL sewtype_filter
            && is_ALL sewer_filter) eqn:Eall.
  - apply andb_true_iff in Eall. destruct Eall as [Eall E3].
    apply andb_true_iff in Eall. destruct Eall as [E1 E2].
    apply is_ALL_true in E1, E2, E3. subst.
    change (apply_filters ALL ALL ALL (rows (read_json stored)))
      with (rows (read_json stored)).
    now destruct (rows (read_json stored)).
  - now destruct (apply_filters machine_filter sewtype_filter sewer_filter
                                (rows (read_json stored))).
Qed.

(** X3: when the y axis shows the column that a filter narrows to the value
    [v] (not empty, not zero, not ALL) and some record matches, the timeline
    has the single category [v] and the minimum height of 600. *)
Theorem single_category_on_filtered_column (stored : DataFrame)
    (view_by color_by : Field)
    (machine_filter sewtype_filter sewer_filter : Selection) (v : Value) :
  filter_on view_by machine_filter sewtype_filter sewer_filter = Some v ->
  v <> VStr "" -> v <> VInt 0 -> v <> VStr "ALL" ->
  apply_filters machine_filter sewtype_filter sewer_filter
                (rows (read_json stored)) <> [] ->
  update_dynamic_graph (Some stored) view_by color_by
                       machine_filter sewtype_filter sewer_filter
  = Timeline {| columns := columns (read_json stored);
                rows := apply_filters machine_filter sewtype_filter sewer_filter
                          (rows (read_json stored)) |}
             view_by color_by [v] 600.
Proof.
  intros Hon H1 H2 H3 Hne. rewrite figure_of_filtered_table.
  assert (Hall : forall r,
             In r (apply_filters machine_filter sewtype_filter sewer_filter
                                 (rows (read_json stored))) ->
             field_value view_by r = v).
  { intros r Hr. apply apply_filters_In in Hr.
    destruct Hr as (_ & Hm & Hs & Hw).
    apply (satisfies_selected view_by v r H1 H2 H3).
    destruct view_by; simpl in Hon; subst; assumption. }
  destruct (apply_filters machine_filter sewtype_filter sewer_filter
                          (rows (read_json stored))) as [|r rs] eqn:Ef;
    [contradiction|].
  assert (Hcats : sorted_unique view_by (r :: rs) = [v]).
  { unfold sorted_unique. rewrite (unique_constant v); [reflexivity| |discriminate].
    intros x Hx. apply in_map_iff in Hx. destruct Hx as (r' & <- & Hr').
    now apply Hall. }
  cbv beta iota zeta. rewrite Hcats. reflexivity.
Qed.

(** X4: the height of a timeline is 600 up to 15 categories and 40 per
    category from 15 on, and a timeline never has more categories than the
    filtered table has records. *)
Theorem chart_height_bounds (data : option DataFrame) (view_by color_by : Field)
    (machine_filter sewtype_filter sewer_filter : Selection)
    (df : DataFrame) (y color : Field) (categories : list Value) (height : Z) :
  update_dynamic_graph data view_by color_by
                       machine_filter sewtype_filter sewer_filter
  = Timeline df y color categories height ->
  ((List.length categories <= 15)%nat -> height = 600)
  /\ ((15 <= List.length categories)%nat ->
      height = 40 * Z.of_nat (List.length categories))
  /\ (List.length categories <= List.length (rows df))%nat
  /\ rows df <> [].
Proof.
  destruct data as [stored|]; [|discriminate].
  rewrite figure_of_filtered_table.
  destruct (apply_filters machine_filter sewtype_filter sewer_filter
                          (rows (read_json stored))) as [|r rs]; [discriminate|].
  cbv zeta.
  remember (sorted_unique view_by (r :: rs)) as cats eqn:Hcats.
  remember (Z.max 600 (40 * Z.of_nat (List.length cats))) as h eqn:Hh.
  intros E. injection E as <- <- <- <- <-. cbn [rows]. subst h.
  split; [lia|]. split; [lia|]. split; [|discriminate].
  subst cats. unfold sorted_unique. rewrite sort_values_length.
  etransitivity; [apply unique_length|]. now rewrite length_map.
Qed.

(** ** Dropdowns of the dashboard *)

(** X5: without a stored table the three dropdowns are empty and nothing is
    selected.  With one, each dropdown offers ALL first and then the
    distinct values that its column has in the table that [read_json] makes
    of the store, in strictly ascending order (numeric for a column of
    integers, lexical for a column of texts), every option being labelled
    with its value, and ALL is selected in each. *)
Theorem filter_options_listing (df : DataFrame) (f : Field) :
  (dropdown f (update_filter_options None) = []
   /\ machine_value (update_filter_options None) = None
   /\ sewtype_value (update_filter_options None) = None
   /\ sewer_value (update_filter_options None) = None)
  /\ (exists values,
        map option_value (dropdown f (update_filter_options (Some df)))
        = VStr "ALL" :: values
        /\ map option_label (dropdown f (update_filter_options (Some df)))
           = VStr "ALL" :: values
        /\ sorted_distinct values (map (field_value f) (rows (read_json df))))
  /\ machine_value (update_filter_options (Some df)) = ALL
  /\ sewtype_value (update_filter_options (Some df)) = ALL
  /\ sewer_value (update_filter_options (Some df)) = ALL.
Proof.
  split; [destruct f; repeat split|].
  split; [|repeat split].
  exists (sorted_unique f (rows (read_json df))).
  assert (Hd : dropdown f (update_filter_options (Some df))
               = options_for f (rows (read_json df))) by now destruct f.
  rewrite Hd. destruct (options_for_values f (rows (read_json df))) as [Hv Hl].
  split; [exact Hv|]. split; [exact Hl|]. apply sorted_unique_distinct.
Qed.

(** X6: on a stored table with at least one record, moving one dropdown to
    any option it offers, the two others staying on ALL, always gives a
    timeline with at least one record, never the figure that says that no
    data matches. *)
Theorem offered_option_matches (df : DataFrame) (f view_by color_by : Field)
    (o : DropdownOption) :
  rows df <> [] ->
  In o (dropdown f (update_filter_options (Some df))) ->
  exists r rs categories height,
    update_dynamic_graph (Some df) view_by color_by
      (only_filter f MachineName (option_value o))
      (only_filter f SewType (option_value o))
      (only_filter f SewerName (option_value o))
    = Timeline {| columns := columns (read_json df); rows := r :: rs |}
               view_by color_by categories height.
Proof.
  intros Hne Ho.
  assert (Hne' : rows (read_json df) <> []).
  { intros E. apply Hne. apply length_zero_iff_nil.
    rewrite <- read_json_lines, E. reflexivity. }
  assert (Hd : dropdown f (update_filter_options (Some df))
               = options_for f (rows (read_json df))) by now destruct f.
  rewrite Hd in Ho. clear Hd.
  rewrite figure_of_filtered_table.
  assert (Hsome : exists r0,
             In r0 (apply_filters (only_filter f MachineName (option_value o))
                                  (only_filter f SewType (option_value o))
                                  (only_filter f SewerName (option_value o))
                                  (rows (read_json df)))).
  { destruct Ho as [<-|Ho].
    - destruct (rows (read_json df)) as [|r0 rs0] eqn:Er; [contradiction|].
      exists r0. simpl option_value.
      replace (only_filter f MachineName (VStr "ALL")) with ALL by now destruct f.
      replace (only_filter f SewType (VStr "ALL")) with ALL by now destruct f.
      replace (only_filter f SewerName (VStr "ALL")) with ALL by now destruct f.
      now left.
    - apply in_map_iff in Ho. destruct Ho as (v & <- & Hv). simpl option_value.
      apply (proj2 (sorted_unique_distinct f (rows (read_json df)))) in Hv.
      apply in_map_iff in Hv. destruct Hv as (r0 & <- & Hr0).
      exists r0. apply apply_filters_In.
      split; [exact Hr0|]. repeat split; apply satisfies_only_filter. }
  destruct Hsome as (r0 & Hr0).
  destruct (apply_filters _ _ _ (rows (read_json df))) as [|r rs];
    [contradiction|].
  cbv beta iota zeta. now eexists _, _, _, _.
Qed.
End DashboardFacts.

Lemma single_category_on_filtered_column_witness :
  filter_on SewerName ALL ALL (Some (VStr "A")) = Some (VStr "A")
  /\ VStr "A" <> VStr "" /\ VStr "A" <> VInt 0 /\ VStr "A" <> VStr "ALL"
  /\ apply_filters ALL ALL (Some (VStr "A"))
                   (rows (read_json_sample scenario_data)) <> []
  /\ update_dynamic_graph (PD := sample_pandas) (Some scenario_data)
                          SewerName SewType ALL ALL (Some (VStr "A"))
     = Timeline {| columns := columns scenario_data;
                   rows := firstn 2 scenario_records |}
                SewerName SewType [VStr "A"] 600.
Proof.
  assert (H0 : filter_on SewerName ALL ALL (Some (VStr "A")) = Some (VStr "A"))
    by reflexivity.
  assert (H1 : VStr "A" <> VStr "") by discriminate.
  assert (H2 : VStr "A" <> VInt 0) by discriminate.
  assert (H3 : VStr "A" <> VStr "ALL") by discriminate.
  assert (H4 : apply_filters ALL ALL (Some (VStr "A"))
                 (rows (read_json (Pandas := sample_pandas) scenario_data))
               <> []) by discriminate.
  repeat (split; [assumption|]).
  exact (single_category_on_filtered_column (PD := sample_pandas)
           scenario_data SewerName SewType
           ALL ALL (Some (VStr "A")) (VStr "A") H0 H1 H2 H3 H4).
Defined.

Lemma chart_height_bounds_witness :
  update_dynamic_graph (PD := sample_pandas) (Some scenario_data)
                       SewType SewerName ALL ALL (Some (VStr "A"))
  = Timeline {| columns := all_columns ++ ["End Time"];
                rows := firstn 2 scenario_records |}
             SewType SewerName [VStr "X"; VStr "Y"] 600
  /\ (List.length [VStr "X"; VStr "Y"]
      <= List.length (rows {| columns := all_columns ++ ["End Time"];
                              rows := firstn 2 scenario_records |}))%nat.
Proof.
  assert (H : update_dynamic_graph (PD := sample_pandas) (Some scenario_data)
                                   SewType SewerName ALL ALL (Some (VStr "A"))
              = Timeline {| columns := all_columns ++ ["End Time"];
                            rows := firstn 2 scenario_records |}
                         SewType SewerName [VStr "X"; VStr "Y"] 600)
    by reflexivity.
  split; [exact H|].
  exact (proj1 (proj2 (proj2 (chart_height_bounds (PD := sample_pandas)
                                _ _ _ _ _ _ _ _ _ _ _ H)))).
Defined.

(** Sewers stored as the texts 10 and 7: the dropdown offers ALL, then 7,
    then 10, as integers. *)
Example numbered_sewers_options :
  let stored := {| columns := all_columns ++ ["End Time"];
                   rows := [ mkRecord (VStr "10") (VStr "M1") (VStr "X")
                                      0 30 1800000000000;
                             mkRecord (VStr "7") (VStr "M1") (VStr "Y")
                                      0 30 1800000000000 ] |} in
  map option_value
      (sewer_options (update_filter_options (PD := sample_pandas) (Some stored)))
  = [VStr "ALL"; VInt 7; VInt 10].
Proof. reflexivity. Qed.

Lemma offered_option_matches_witness :
  rows scenario_data <> []
  /\ In (mkOption (VStr "B") (VStr "B"))
        (dropdown SewerName
           (update_filter_options (PD := sample_pandas) (Some scenario_data)))
  /\ exists r rs categories height,
       update_dynamic_graph (PD := sample_pandas) (Some scenario_data)
         SewType SewerName ALL ALL (Some (VStr "B"))
       = Timeline {| columns := columns (read_json_sample scenario_data);
                     rows := r :: rs |}
                  SewType SewerName categories height.
Proof.
  assert (H0 : rows scenario_data <> []) by discriminate.
  assert (H1 : In (mkOption (VStr "B") (VStr "B"))
                  (dropdown SewerName
                     (update_filter_options (PD := sample_pandas)
                        (Some scenario_data))))
    by (simpl; tauto).
  split; [exact H0|]. split; [exact H1|].
  exact (offered_option_matches (PD := sample_pandas) scenario_data
           SewerName SewType SewerName
           (mkOption (VStr "B") (VStr "B")) H0 H1).
Defined.

(** ** Uploads of the dashboard *)

Section UploadFacts.
Context `{PD : Pandas}.

Lemma first_mismatch_exists (lines : list RawRow) (v : string) (k : nat) :
  first_mismatch (map raw_start_time lines) v k ->
  Exists (fun row => strptime (raw_start_time row) = None) lines.
Proof.
  intros (Hnth & Hv & _).
  apply nth_error_In, in_map_iff in Hnth. destruct Hnth as (row & <- & Hrow).
  apply Exists_exists. now exists row.
Qed.

(** The three ways in which [parse_upload] ends on an uploaded file. *)
Lemma parse_upload_cases (df : CsvFrame) (filename : string) :
  (upload_failed (Ok df)
   /\ exists status, parse_upload (Some (Ok df)) filename = Ok (None, status))
  \/ (has_required_columns df /\ all_start_times_match df /\ ~ durations_fit df
      /\ exists e, parse_upload (Some (Ok df)) filename = Raise e)
  \/ (has_required_columns df /\ all_start_times_match df /\ durations_fit df
      /\ exists data,
           parse_upload (Some (Ok df)) filename
           = Ok (Some data, ("File successfully uploaded: " ++ filename)%string)).
Proof.
  unfold parse_upload.
  destruct (find _ required_columns) as [col|] eqn:Ef.
  - left. split; [|eexists; reflexivity].
    apply find_some in Ef. destruct Ef as [Hreq Hcol].
    apply missing_column with col; [exact Hreq|].
    now apply has_column_false, negb_true_iff.
  - pose proof (proj1 (required_columns_find _) Ef) as Hcols.
    pose proof (to_datetime_from_spec 0 (map raw_start_time (csv_rows df)))
      as Hs.
    destruct (to_datetime (map raw_start_time (csv_rows df))) as [ts|e] eqn:Et.
    + destruct (to_datetime_converted _ _ Et) as [Hts Hall].
      pose proof (end_times_spec (csv_rows df) ts Hts) as He.
      destruct (end_times ts _) as [ends|e]; simpl.
      * right. right. destruct He as [Hfit _].
        repeat (split; [assumption|]). eexists. reflexivity.
      * right. left. repeat (split; [assumption|]). now exists e.
    + left. split; [|eexists; reflexivity].
      unfold to_datetime in Et. rewrite Et in Hs.
      destruct Hs as (v & k & _ & Hfirst).
      apply unparseable_start_time. exact (first_mismatch_exists _ _ _ Hfirst).
Qed.

(** X7: [parse_upload] stores nothing exactly on the three failures: the
    text is not a readable CSV, a required column is missing, or a start
    time is rejected.  It raises, and the store stays as it was, exactly
    when the file has its columns and its start times are converted but a
    duration does not fit the range of timestamps.  In every other case it
    stores a table and the status is [File successfully uploaded: ] followed
    by the file name. *)
Theorem upload_stored_or_failed (res : Result CsvFrame) (filename : string) :
  ((exists status, parse_upload (Some res) filename = Ok (None, status))
   <-> upload_failed res)
  /\ ((exists e, parse_upload (Some res) filename = Raise e)
      <-> exists df, res = Ok df /\ has_required_columns df
                     /\ all_start_times_match df /\ ~ durations_fit df)
  /\ (forall data status,
        parse_upload (Some res) filename = Ok (Some data, status) ->
        status = ("File successfully uploaded: " ++ filename)%string)
  /\ (forall app e,
        parse_upload (Some res) filename = Raise e ->
        on_upload app (Some res) filename = app).
Proof.
  split; [|split; [|split]].
  - split; [|apply parse_upload_failed_none].
    destruct res as [df|e]; [|intros _; constructor].
    intros (status & Hp).
    destruct (parse_upload_cases df filename)
      as [[Hfail _]|[(_ & _ & _ & e & He)|(_ & _ & _ & data & Hd)]];
      [exact Hfail|congruence|congruence].
  - split.
    + destruct res as [df|e0]; [|intros (e & He); discriminate He].
      intros (e & He). exists df. split; [reflexivity|].
      destruct (parse_upload_cases df filename)
        as [[_ (status & Hs)]|[(H1 & H2 & H3 & _)|(_ & _ & _ & data & Hd)]];
        [congruence|auto|congruence].
    + intros (df & -> & H1 & H2 & H3).
      now apply parse_upload_overflow.
  - intros data status Hp. destruct res as [df|e]; [|discriminate].
    now destruct (parse_upload_stored _ _ _ _ Hp) as (_ & -> & _).
  - intros app e He. unfold on_upload. now rewrite He.
Qed.

(** X8: after a failed upload the dashboard is back to its empty state: the
    three dropdowns have no option and no selection, and the graph is the
    empty figure, whatever was stored and selected before. *)
Theorem failed_upload_empties_dashboard (app : Dashboard)
    (res : Result CsvFrame) (filename : string) :
  upload_failed res ->
  let data := stored_data (on_upload app (Some res) filename) in
  update_filter_options data
  = {| machine_options := []; machine_value := None;
       sewtype_options := []; sewtype_value := None;
       sewer_options := []; sewer_value := None |}
  /\ forall view_by color_by machine_filter sewtype_filter sewer_filter,
       update_dynamic_graph data view_by color_by
                            machine_filter sewtype_filter sewer_filter
       = NoFigure.
Proof.
  intros Hfail data. unfold data.
  destruct (parse_upload_failed_none res filename Hfail) as (status & Hp).
  rewrite (on_upload_stored app _ _ _ _ Hp).
  split; reflexivity.
Qed.

(** X9: a stored table has the six columns the dashboard reads, after the
    columns of the file; when the file has no column Machine Name every
    record gets the machine name Unknown, otherwise the names of the file are
    kept.  The ranker accepts every stored table. *)
Theorem stored_table_columns (df : CsvFrame) (filename : string)
    (data : DataFrame) (status : string) :
  parse_upload (Some (Ok df)) filename = Ok (Some data, status) ->
  (forall col, In col (csv_columns df) -> In col (columns data))
  /\ (forall col,
        In col ["Sewer Name"; "Machine Name"; "Sew Type"; "Start Time";
                "Operation Time"; "End Time"] ->
        In col (columns data))
  /\ (~ In "Machine Name" (csv_columns df) ->
      Forall (fun r => machine_name r = VStr "Unknown") (rows data))
  /\ (In "Machine Name" (csv_columns df) ->
      Forall2 (fun row r => machine_name r = raw_machine_name row)
              (csv_rows df) (rows data))
  /\ group_and_sort_sewers data = Ok (sorted_sewers (rows data)).
Proof.
  intros Hp.
  destruct (parse_upload_stored _ _ _ _ Hp)
    as (Hreq & _ & _ & _ & Hd & Hcols).
  assert (Hkeep : forall col, In col (csv_columns df) -> In col (columns data)).
  { intros col Hcol. rewrite Hcols. apply in_or_app. left.
    destruct (has_column _ _); [exact Hcol|]. apply in_or_app. now left. }
  destruct (required_columns_desktop _ Hreq) as (H1 & H2 & H3 & H4).
  assert (Hsix : forall col,
             In col ["Sewer Name"; "Machine Name"; "Sew Type"; "Start Time";
                     "Operation Time"; "End Time"] ->
             In col (columns data)).
  { intros col [<-|[<-|[<-|[<-|[<-|[<-|[]]]]]]]; try now apply Hkeep.
    - rewrite Hcols. apply in_or_app. left.
      destruct (has_column _ "Machine Name") eqn:E.
      + now apply has_column_In.
      + apply in_or_app. right. now left.
    - rewrite Hcols. apply in_or_app. right. now left. }
  split; [exact Hkeep|]. split; [exact Hsix|].
  split; [|split].
  - intros Hno. apply has_column_false in Hno.
    apply Forall_forall. intros r Hr.
    destruct (Forall2_In_r _ _ _ _ Hd Hr) as (row & _ & t & _ & ->).
    unfold machine_or_unknown. now rewrite Hno.
  - intros Hyes. apply has_column_In in Hyes.
    apply Forall2_impl with (2 := Hd). intros row r (t & _ & ->).
    unfold machine_or_unknown. now rewrite Hyes.
  - apply group_and_sort_sewers_columns; apply Hsix; simpl; tauto.
Qed.
End UploadFacts.

Lemma long_operation_csv_columns : has_required_columns long_operation_csv.
Proof. columns_present. Qed.

Lemma long_operation_csv_start_times :
  all_start_times_match (PD := sample_pandas) long_operation_csv.
Proof. start_times_match. Qed.

Lemma long_operation_csv_overflow :
  ~ durations_fit (PD := sample_pandas) long_operation_csv.
Proof.
  intros Hfit. inversion Hfit as [|? ? [Hrow _] _]; subst.
  vm_compute in Hrow. destruct Hrow as [_ Hrow]. now apply Hrow.
Qed.

Lemma upload_stored_or_failed_witness :
  (exists df, Ok long_operation_csv = Ok df /\ has_required_columns df
              /\ all_start_times_match (PD := sample_pandas) df
              /\ ~ durations_fit (PD := sample_pandas) df)
  /\ (exists e,
        parse_upload (PD := sample_pandas) (Some (Ok long_operation_csv))
                     "schedule.csv" = Raise e)
  /\ parse_upload (PD := sample_pandas) (Some (Ok scenario_csv)) "schedule.csv"
     = Ok (Some scenario_data, "File successfully uploaded: schedule.csv").
Proof.
  assert (H : exists df, Ok long_operation_csv = Ok df
                         /\ has_required_columns df
                         /\ all_start_times_match (PD := sample_pandas) df
                         /\ ~ durations_fit (PD := sample_pandas) df).
  { exists long_operation_csv. split; [reflexivity|].
    split; [exact long_operation_csv_columns|].
    split; [exact long_operation_csv_start_times|].
    exact long_operation_csv_overflow. }
  split; [exact H|]. split; [|reflexivity].
  exact (proj2 (proj1 (proj2 (upload_stored_or_failed (PD := sample_pandas)
                                (Ok long_operation_csv) "schedule.csv"))) H).
Defined.

(** A file without the column Machine Name. *)
Lemma stored_table_columns_witness :
  let df := {| csv_columns := ["Sewer Name"; "Start Time"; "Operation Time";
                               "Sew Type"];
               csv_rows := scenario_rows |} in
  exists data status,
    parse_upload (PD := sample_pandas) (Some (Ok df)) "schedule.csv"
    = Ok (Some data, status)
    /\ Forall (fun r => machine_name r = VStr "Unknown") (rows data).
Proof.
  intros df. eexists _, _.
  assert (Hp : parse_upload (PD := sample_pandas) (Some (Ok df)) "schedule.csv"
               = Ok (Some {| columns := ["Sewer Name"; "Start Time";
                                         "Operation Time"; "Sew Type";
                                         "Machine Name"; "End Time"];
                             rows := map (fun r =>
                                            mkRecord (sewer_name r) (VStr "Unknown")
                                                     (sew_type r) (start_time r)
                                                     (operation_time r) (end_time r))
                                         scenario_records |},
                     "File successfully uploaded: schedule.csv")) by reflexivity.
  split; [exact Hp|].
  destruct (stored_table_columns (PD := sample_pandas) df "schedule.csv" _ _ Hp)
    as (_ & _ & Hunknown & _).
  apply Hunknown. apply has_column_false. reflexivity.
Defined.

Lemma failed_upload_empties_dashboard_witness :
  let app := {| stored_data := Some scenario_data;
                upload_status := "File successfully uploaded: first.csv" |} in
  upload_failed (PD := sample_pandas) (Ok bad_time_csv)
  /\ update_dynamic_graph (PD := sample_pandas)
       (stored_data (on_upload (PD := sample_pandas) app
                               (Some (Ok bad_time_csv)) "second.csv"))
       SewerName SewType ALL ALL ALL
     = NoFigure.
Proof.
  intros app.
  assert (Hfail : upload_failed (PD := sample_pandas) (Ok bad_time_csv)).
  { apply unparseable_start_time. exact bad_time_csv_mismatch. }
  split; [exact Hfail|].
  exact (proj2 (failed_upload_empties_dashboard (PD := sample_pandas) app
                  (Ok bad_time_csv) "second.csv" Hfail)
               SewerName SewType ALL ALL ALL).
Defined.

(** ** Stripped names *)

Lemma lstrip_no_leading_space (s : string) :
  starts_with_space (lstrip s) = false.
Proof.
  induction s as [|c s IH]; simpl; [reflexivity|].
  destruct (is_space c) eqn:E; [exact IH|]. simpl. exact E.
Qed.

Lemma rstrip_no_trailing_space (s : string) :
  ends_with_space (rstrip s) = false.
Proof.
  induction s as [|c s IH]; simpl; [reflexivity|].
  destruct (rstrip s) as [|c' t] eqn:E.
  - destruct (is_space c) eqn:Ec; simpl; [reflexivity|exact Ec].
  - exact IH.
Qed.

Lemma rstrip_keeps_head (s : string) :
  starts_with_space s = false -> starts_with_space (rstrip s) = false.
Proof.
  destruct s as [|c s]; simpl; [reflexivity|]. intros Ec.
  destruct (rstrip s); [rewrite Ec|]; simpl; exact Ec.
Qed.

Lemma lstrip_fixed (s : string) :
  starts_with_space s = false -> lstrip s = s.
Proof. destruct s as [|c s]; simpl; [reflexivity|]. now intros ->. Qed.

Lemma rstrip_fixed (s : string) :
  ends_with_space s = false -> rstrip s = s.
Proof.
  induction s as [|c s IH]; [reflexivity|].
  intros He. cbn [rstrip]. destruct s as [|c' s'].
  - simpl in *. now rewrite He.
  - rewrite IH by exact He. reflexivity.
Qed.

Lemma str_strip_stripped (s : string) :
  starts_with_space (str_strip s) = false
  /\ ends_with_space (str_strip s) = false
  /\ str_strip (str_strip s) = str_strip s.
Proof.
  assert (H1 : starts_with_space (str_strip s) = false)
    by apply rstrip_keeps_head, lstrip_no_leading_space.
  assert (H2 : ends_with_space (str_strip s) = false)
    by apply rstrip_no_trailing_space.
  split; [exact H1|]. split; [exact H2|].
  unfold str_strip at 1. rewrite (lstrip_fixed _ H1). now apply rstrip_fixed.
Qed.

Lemma stripped_name_is_stripped (cell : Value) : is_stripped (stripped_name cell).
Proof.
  exists (str_strip (astype_str cell)). split; [reflexivity|].
  apply str_strip_stripped.
Qed.

Section StrippedNames.
Context `{PD : Pandas}.

(** X10: every record a loader returns has a stripped sewer name: a text
    that neither begins nor ends with a whitespace character, and that
    stripping again does not change. *)
Theorem loaded_sewer_names_stripped (df : CsvFrame) (filename : string) :
  (forall data status,
      parse_upload (Some (Ok df)) filename = Ok (Some data, status) ->
      Forall (fun r => exists s,
                  sewer_name r = VStr s
                  /\ starts_with_space s = false
                  /\ ends_with_space s = false
                  /\ str_strip s = s)
             (rows data))
  /\ (forall out,
        load_and_process_data (Ok df) = Ok out ->
        Forall (fun r => exists s,
                    sewer_name r = VStr s
                    /\ starts_with_space s = false
                    /\ ends_with_space s = false
                    /\ str_strip s = s)
               (rows out)).
Proof.
  split.
  - intros data status Hp.
    destruct (parse_upload_stored _ _ _ _ Hp) as (_ & _ & _ & _ & Hd & _).
    apply Forall_forall. intros r Hr.
    destruct (Forall2_In_r _ _ _ _ Hd Hr) as (row & _ & t & _ & ->).
    apply stripped_name_is_stripped.
  - intros out Hl.
    destruct (load_and_process_data_returned _ _ Hl)
      as (_ & _ & _ & _ & _ & _ & _ & records & Hd & ->).
    apply Forall_forall. intros r Hr. apply sort_values_In in Hr.
    destruct (Forall2_In_r _ _ _ _ Hd Hr) as (row & _ & t & _ & ->).
    apply stripped_name_is_stripped.
Qed.
End StrippedNames.

(** A file whose first sewer name is written with spaces around it. *)
Lemma loaded_sewer_names_stripped_witness :
  let df := {| csv_columns := all_columns;
               csv_rows := [ mkRawRow (VStr "  A B ") (VStr "M1") (VStr "X")
                                      "2024-01-01 08:00" 30 ] |} in
  exists out,
    load_and_process_data (PD := sample_pandas) (Ok df) = Ok out
    /\ map sewer_name (rows out) = [VStr "A B"]
    /\ Forall (fun r => exists s,
                   sewer_name r = VStr s
                   /\ starts_with_space s = false
                   /\ ends_with_space s = false
                   /\ str_strip s = s)
              (rows out).
Proof.
  intros df. eexists.
  assert (Hl : load_and_process_data (PD := sample_pandas) (Ok df)
               = Ok {| columns := all_columns ++ ["End Time"];
                       rows := [ mkRecord (VStr "A B") (VStr "M1") (VStr "X")
                                          1704096000000000000 30
                                          1704097800000000000 ] |})
    by reflexivity.
  split; [exact Hl|]. split; [reflexivity|].
  exact (proj2 (loaded_sewer_names_stripped (PD := sample_pandas) df
                  "schedule.csv") _ Hl).
Defined.

(** ** The ranker and the order of the records *)

Lemma sorted_NoDup_same_members {A : Type} (leb : A -> A -> bool)
    (antisym : forall x y, leb x y = true -> leb y x = true -> x = y)
    (l1 l2 : list A) :
  StronglySorted (fun x y => leb x y = true) l1 ->
  StronglySorted (fun x y => leb x y = true) l2 ->
  NoDup l1 -> NoDup l2 ->
  (forall x, In x l1 <-> In x l2) ->
  l1 = l2.
Proof.
  revert l2. induction l1 as [|a l1 IH]; intros [|b l2] Hs1 Hs2 Hn1 Hn2 Hmem.
  - reflexivity.
  - destruct (proj2 (Hmem b)). now left.
  - destruct (proj1 (Hmem a)). now left.
  - inversion Hs1 as [|? ? Hs1' Ha]; inversion Hs2 as [|? ? Hs2' Hb]; subst.
    inversion Hn1 as [|? ? Ha' Hn1']; inversion Hn2 as [|? ? Hb' Hn2']; subst.
    rewrite Forall_forall in Ha, Hb.
    assert (Hab : a = b).
    { destruct (proj1 (Hmem a) (or_introl eq_refl)) as [Hba|Hin2]; [now symmetry|].
      destruct (proj2 (Hmem b) (or_introl eq_refl)) as [Hab|Hin1]; [exact Hab|].
      apply antisym; [now apply Ha|now apply Hb]. }
    subst b. f_equal. apply IH; try assumption.
    intros x. split; intros Hx.
    + destruct (proj1 (Hmem x) (or_intror Hx)) as [<-|Hx2]; [contradiction|exact Hx2].
    + destruct (proj2 (Hmem x) (or_intror Hx)) as [<-|Hx1]; [contradiction|exact Hx1].
Qed.

Lemma sort_unique_same_members {A : Type} (leb eqb : A -> A -> bool)
    `{!TotalPreorder leb}
    (antisym : forall x y, leb x y = true -> leb y x = true -> x = y)
    (eqb_eq : forall x y, eqb x y = true <-> x = y) (l l' : list A) :
  (forall x, In x l <-> In x l') ->
  sort_values leb (unique eqb l) = sort_values leb (unique eqb l').
Proof.
  intros Hmem. apply (sorted_NoDup_same_members leb antisym).
  - now apply sort_values_sorted.
  - now apply sort_values_sorted.
  - now apply sort_values_NoDup, unique_NoDup.
  - now apply sort_values_NoDup, unique_NoDup.
  - intros x. rewrite !sort_values_In, !(unique_In _ eqb_eq). apply Hmem.
Qed.

Lemma exact_sum_perm (l l' : list Z) :
  Permutation l l' -> exact_sum l = exact_sum l'.
Proof. induction 1; simpl in *; lia. Qed.

Lemma filter_perm {A : Type} (p : A -> bool) (l l' : list A) :
  Permutation l l' -> Permutation (filter p l) (filter p l').
Proof.
  induction 1 as [|x l l' _ IH|x y l|l l' l'' _ IH1 _ IH2]; simpl.
  - constructor.
  - destruct (p x); [now constructor|exact IH].
  - destruct (p x), (p y); try reflexivity. apply perm_swap.
  - now transitivity (filter p l').
Qed.

Lemma total_minutes_perm (rs rs' : list ScheduleRecord) (e c : Value) :
  Permutation rs rs' -> total_minutes rs e c = total_minutes rs' e c.
Proof.
  intros Hp. unfold total_minutes.
  apply exact_sum_perm, Permutation_map, filter_perm, Hp.
Qed.

Lemma groupby_sum_perm (rs rs' : list ScheduleRecord) :
  Permutation rs rs' -> groupby_sum rs = groupby_sum rs'.
Proof.
  intros Hp. unfold groupby_sum.
  rewrite (sort_unique_same_members pair_leb pair_eqb pair_leb_antisym pair_eqb_eq
             (map group_key rs) (map group_key rs')).
  - apply map_ext. intros k. f_equal. unfold sum. f_equal.
    exact (total_minutes_perm rs rs' (fst k) (snd k) Hp).
  - intros k. split; apply Permutation_in, Permutation_map;
      [exact Hp|now symmetry].
Qed.

(** X11: the ranking does not depend on the order of the records: two
    tables with the same columns and the same records in any order get the
    same table [dominant] and the same list of sewers.  In particular the
    sort that ends [load_and_process_data] does not change the ranking. *)
Theorem ranking_ignores_row_order (cols : list string)
    (rs rs' : list ScheduleRecord) :
  Permutation rs rs' ->
  dominant rs = dominant rs'
  /\ group_and_sort_sewers {| columns := cols; rows := rs |}
     = group_and_sort_sewers {| columns := cols; rows := rs' |}
  /\ group_and_sort_sewers
       {| columns := cols; rows := sort_values sewer_start_leb rs |}
     = group_and_sort_sewers {| columns := cols; rows := rs |}.
Proof.
  assert (Hdom : forall l l', Permutation l l' -> dominant l = dominant l').
  { intros l l' Hp. unfold dominant. now rewrite (groupby_sum_perm l l' Hp). }
  assert (Hrank : forall l l', Permutation l l' ->
            group_and_sort_sewers {| columns := cols; rows := l |}
            = group_and_sort_sewers {| columns := cols; rows := l' |}).
  { intros l l' Hp. unfold group_and_sort_sewers, sorted_sewers, dominant_sorted.
    simpl. now rewrite (Hdom l l' Hp), (Permutation_length Hp). }
  intros Hp. split; [now apply Hdom|]. split; [now apply Hrank|].
  apply Hrank. symmetry. apply sort_values_perm.
Qed.

Lemma ranking_ignores_row_order_witness :
  Permutation scenario_records (rev scenario_records)
  /\ group_and_sort_sewers {| columns := all_columns; rows := scenario_records |}
     = group_and_sort_sewers
         {| columns := all_columns; rows := rev scenario_records |}.
Proof.
  assert (Hp : Permutation scenario_records (rev scenario_records))
    by apply Permutation_rev.
  split; [exact Hp|].
  exact (proj1 (proj2 (ranking_ignores_row_order all_columns _ _ Hp))).
Defined.

(** ** The complete order of the ranking *)

Lemma precedes_filter {A : Type} (p : A -> bool) (l : list A) (x y : A) :
  precedes l x y -> p x = true -> p y = true -> precedes (filter p l) x y.
Proof.
  intros (l1 & l2 & l3 & ->) Hx Hy.
  exists (filter p l1), (filter p l2), (filter p l3).
  rewrite filter_app. simpl. rewrite Hx, filter_app. simpl. now rewrite Hy.
Qed.

Lemma dominant_sorted_by_name (rs : list ScheduleRecord) :
  StronglySorted
    (fun g g' => value_ltb (g_sewer_name g) (g_sewer_name g') = true)
    (dominant rs).
Proof.
  apply (StronglySorted_map (fun a b => value_ltb a b = true) g_sewer_name).
  rewrite dominant_sewers. apply sort_unique_values.
Qed.

(** Two lines of [dominant] in the order of the output: sew type, then time
    in descending order, then name. *)
Lemma dominant_sorted_order (rs : list ScheduleRecord) (ga gb : GroupRow) :
  precedes (dominant_sorted rs) ga gb ->
  value_ltb (g_sew_type ga) (g_sew_type gb) = true
  \/ (g_sew_type ga = g_sew_type gb
      /\ (g_operation_time gb < g_operation_time ga
          \/ (g_operation_time gb = g_operation_time ga
              /\ value_ltb (g_sewer_name ga) (g_sewer_name gb) = true))).
Proof.
  intros Hp.
  assert (Hle : dominant_leb ga gb = true).
  { apply (StronglySorted_precedes (fun x y => dominant_leb x y = true)
             (dominant_sorted rs)); [|exact Hp].
    apply sort_values_sorted. typeclasses eauto. }
  destruct (dominant_leb_cases _ _ Hle) as [Hlt|[Hcat Htime]]; [now left|].
  right. split; [exact Hcat|].
  destruct (Z.eq_dec (g_operation_time gb) (g_operation_time ga)) as [Heq|Hne];
    [|left; lia].
  right. split; [exact Heq|].
  assert (Hsame : forall g, g_sew_type g = g_sew_type ga ->
                            g_operation_time g = g_operation_time ga ->
                            same_key dominant_leb ga g = true).
  { intros g Hc Ht. unfold same_key, dominant_leb, lex_leb, by_key.
    rewrite Hc, value_compare_refl, Ht. apply andb_true_iff. split; lia. }
  assert (Hp' : precedes (filter (same_key dominant_leb ga) (dominant_sorted rs))
                         ga gb).
  { apply precedes_filter; [exact Hp| |]; apply Hsame; congruence. }
  unfold dominant_sorted in Hp'.
  rewrite sort_values_stable in Hp' by typeclasses eauto.
  apply (StronglySorted_precedes _ _ _ _
           (StronglySorted_filter _ _ _ (dominant_sorted_by_name rs)) Hp').
Qed.

Lemma ranks_before_asym (rs : list ScheduleRecord) (a b : Value) :
  ranks_before rs a b -> ranks_before rs b a -> False.
Proof.
  intros (ca & cb & Ha & Hb & H1) (cb' & ca' & Hb' & Ha' & H2).
  rewrite Ha in Ha'. rewrite Hb in Hb'.
  injection Ha' as <-. injection Hb' as <-.
  destruct H1 as [Hlt|[-> H1]].
  - destruct H2 as [Hlt'|[Heq _]].
    + exact (value_ltb_asym _ _ Hlt Hlt').
    + subst. now rewrite value_ltb_irrefl in Hlt.
  - destruct H2 as [Hlt'|[_ H2]].
    + now rewrite value_ltb_irrefl in Hlt'.
    + destruct H1 as [H1|[H1 Hn1]], H2 as [H2|[H2 Hn2]]; try lia.
      exact (value_ltb_asym _ _ Hn1 Hn2).
Qed.

(** X12: the output of the ranker is ordered by three keys: the dominant sew
    type in the ascending order of its column, then the 64-bit total in it
    in descending order, then the sewer name in the ascending order of its
    column.  Two sewers of the output come in that order and in no other:
    sewers tied on sew type and total are ranked by name. *)
Theorem ranking_total_order (rs : list ScheduleRecord) (a b : Value) :
  (precedes (sorted_sewers rs) a b -> ranks_before rs a b)
  /\ (In a (sorted_sewers rs) -> In b (sorted_sewers rs) ->
      ranks_before rs a b -> precedes (sorted_sewers rs) a b).
Proof.
  assert (Hfwd : forall x y, precedes (sorted_sewers rs) x y ->
                             ranks_before rs x y).
  { intros x y Hp. apply precedes_map in Hp.
    destruct Hp as (gx & gy & Hp & <- & <-).
    destruct (precedes_In _ _ _ Hp) as [Hx Hy].
    unfold dominant_sorted in Hx, Hy. apply sort_values_In in Hx, Hy.
    destruct (dominant_row_keys rs _ gx (dominant_row_In rs gx Hx))
      as (_ & Hcx & _ & Htx).
    destruct (dominant_row_keys rs _ gy (dominant_row_In rs gy Hy))
      as (_ & Hcy & _ & Hty).
    exists (g_sew_type gx), (g_sew_type gy).
    split; [exact Hcx|]. split; [exact Hcy|].
    rewrite <- Htx, <- Hty. exact (dominant_sorted_order rs gx gy Hp). }
  split; [apply Hfwd|].
  intros Ha Hb Hab.
  assert (Hne : a <> b).
  { intros ->. exact (ranks_before_asym rs b b Hab Hab). }
  destruct (precedes_or _ a b Ha Hb Hne) as [Hp|Hp]; [exact Hp|].
  destruct (ranks_before_asym rs a b Hab (Hfwd b a Hp)).
Qed.

(** Two sewers with the same dominant sew type and the same total. *)
Lemma ranking_total_order_witness :
  let rs := [ mkRecord (VStr "B") (VStr "M1") (VStr "X") 0 30 1800000000000;
              mkRecord (VStr "A") (VStr "M1") (VStr "X") 0 30 1800000000000 ] in
  sorted_sewers rs = [VStr "A"; VStr "B"]
  /\ precedes (sorted_sewers rs) (VStr "A") (VStr "B")
  /\ ranks_before rs (VStr "A") (VStr "B").
Proof.
  intros rs.
  assert (Hout : sorted_sewers rs = [VStr "A"; VStr "B"]) by reflexivity.
  assert (Hp : precedes (sorted_sewers rs) (VStr "A") (VStr "B")).
  { rewrite Hout. now exists [], [], []. }
  split; [exact Hout|]. split; [exact Hp|].
  exact (proj1 (ranking_total_order rs (VStr "A") (VStr "B")) Hp).
Defined.

(** ** The minutes of the table [grouped] *)

Lemma exact_sum_map_add {A : Type} (f g : A -> Z) (l : list A) :
  exact_sum (map (fun x => f x + g x) l)
  = exact_sum (map f l) + exact_sum (map g l).
Proof. induction l as [|a l IH]; simpl; lia. Qed.

Lemma exact_sum_map_zero {A : Type} (f : A -> Z) (l : list A) :
  (forall x, In x l -> f x = 0) -> exact_sum (map f l) = 0.
Proof.
  induction l as [|a l IH]; simpl; intros Hz; [reflexivity|].
  rewrite (Hz a) by now left. rewrite IH; [reflexivity|].
  intros x Hx. apply Hz. now right.
Qed.

Lemma exact_sum_map_indicator (k0 : Value * Value) (v : Z)
    (ks : list (Value * Value)) :
  NoDup ks -> In k0 ks ->
  exact_sum (map (fun k => if pair_eqb k0 k then v else 0) ks) = v.
Proof.
  induction ks as [|k ks IH]; simpl; [tauto|].
  intros Hnd Hin. inversion Hnd as [|? ? Hnotin Hnd']; subst.
  destruct (pair_eqb k0 k) eqn:E.
  - apply pair_eqb_eq in E. subst k.
    rewrite exact_sum_map_zero; [lia|].
    intros x Hx. destruct (pair_eqb k0 x) eqn:Ex; [|reflexivity].
    apply pair_eqb_eq in Ex. subst x. contradiction.
  - destruct Hin as [->|Hin].
    + rewrite (proj2 (pair_eqb_eq _ _) eq_refl) in E. discriminate.
    + rewrite IH by assumption. lia.
Qed.

Lemma totals_over_keys (rs : list ScheduleRecord) (ks : list (Value * Value)) :
  NoDup ks -> (forall r, In r rs -> In (group_key r) ks) ->
  exact_sum (map (fun k => total_minutes rs (fst k) (snd k)) ks)
  = exact_sum (map operation_time rs).
Proof.
  intros Hnd. induction rs as [|r rs IH]; intros Hkeys.
  - simpl. now apply exact_sum_map_zero.
  - simpl.
    rewrite <- IH by (intros x Hx; apply Hkeys; now right).
    rewrite <- (exact_sum_map_indicator (group_key r) (operation_time r) ks Hnd)
      at 1 by (apply Hkeys; now left).
    rewrite <- exact_sum_map_add. f_equal. apply map_ext. intros k.
    unfold total_minutes. simpl. unfold pair_eqb, group_key. simpl.
    destruct (value_eqb (sewer_name r) (fst k) && value_eqb (sew_type r) (snd k));
      reflexivity.
Qed.

(** Wrapping each term does not change the wrapped sum. *)
Lemma sum_map_wrap {A : Type} (f : A -> Z) (l : list A) :
  sum (map (fun x => wrap_int64 (f x)) l) = sum (map f l).
Proof.
  unfold sum. induction l as [|a l IH]; simpl; [reflexivity|].
  rewrite wrap_int64_add_l.
  rewrite <- wrap_int64_add_r, IH, wrap_int64_add_r. reflexivity.
Qed.

Lemma groupby_sum_times (rs : list ScheduleRecord) :
  map g_operation_time (groupby_sum rs)
  = map (fun k => wrap_int64 (total_minutes rs (fst k) (snd k)))
        (sort_values pair_leb (unique pair_eqb (map group_key rs))).
Proof. unfold groupby_sum. rewrite map_map. reflexivity. Qed.

(** X13: grouping loses no minute and adds none in 64-bit arithmetic: the
    times of the table [grouped] add up, with [sum], to what the operation
    times of all records add up to.  When the totals fit 64-bit integers the
    two sums are also equal as mathematical integers. *)
Theorem grouping_keeps_minutes (rs : list ScheduleRecord) :
  sum (map g_operation_time (groupby_sum rs)) = sum (map operation_time rs)
  /\ (totals_fit rs ->
      exact_sum (map g_operation_time (groupby_sum rs))
      = exact_sum (map operation_time rs)).
Proof.
  assert (Hkeys : exact_sum
                    (map (fun k => total_minutes rs (fst k) (snd k))
                         (sort_values pair_leb
                            (unique pair_eqb (map group_key rs))))
                  = exact_sum (map operation_time rs)).
  { apply (totals_over_keys rs).
    - apply sort_values_NoDup, unique_NoDup, pair_eqb_eq.
    - intros r Hr. apply sort_values_In, (unique_In _ pair_eqb_eq).
      now apply in_map. }
  rewrite groupby_sum_times. split.
  - rewrite sum_map_wrap. unfold sum. now rewrite Hkeys.
  - intros Hfit. rewrite <- Hkeys. f_equal. apply map_ext_in.
    intros k Hk. apply wrap_int64_fits, Hfit.
    apply sort_values_In, (unique_In _ pair_eqb_eq), in_map_iff in Hk.
    destruct Hk as (r & <- & Hr). now exists r.
Qed.

Lemma grouping_keeps_minutes_witness :
  totals_fit scenario_records
  /\ exact_sum (map g_operation_time (groupby_sum scenario_records)) = 180
  /\ exact_sum (map operation_time scenario_records) = 180.
Proof.
  split; [exact scenario_records_totals|].
  pose proof (proj2 (grouping_keeps_minutes scenario_records)
                scenario_records_totals) as H.
  split; [rewrite H|]; reflexivity.
Defined.

(** Two lines of 2^62 minutes: the table [grouped] holds the sum wrapped to
    -2^63, which is also the 64-bit sum of the column. *)
Example grouping_wraps :
  let rs := [ mkRecord (VStr "A") (VStr "M1") (VStr "X") 0 4611686018427387904 0;
              mkRecord (VStr "A") (VStr "M1") (VStr "X") 0 4611686018427387904 0 ] in
  map g_operation_time (groupby_sum rs) = [-9223372036854775808]
  /\ sum (map operation_time rs) = -9223372036854775808
  /\ exact_sum (map operation_time rs) = 9223372036854775808.
Proof. repeat split. Qed.

(** ** Dicts, [enumerate] and loops *)

Lemma value_eqb_sym (a b : Value) : value_eqb a b = value_eqb b a.
Proof.
  destruct (value_eqb a b) eqn:E.
  - apply value_eqb_eq in E. subst. now rewrite value_eqb_refl.
  - symmetry. apply value_eqb_neq. apply value_eqb_neq in E. congruence.
Qed.

Lemma dict_lookup_set {V : Type} (k k' : Value) (v : V) (d : list (Value * V)) :
  dict_lookup (dict_set k v d) k'
  = if value_eqb k k' then Some v else dict_lookup d k'.
Proof.
  unfold dict_lookup. induction d as [|kv d IH]; simpl.
  - now destruct (value_eqb k k').
  - destruct (value_eqb (fst kv) k) eqn:E; simpl.
    + apply value_eqb_eq in E. rewrite E.
      now destruct (value_eqb k k').
    + destruct (value_eqb (fst kv) k') eqn:E'; simpl.
      * apply value_eqb_eq in E'. subst k'. now rewrite value_eqb_sym, E.
      * exact IH.
Qed.

Lemma find_app {A : Type} (f : A -> bool) (l1 l2 : list A) :
  find f (l1 ++ l2)
  = match find f l1 with Some x => Some x | None => find f l2 end.
Proof.
  induction l1 as [|a l1 IH]; simpl; [reflexivity|]. now destruct (f a).
Qed.

Lemma dict_lookup_fold {V : Type} (items d : list (Value * V)) (k : Value) :
  dict_lookup
    (fold_left (fun d kv => dict_set (fst kv) (snd kv) d) items d) k
  = match find (fun kv => value_eqb (fst kv) k) (rev items) with
    | Some kv => Some (snd kv)
    | None => dict_lookup d k
    end.
Proof.
  revert d. induction items as [|it items IH]; intros d; simpl; [reflexivity|].
  rewrite IH, find_app, dict_lookup_set. simpl.
  destruct (find _ (rev items)); [reflexivity|].
  now destruct (value_eqb (fst it) k).
Qed.

(** A key has a value in the dict exactly when some item has the key, and
    the value is that of one of these items. *)
Lemma dict_of_lookup {V : Type} (items : list (Value * V)) (k : Value) :
  (forall v, dict_lookup (dict_of items) k = Some v -> In (k, v) items)
  /\ ((exists v, In (k, v) items) ->
      exists v, dict_lookup (dict_of items) k = Some v).
Proof.
  unfold dict_of. rewrite dict_lookup_fold. split.
  - intros v. destruct (find _ (rev items)) as [kv|] eqn:E; [|discriminate].
    intros [= <-]. apply find_some in E. destruct E as [Hin Hk].
    apply value_eqb_eq in Hk. apply in_rev in Hin.
    destruct kv as [k0 v0]. simpl in *. now subst.
  - intros (v & Hin). destruct (find _ (rev items)) as [kv|] eqn:E.
    + now exists (snd kv).
    + apply in_rev in Hin. apply (find_none _ _ E) in Hin.
      simpl in Hin. now rewrite value_eqb_refl in Hin.
Qed.

Lemma dict_set_fresh {V : Type} (k : Value) (v : V) (d : list (Value * V)) :
  ~ In k (map fst d) -> dict_set k v d = d ++ [(k, v)].
Proof.
  induction d as [|kv d IH]; simpl; intros Hk; [reflexivity|].
  destruct (value_eqb (fst kv) k) eqn:E.
  - apply value_eqb_eq in E. tauto.
  - rewrite IH by tauto. reflexivity.
Qed.

(** Items with distinct keys make the dict of these items, in their order. *)
Lemma dict_of_distinct {V : Type} (items : list (Value * V)) :
  NoDup (map fst items) -> dict_of items = items.
Proof.
  unfold dict_of.
  assert (H : forall d, NoDup (map fst (d ++ items)) ->
                        fold_left (fun d kv => dict_set (fst kv) (snd kv) d)
                                  items d = d ++ items).
  { induction items as [|[k v] items IH]; intros d Hnd; simpl.
    - now rewrite app_nil_r.
    - rewrite dict_set_fresh.
      + rewrite IH; rewrite <- app_assoc; simpl; [reflexivity|exact Hnd].
      + rewrite map_app in Hnd. simpl in Hnd.
        apply NoDup_remove_2 in Hnd. intros Hin. apply Hnd.
        apply in_or_app. now left. }
  intros Hnd. now apply (H []).
Qed.

Lemma in_combine_seq {A : Type} (l : list A) (start i : nat) (x : A) :
  In (i, x) (combine (seq start (List.length l)) l) ->
  (start <= i)%nat /\ nth_error l (i - start) = Some x.
Proof.
  revert start. induction l as [|a l IH]; intros start; simpl; [tauto|].
  intros [[= <- <-]|Hin].
  - split; [lia|]. now rewrite Nat.sub_diag.
  - destruct (IH _ Hin) as [Hle Hnth]. split; [lia|].
    replace (i - start)%nat with (S (i - S start)) by lia. exact Hnth.
Qed.

Lemma in_enumerate {A : Type} (l : list A) (i : nat) (x : A) :
  In (i, x) (enumerate l) -> nth_error l i = Some x.
Proof.
  intros Hin. apply in_combine_seq in Hin. now rewrite Nat.sub_0_r in Hin.
Qed.

Lemma enumerate_covers {A : Type} (l : list A) (x : A) :
  In x l -> exists i, In (i, x) (enumerate l).
Proof.
  intros Hx. unfold enumerate.
  rewrite <- (combine_seq_snd l 0) in Hx at 1.
  apply in_map_iff in Hx. destruct Hx as ([i y] & <- & Hin). now exists i.
Qed.

Lemma Forall2_nth_error_r {A B : Type} (R : A -> B -> Prop) (l : list A)
    (l' : list B) (j : nat) (b : B) :
  Forall2 R l l' -> nth_error l' j = Some b ->
  exists a, nth_error l j = Some a /\ R a b.
Proof.
  intros H. revert j. induction H as [|a0 b0 l l' Hab _ IH]; intros [|j]; simpl;
    try discriminate.
  - intros [= <-]. now exists a0.
  - apply IH.
Qed.

Lemma minimum_le (l : list Z) (x : Z) :
  In x l -> exists m, minimum l = Some m /\ m <= x.
Proof.
  induction l as [|a l IH]; simpl; [tauto|].
  intros [->|Hin].
  - destruct (minimum l) as [m|]; eexists; split; try reflexivity; lia.
  - destruct (IH Hin) as (m & -> & Hm). eexists. split; [reflexivity|lia].
Qed.

Lemma maximum_ge (l : list Z) (x : Z) :
  In x l -> exists m, maximum l = Some m /\ x <= m.
Proof.
  induction l as [|a l IH]; simpl; [tauto|].
  intros [->|Hin].
  - destruct (maximum l) as [m|]; eexists; split; try reflexivity; lia.
  - destruct (IH Hin) as (m & -> & Hm). eexists. split; [reflexivity|lia].
Qed.

(** ** The chart of the desktop program *)

Lemma y_positions_lookup (ss : list Value) (k : Value) (i : nat) :
  dict_lookup (y_positions_of ss) k = Some i -> nth_error ss i = Some k.
Proof.
  intros Hl. apply (proj1 (dict_of_lookup _ k)) in Hl.
  apply in_map_iff in Hl. destruct Hl as ([j x] & [= <- <-] & Hin).
  now apply in_enumerate.
Qed.

Lemma y_positions_present (ss : list Value) (k : Value) :
  In k ss -> exists i, dict_lookup (y_positions_of ss) k = Some i.
Proof.
  intros Hk. apply (proj2 (dict_of_lookup _ k)).
  destruct (enumerate_covers ss k Hk) as (i & Hi).
  exists i. apply in_map_iff. now exists (i, k).
Qed.

Lemma y_positions_absent (ss : list Value) (k : Value) :
  ~ In k ss -> dict_lookup (y_positions_of ss) k = None.
Proof.
  intros Hk. destruct (dict_lookup (y_positions_of ss) k) as [i|] eqn:E;
    [|reflexivity].
  apply y_positions_lookup, nth_error_In in E. contradiction.
Qed.

Lemma y_positions_values (ss : list Value) :
  NoDup ss -> map snd (y_positions_of ss) = seq 0 (List.length ss).
Proof.
  intros Hnd. unfold y_positions_of.
  assert (Hkeys : map fst (map (fun isw : nat * Value => (snd isw, fst isw))
                               (enumerate ss)) = ss).
  { rewrite map_map. simpl. apply combine_seq_snd. }
  rewrite dict_of_distinct by now rewrite Hkeys.
  rewrite map_map. simpl. apply combine_seq_fst.
Qed.

Lemma set_yticklabels_distinct (ss : list Value) :
  NoDup ss -> set_yticklabels (map snd (y_positions_of ss)) ss = Ok tt.
Proof.
  intros Hnd. unfold set_yticklabels.
  rewrite (y_positions_values ss Hnd), length_seq. now rewrite Nat.eqb_refl.
Qed.

Lemma color_map_lookup (types : list Value) (st : Value) (c : nat) :
  dict_lookup (color_map_of types) st = Some c ->
  exists i, nth_error types i = Some st /\ c = (i mod 20)%nat.
Proof.
  intros Hl. apply (proj1 (dict_of_lookup _ st)) in Hl.
  apply in_map_iff in Hl. destruct Hl as ([i x] & [= <- <-] & Hin).
  exists i. split; [now apply in_enumerate|reflexivity].
Qed.

Lemma color_map_present (types : list Value) (st : Value) :
  In st types -> exists c, dict_lookup (color_map_of types) st = Some c.
Proof.
  intros Hst. apply (proj2 (dict_of_lookup _ st)).
  destruct (enumerate_covers types st Hst) as (i & Hi).
  exists (i mod 20)%nat. apply in_map_iff. now exists (i, st).
Qed.

Lemma draw_bar_returned (cols : list string)
    (y_positions color_map : list (Value * nat)) (r : ScheduleRecord) (b : Bar) :
  draw_bar cols y_positions color_map r = Ok b ->
  dict_lookup y_positions (sewer_name r) = Some (bar_y b)
  /\ bar_left b = start_time r
  /\ bar_width b = end_time r - start_time r
  /\ dict_lookup color_map (sew_type r) = Some (bar_color b).
Proof.
  unfold draw_bar, getitem, dict_getitem.
  destruct (has_column cols "Sewer Name"); simpl; [|discriminate].
  destruct (dict_lookup y_positions (sewer_name r)) as [y|]; simpl; [|discriminate].
  destruct (has_column cols "Start Time"); simpl; [|discriminate].
  destruct (has_column cols "End Time"); simpl; [|discriminate].
  unfold sub_timestamps.
  destruct (in_time_range (end_time r - start_time r)); simpl; [|discriminate].
  destruct (dict_lookup color_map (sew_type r)) as [c|]; simpl; [|discriminate].
  intros [= <-]. simpl. auto.
Qed.

Lemma sub_timestamps_fits (r : ScheduleRecord) :
  span_fits r ->
  sub_timestamps (end_time r) (start_time r) = Ok (end_time r - start_time r).
Proof.
  intros Hfit. unfold sub_timestamps.
  now rewrite (proj2 (in_time_range_fits _) Hfit).
Qed.

Lemma legend_handle_returned (color_map : list (Value * nat)) (st : Value)
    (h : nat * Value) :
  legend_handle color_map st = Ok h ->
  snd h = st /\ dict_lookup color_map st = Some (fst h).
Proof.
  unfold legend_handle, dict_getitem.
  destruct (dict_lookup color_map st) as [c|]; simpl; [|discriminate].
  intros [= <-]. auto.
Qed.

(** What [generate_gantt_chart] hands over, when it returns. *)
Lemma generate_gantt_chart_returned (df : DataFrame) (ss : list Value)
    (chart : Chart) :
  generate_gantt_chart df ss = Ok chart ->
  let types := unique value_eqb (map sew_type (rows df)) in
  Forall2 (fun r b => draw_bar (columns df) (y_positions_of ss)
                               (color_map_of types) r = Ok b)
          (rows df) (bars chart)
  /\ yticks chart = map snd (y_positions_of ss)
  /\ yticklabels chart = ss
  /\ xlim chart = (minimum (map start_time (rows df)),
                   maximum (map end_time (rows df)))
  /\ Forall2 (fun st h => legend_handle (color_map_of types) st = Ok h)
             types (legend chart).
Proof.
  unfold generate_gantt_chart, getitem.
  destruct (has_column _ "Sew Type"); simpl; [|discriminate].
  pose proof (for_each_spec
                (draw_bar (columns df) (y_positions_of ss)
                   (color_map_of (unique value_eqb (map sew_type (rows df)))))
                (rows df)) as Hbars.
  destruct (for_each (draw_bar _ _ _) (rows df)) as [drawn|e]; simpl;
    [|discriminate].
  destruct (set_yticklabels _ _); simpl; [|discriminate].
  destruct (has_column _ "Start Time"); simpl; [|discriminate].
  destruct (has_column _ "End Time"); simpl; [|discriminate].
  unfold set_xlim.
  destruct (minimum (map start_time (rows df))) as [lo|]; simpl; [|discriminate].
  destruct (maximum (map end_time (rows df))) as [hi|]; simpl; [|discriminate].
  pose proof (for_each_spec
                (legend_handle
                   (color_map_of (unique value_eqb (map sew_type (rows df)))))
                (unique value_eqb (map sew_type (rows df)))) as Hlegend.
  destruct (for_each (legend_handle _) _) as [handles|e]; simpl; [|discriminate].
  intros [= <-]. simpl. auto.
Qed.

(** With its columns, at least one line, records that last a duration of
    pandas, a list of sewers without duplicates and a position for every
    sewer the chart is drawn. *)
Lemma generate_gantt_chart_drawn (df : DataFrame) (ss : list Value) :
  In "Sew Type" (columns df) -> In "Sewer Name" (columns df) ->
  In "Start Time" (columns df) -> In "End Time" (columns df) ->
  rows df <> [] -> NoDup ss ->
  (forall r, In r (rows df) -> span_fits r) ->
  (forall r, In r (rows df) -> In (sewer_name r) ss) ->
  exists chart, generate_gantt_chart df ss = Ok chart.
Proof.
  intros H1 H2 H3 H4 Hne Hnd Hspan Hss.
  set (types := unique value_eqb (map sew_type (rows df))).
  destruct (for_each_all
              (draw_bar (columns df) (y_positions_of ss) (color_map_of types))
              (rows df)) as (drawn & Hdrawn & _).
  { intros r Hr. unfold draw_bar, dict_getitem.
    rewrite (getitem_present _ _ H2), (getitem_present _ _ H3),
      (getitem_present _ _ H4). simpl.
    destruct (y_positions_present ss _ (Hss r Hr)) as (y & ->). simpl.
    rewrite (sub_timestamps_fits r (Hspan r Hr)). simpl.
    destruct (color_map_present types (sew_type r)) as (c & ->).
    - apply (unique_In _ value_eqb_eq). now apply in_map.
    - simpl. eexists. reflexivity. }
  destruct (for_each_all (legend_handle (color_map_of types)) types)
    as (handles & Hhandles & _).
  { intros st Hst. unfold legend_handle, dict_getitem.
    destruct (color_map_present types st Hst) as (c & ->). simpl.
    eexists. reflexivity. }
  assert (Hex : exists r0, In r0 (rows df)).
  { destruct (rows df) as [|r0 rs0]; [contradiction|]. exists r0. now left. }
  destruct Hex as (r0 & Hr0).
  destruct (minimum_le (map start_time (rows df)) (start_time r0))
    as (lo & Hlo & _); [now apply in_map|].
  destruct (maximum_ge (map end_time (rows df)) (end_time r0))
    as (hi & Hhi & _); [now apply in_map|].
  unfold generate_gantt_chart. fold types.
  rewrite (getitem_present _ _ H1). simpl bind. rewrite Hdrawn. simpl bind.
  rewrite (set_yticklabels_distinct ss Hnd). simpl bind.
  rewrite (getitem_present _ _ H3), (getitem_present _ _ H4). simpl bind.
  rewrite Hlo, Hhi. simpl bind.
  rewrite Hhandles. simpl. eexists. reflexivity.
Qed.

(** The bars of a chart: where they sit and what colour they have. *)
Lemma chart_bars (df : DataFrame) (ss : list Value) (chart : Chart) :
  generate_gantt_chart df ss = Ok chart ->
  Forall2 (fun r b =>
             nth_error (yticklabels chart) (bar_y b) = Some (sewer_name r)
             /\ bar_left b = start_time r
             /\ bar_left b + bar_width b = end_time r
             /\ In (bar_color b, sew_type r) (legend chart))
          (rows df) (bars chart).
Proof.
  intros Hg.
  destruct (generate_gantt_chart_returned _ _ _ Hg)
    as (Hbars & _ & Hlabels & _ & Hlegend).
  pose proof Hbars as Hrows.
  eapply Forall2_impl; [|exact Hbars]. clear Hbars.
  intros r b Hb. simpl in Hb.
  destruct (draw_bar_returned _ _ _ _ _ Hb) as (Hy & Hleft & Hwidth & Hcolor).
  rewrite Hlabels. split; [now apply y_positions_lookup|].
  split; [exact Hleft|]. split; [lia|].
  destruct (color_map_lookup _ _ _ Hcolor) as (i & Hi & _).
  apply nth_error_In in Hi.
  destruct (Forall2_In_l _ _ _ _ Hlegend Hi) as (h & Hh & Hhandle).
  destruct (legend_handle_returned _ _ _ Hhandle) as (Hst & Hc).
  rewrite Hcolor in Hc. injection Hc as Hc.
  destruct h as [c st]. simpl in *. now subst.
Qed.

(** X14: when the table has the four columns the chart reads and at least
    one record, every record lasts a duration of pandas, and the list of
    sewers has no duplicate and holds every sewer of the table,
    [generate_gantt_chart] draws one bar per record, in the order of the
    records: the bar sits on the row of the y axis that is labelled with the
    sewer of the record, it goes from the start time to the end time of the
    record, and its colour is the one the legend shows for the sew type of
    the record.  The ticks are 0, 1, ... in the order of the labels. *)
Theorem chart_bars_on_their_rows (df : DataFrame) (sorted_sewers : list Value) :
  In "Sew Type" (columns df) -> In "Sewer Name" (columns df) ->
  In "Start Time" (columns df) -> In "End Time" (columns df) ->
  rows df <> [] -> NoDup sorted_sewers ->
  (forall r, In r (rows df) -> span_fits r) ->
  (forall r, In r (rows df) -> In (sewer_name r) sorted_sewers) ->
  exists chart,
    generate_gantt_chart df sorted_sewers = Ok chart
    /\ yticklabels chart = sorted_sewers
    /\ Forall2 (fun r b =>
                  nth_error (yticklabels chart) (bar_y b) = Some (sewer_name r)
                  /\ bar_left b = start_time r
                  /\ bar_left b + bar_width b = end_time r
                  /\ In (bar_color b, sew_type r) (legend chart))
               (rows df) (bars chart)
    /\ yticks chart = seq 0 (List.length sorted_sewers).
Proof.
  intros H1 H2 H3 H4 Hne Hnd Hspan Hss.
  destruct (generate_gantt_chart_drawn df sorted_sewers H1 H2 H3 H4 Hne Hnd
              Hspan Hss) as (chart & Hg).
  exists chart. split; [exact Hg|].
  destruct (generate_gantt_chart_returned _ _ _ Hg) as (_ & Hticks & Hlabels & _).
  split; [exact Hlabels|]. split; [exact (chart_bars _ _ _ Hg)|].
  rewrite Hticks. now apply y_positions_values.
Qed.

Lemma scenario_records_spans (r : ScheduleRecord) :
  In r scenario_records -> span_fits r.
Proof.
  intros [<-|[<-|[<-|[]]]]; vm_compute; split; intros H; discriminate H.
Qed.

Lemma chart_bars_on_their_rows_witness :
  In "Sew Type" (columns scenario_desktop)
  /\ In "Sewer Name" (columns scenario_desktop)
  /\ In "Start Time" (columns scenario_desktop)
  /\ In "End Time" (columns scenario_desktop)
  /\ rows scenario_desktop <> []
  /\ NoDup [VStr "A"; VStr "B"]
  /\ (forall r, In r (rows scenario_desktop) -> span_fits r)
  /\ (forall r, In r (rows scenario_desktop) ->
                In (sewer_name r) [VStr "A"; VStr "B"])
  /\ exists chart,
       generate_gantt_chart scenario_desktop [VStr "A"; VStr "B"] = Ok chart
       /\ yticklabels chart = [VStr "A"; VStr "B"]
       /\ yticks chart = [0; 1]%nat.
Proof.
  assert (H1 : In "Sew Type" (columns scenario_desktop)) by (simpl; tauto).
  assert (H2 : In "Sewer Name" (columns scenario_desktop)) by (simpl; tauto).
  assert (H3 : In "Start Time" (columns scenario_desktop)) by (simpl; tauto).
  assert (H4 : In "End Time" (columns scenario_desktop)) by (simpl; tauto).
  assert (H5 : rows scenario_desktop <> []) by discriminate.
  assert (H6 : NoDup [VStr "A"; VStr "B"]).
  { constructor; [intros [E|[]]; discriminate E|].
    constructor; [intros []|constructor]. }
  assert (H7 : forall r, In r (rows scenario_desktop) -> span_fits r)
    by exact scenario_records_spans.
  assert (H8 : forall r, In r (rows scenario_desktop) ->
                         In (sewer_name r) [VStr "A"; VStr "B"]).
  { intros r [<-|[<-|[<-|[]]]]; simpl; tauto. }
  repeat (split; [assumption|]).
  destruct (chart_bars_on_their_rows scenario_desktop [VStr "A"; VStr "B"]
              H1 H2 H3 H4 H5 H6 H7 H8)
    as (chart & Hg & Hlabels & _ & Hticks).
  exists chart. auto.
Defined.

(** A sewer that is twice in the list, and a table without lines: no chart
    is drawn. *)
Example chart_is_refused :
  generate_gantt_chart scenario_desktop [VStr "A"; VStr "B"; VStr "A"]
  = Raise (ValueError_ticklabels 2 3)
  /\ generate_gantt_chart {| columns := all_columns ++ ["End Time"]; rows := [] |}
                          []
     = Raise ValueError_axis_limits.
Proof. split; reflexivity. Qed.

(** X15: when the list of sewers lacks the sewer of some record, no chart is
    drawn: [generate_gantt_chart] raises the [KeyError] of the sewer of the
    first such record (the bars of the records before it, which last a
    duration of pandas, have been drawn). *)
Theorem chart_missing_sewer (df : DataFrame) (sorted_sewers : list Value)
    (before after : list ScheduleRecord) (r : ScheduleRecord) :
  In "Sew Type" (columns df) -> In "Sewer Name" (columns df) ->
  In "Start Time" (columns df) -> In "End Time" (columns df) ->
  rows df = before ++ r :: after ->
  (forall r', In r' before -> In (sewer_name r') sorted_sewers) ->
  (forall r', In r' before -> span_fits r') ->
  ~ In (sewer_name r) sorted_sewers ->
  generate_gantt_chart df sorted_sewers = Raise (KeyError (sewer_name r)).
Proof.
  intros H1 H2 H3 H4 Hrows Hbefore Hspan Hr.
  unfold generate_gantt_chart. rewrite (getitem_present _ _ H1). simpl.
  set (types := unique value_eqb (map sew_type (rows df))).
  rewrite Hrows.
  rewrite (for_each_raises _ before after r (KeyError (sewer_name r)));
    [reflexivity| |].
  - intros r' Hr'. unfold draw_bar, dict_getitem.
    rewrite (getitem_present _ _ H2), (getitem_present _ _ H3),
      (getitem_present _ _ H4). simpl.
    destruct (y_positions_present sorted_sewers _ (Hbefore r' Hr')) as (y & ->).
    simpl. rewrite (sub_timestamps_fits r' (Hspan r' Hr')). simpl.
    destruct (color_map_present types (sew_type r')) as (c & ->).
    + apply (unique_In _ value_eqb_eq). apply in_map. rewrite Hrows.
      apply in_or_app. now left.
    + simpl. eexists. reflexivity.
  - unfold draw_bar, dict_getitem. rewrite (getitem_present _ _ H2). simpl.
    now rewrite (y_positions_absent _ _ Hr).
Qed.

Lemma chart_missing_sewer_witness :
  In "Sew Type" (columns scenario_desktop)
  /\ In "Sewer Name" (columns scenario_desktop)
  /\ In "Start Time" (columns scenario_desktop)
  /\ In "End Time" (columns scenario_desktop)
  /\ ~ In (VStr "B") [VStr "A"]
  /\ generate_gantt_chart scenario_desktop [VStr "A"]
     = Raise (KeyError (VStr "B")).
Proof.
  assert (H1 : In "Sew Type" (columns scenario_desktop)) by (simpl; tauto).
  assert (H2 : In "Sewer Name" (columns scenario_desktop)) by (simpl; tauto).
  assert (H3 : In "Start Time" (columns scenario_desktop)) by (simpl; tauto).
  assert (H4 : In "End Time" (columns scenario_desktop)) by (simpl; tauto).
  assert (H5 : ~ In (VStr "B") [VStr "A"]) by (intros [E|[]]; discriminate E).
  repeat (split; [assumption|]).
  apply (chart_missing_sewer scenario_desktop [VStr "A"]
           (firstn 2 scenario_records) []
           (nth 2 scenario_records
                (mkRecord (VStr "") (VStr "") (VStr "") 0 0 0))
           H1 H2 H3 H4 eq_refl).
  - intros r' [<-|[<-|[]]]; simpl; tauto.
  - intros r' Hr'. apply scenario_records_spans.
    simpl in Hr'. simpl. tauto.
  - exact H5.
Defined.

(** A record from 1700 to 2200 lasts more than a duration of pandas can
    hold: its bar is refused before the sewer of the next record is looked
    up. *)
Example long_record_is_refused :
  let df := {| columns := all_columns ++ ["End Time"];
               rows := [ mkRecord (VStr "A") (VStr "M1") (VStr "X")
                                  (-8520336000000000000) 0 7258118400000000000;
                         mkRecord (VStr "B") (VStr "M1") (VStr "X")
                                  0 30 1800000000000 ] |} in
  generate_gantt_chart df [VStr "A"]
  = Raise (OutOfBoundsDifference 7258118400000000000 (-8520336000000000000)).
Proof. reflexivity. Qed.

(** The legend: entry [j] is the sew type that appears as the [j]-th
    distinct one, with the colour [j mod 20]. *)
Lemma legend_entries (df : DataFrame) (ss : list Value) (chart : Chart) :
  generate_gantt_chart df ss = Ok chart ->
  map snd (legend chart) = unique value_eqb (map sew_type (rows df))
  /\ forall j c st,
       nth_error (legend chart) j = Some (c, st) -> c = (j mod 20)%nat.
Proof.
  intros Hg.
  destruct (generate_gantt_chart_returned _ _ _ Hg) as (_ & _ & _ & _ & Hlegend).
  set (types := unique value_eqb (map sew_type (rows df))) in *.
  split.
  - apply Forall2_map_eq. eapply Forall2_impl; [|exact Hlegend].
    intros st h Hh. now destruct (legend_handle_returned _ _ _ Hh).
  - intros j c st Hj.
    destruct (Forall2_nth_error_r _ _ _ _ _ Hlegend Hj) as (st' & Hst' & Hh).
    destruct (legend_handle_returned _ _ _ Hh) as (Hsnd & Hc). simpl in *.
    subst st'.
    destruct (color_map_lookup _ _ _ Hc) as (i & Hi & ->).
    assert (Hnd : NoDup types) by apply unique_NoDup, value_eqb_eq.
    assert (Hij : i = j).
    { apply (proj1 (NoDup_nth_error types) Hnd).
      - apply nth_error_Some. congruence.
      - congruence. }
    now subst.
Qed.

(** X16: the legend lists the sew types in the order in which the table
    first shows them, the [j]-th with the colour [j mod 20] of the 20 colours
    of tab20.  Two entries have the same colour exactly when their positions
    differ by a multiple of 20; up to 20 sew types all colours differ. *)
Theorem legend_colours (df : DataFrame) (sorted_sewers : list Value)
    (chart : Chart) :
  generate_gantt_chart df sorted_sewers = Ok chart ->
  map snd (legend chart) = unique value_eqb (map sew_type (rows df))
  /\ (forall j c st,
        nth_error (legend chart) j = Some (c, st) ->
        c = (j mod 20)%nat /\ (c < 20)%nat)
  /\ (forall j1 j2 c1 c2 st1 st2,
        nth_error (legend chart) j1 = Some (c1, st1) ->
        nth_error (legend chart) j2 = Some (c2, st2) ->
        (c1 = c2 <-> (j1 mod 20 = j2 mod 20)%nat))
  /\ ((List.length (legend chart) <= 20)%nat -> NoDup (map fst (legend chart))).
Proof.
  intros Hg. destruct (legend_entries _ _ _ Hg) as [Htypes Hcolour].
  split; [exact Htypes|]. split; [|split].
  - intros j c st Hj. rewrite (Hcolour j c st Hj). split; [reflexivity|].
    apply Nat.mod_upper_bound. discriminate.
  - intros j1 j2 c1 c2 st1 st2 H1 H2.
    rewrite (Hcolour _ _ _ H1), (Hcolour _ _ _ H2). reflexivity.
  - intros Hlen. apply NoDup_nth_error. intros i j Hi Heq.
    rewrite length_map in Hi. rewrite !nth_error_map in Heq.
    destruct (nth_error (legend chart) i) as [[ci sti]|] eqn:Ei;
      [|apply nth_error_None in Ei; lia].
    destruct (nth_error (legend chart) j) as [[cj stj]|] eqn:Ej;
      [|discriminate].
    simpl in Heq. injection Heq as Heq.
    rewrite (Hcolour _ _ _ Ei), (Hcolour _ _ _ Ej) in Heq.
    assert (Hj : (j < List.length (legend chart))%nat)
      by (apply nth_error_Some; congruence).
    rewrite !Nat.mod_small in Heq by lia. exact Heq.
Qed.

Lemma legend_colours_witness :
  exists chart,
    generate_gantt_chart scenario_desktop [VStr "A"; VStr "B"] = Ok chart
    /\ map snd (legend chart) = [VStr "X"; VStr "Y"]
    /\ NoDup (map fst (legend chart)).
Proof.
  destruct (generate_gantt_chart scenario_desktop [VStr "A"; VStr "B"])
    as [chart|e] eqn:Hg; [|discriminate Hg].
  exists chart. split; [reflexivity|].
  destruct (legend_colours scenario_desktop [VStr "A"; VStr "B"] chart Hg)
    as (Htypes & _ & _ & Hdistinct).
  split; [exact Htypes|]. apply Hdistinct.
  apply (f_equal (@List.length _)) in Htypes. rewrite length_map in Htypes.
  rewrite Htypes. simpl. lia.
Defined.



Lemma Forall2_with_In {A B : Type} (R : A -> B -> Prop) (l : list A)
    (l' : list B) :
  Forall2 R l l' -> Forall2 (fun a b => In a l /\ R a b) l l'.
Proof.
  induction 1 as [|a b l l' Hab _ IH]; constructor.
  - split; [now left|exact Hab].
  - eapply Forall2_impl; [|exact IH]. intros x y [Hx Hxy].
    split; [now right|exact Hxy].
Qed.

(** ** The desktop program from the file to the chart *)

Section DesktopFacts.
Context `{PD : Pandas}.

Lemma select_file_and_visualize_stages (file_path : string)
    (file : Result CsvFrame) :
  file_path <> "" ->
  select_file_and_visualize file_path file
  = match (df <- load_and_process_data file ;;
           sorted_sewers <- group_and_sort_sewers df ;;
           generate_gantt_chart df sorted_sewers) with
    | Ok chart => ChartShown chart
    | Raise e =>
        ErrorBox "Error"
                 ("An error occurred:" ++ newline ++ exception_text e)%string
    end.
Proof.
  intros Hpath. unfold select_file_and_visualize.
  now rewrite (proj2 (String.eqb_neq _ _) Hpath).
Qed.

(** X18: for a file that was chosen, that has the four required columns and
    at least one line, whose sewer names are texts, whose start times are
    all converted and whose durations fit the range of timestamps, the
    chart is shown, never the error box.  Its y axis carries the ranked
    sewers, each once, on the ticks 0, 1, ...; there is one bar per record of
    the loaded table, on the row labelled with the sewer of the record, from
    its start time and as long as its operation time in minutes. *)
Theorem well_formed_file_is_charted (file_path : string) (csv : CsvFrame) :
  file_path <> "" ->
  has_required_columns csv -> text_sewer_names csv ->
  all_start_times_match csv -> durations_fit csv ->
  csv_rows csv <> [] ->
  exists out chart,
    load_and_process_data (Ok csv) = Ok out
    /\ select_file_and_visualize file_path (Ok csv) = ChartShown chart
    /\ yticklabels chart = sorted_sewers (rows out)
    /\ NoDup (yticklabels chart)
    /\ yticks chart = seq 0 (List.length (yticklabels chart))
    /\ Forall2 (fun r b =>
                  nth_error (yticklabels chart) (bar_y b) = Some (sewer_name r)
                  /\ bar_left b = start_time r
                  /\ bar_width b = operation_time r * (60 * 1000000000))
               (rows out) (bars chart).
Proof.
  intros Hpath Hcols Htext Hall Hfit Hlines.
  destruct (required_columns_desktop _ Hcols) as (H1 & H2 & H3 & H4).
  destruct (load_and_process_data_accepts csv H1 H2 H3 Htext Hall Hfit)
    as (out & Hl).
  destruct (load_and_process_data_returned _ _ Hl)
    as (_ & _ & _ & _ & _ & _ & Hc & records & Hd & Hrows).
  assert (Hin : forall col, In col (csv_columns csv) -> In col (columns out)).
  { intros col Hcol. rewrite Hc. apply in_or_app. now left. }
  assert (Hend : In "End Time" (columns out)).
  { rewrite Hc. apply in_or_app. right. now left. }
  assert (Hne : rows out <> []).
  { intros E. apply Hlines. apply length_zero_iff_nil.
    rewrite (Forall2_same_length _ _ _ Hd), <- (sort_values_length sewer_start_leb),
      <- Hrows, E. reflexivity. }
  assert (Hrank : group_and_sort_sewers out = Ok (sorted_sewers (rows out))).
  { apply group_and_sort_sewers_columns; now apply Hin. }
  assert (Hmem : forall r, In r (rows out) ->
                           In (sewer_name r) (sorted_sewers (rows out))).
  { intros r Hr. apply sorted_sewers_members. now apply in_map. }
  pose proof (sorted_sewers_NoDup (rows out)) as Hnd.
  assert (Hends : forall r, In r (rows out) ->
                    end_after_minutes r /\ span_fits r).
  { intros r Hr. rewrite Hrows in Hr. apply sort_values_In in Hr.
    destruct (Forall2_In_r _ _ _ _ Hd Hr) as (row & Hrow & Hder).
    destruct (derives_end_time _ _ _ Hder) as (_ & Hop & He).
    split; [exact He|].
    unfold span_fits. unfold end_after_minutes in He. rewrite He, Hop.
    destruct (proj1 (Forall_forall _ _) Hfit row Hrow) as [Hrange _].
    replace (start_time r + raw_operation_time row * (60 * 1000000000)
             - start_time r)
      with (raw_operation_time row * (60 * 1000000000)) by lia.
    exact Hrange. }
  destruct (generate_gantt_chart_drawn out (sorted_sewers (rows out))
              (Hin _ H4) (Hin _ H1) (Hin _ H2) Hend Hne Hnd
              (fun r Hr => proj2 (Hends r Hr)) Hmem)
    as (chart & Hg).
  exists out, chart. split; [exact Hl|].
  split.
  { rewrite (select_file_and_visualize_stages _ _ Hpath), Hl. simpl.
    rewrite Hrank. simpl. now rewrite Hg. }
  destruct (generate_gantt_chart_returned _ _ _ Hg) as (_ & Hticks & Hlabels & _).
  rewrite Hlabels. split; [reflexivity|]. split; [exact Hnd|].
  split; [rewrite Hticks; now apply y_positions_values|].
  pose proof (chart_bars _ _ _ Hg) as Hbars. rewrite Hlabels in Hbars.
  eapply Forall2_impl; [|exact (Forall2_with_In _ _ _ Hbars)].
  intros r b (Hr & Hy & Hleft & Hw & _). split; [exact Hy|].
  split; [exact Hleft|].
  destruct (Hends r Hr) as [He _]. unfold end_after_minutes in He. lia.
Qed.

(** X19: when the dialog is cancelled nothing is done, whatever the file.
    Otherwise an error of the loader is shown in the error box, as
    [An error occurred:] and, on the next line, the text of the error.  A
    file without the column Sew Type, which the loader accepts, is refused by
    the ranker: the box shows the name of that column in quotes, or the name
    of the column Sewer Name when the file has exactly two lines. *)
Theorem desktop_error_box (file_path : string) (file : Result CsvFrame) :
  select_file_and_visualize "" file = NothingDone
  /\ (file_path <> "" ->
      forall e, load_and_process_data file = Raise e ->
        select_file_and_visualize file_path file
        = ErrorBox "Error"
            ("An error occurred:" ++ newline ++ exception_text e)%string)
  /\ (file_path <> "" ->
      forall csv, file = Ok csv ->
        In "Sewer Name" (csv_columns csv) -> In "Start Time" (csv_columns csv) ->
        In "Operation Time" (csv_columns csv) ->
        ~ In "Sew Type" (csv_columns csv) ->
        text_sewer_names csv -> all_start_times_match csv ->
        durations_fit csv ->
        select_file_and_visualize file_path file
        = ErrorBox "Error"
            ("An error occurred:" ++ newline
               ++ (if (List.length (csv_rows csv) =? 2)%nat
                   then "'Sewer Name'" else "'Sew Type'"))%string).
Proof.
  split; [reflexivity|]. split.
  - intros Hpath e He.
    rewrite (select_file_and_visualize_stages _ _ Hpath), He. reflexivity.
  - intros Hpath csv -> H1 H2 H3 Hno Htext Hall Hfit.
    destruct (load_and_process_data_accepts csv H1 H2 H3 Htext Hall Hfit)
      as (out & Hl).
    rewrite (select_file_and_visualize_stages _ _ Hpath), Hl. simpl.
    rewrite (ranker_without_sew_type csv out Hl Hno). simpl.
    now destruct (List.length (csv_rows csv) =? 2)%nat.
Qed.
End DesktopFacts.

Lemma well_formed_file_is_charted_witness :
  "schedule.csv" <> ""
  /\ has_required_columns scenario_csv
  /\ text_sewer_names scenario_csv
  /\ all_start_times_match (PD := sample_pandas) scenario_csv
  /\ durations_fit (PD := sample_pandas) scenario_csv
  /\ csv_rows scenario_csv <> []
  /\ exists chart,
       select_file_and_visualize (PD := sample_pandas) "schedule.csv"
                                 (Ok scenario_csv) = ChartShown chart
       /\ NoDup (yticklabels chart).
Proof.
  assert (H0 : "schedule.csv" <> "") by discriminate.
  assert (H3 : csv_rows scenario_csv <> []) by discriminate.
  split; [exact H0|]. split; [exact scenario_csv_columns|].
  split; [exact scenario_csv_names|].
  split; [exact scenario_csv_start_times|].
  split; [exact scenario_csv_durations|]. split; [exact H3|].
  destruct (well_formed_file_is_charted (PD := sample_pandas) "schedule.csv"
              scenario_csv H0 scenario_csv_columns scenario_csv_names
              scenario_csv_start_times scenario_csv_durations H3)
    as (out & chart & _ & Hshown & _ & Hnd & _).
  exists chart. auto.
Defined.

Lemma two_lines_no_sew_type_csv_start_times :
  all_start_times_match (PD := sample_pandas) two_lines_no_sew_type_csv.
Proof. start_times_match. Qed.

Lemma two_lines_no_sew_type_csv_durations :
  durations_fit (PD := sample_pandas) two_lines_no_sew_type_csv.
Proof. durations_in_range. Qed.

Lemma two_lines_no_sew_type_csv_names :
  text_sewer_names two_lines_no_sew_type_csv.
Proof. names_are_texts. Qed.

(** A file of two lines without the column Sew Type. *)
Lemma desktop_error_box_witness :
  "schedule.csv" <> ""
  /\ ~ In "Sew Type" (csv_columns two_lines_no_sew_type_csv)
  /\ text_sewer_names two_lines_no_sew_type_csv
  /\ all_start_times_match (PD := sample_pandas) two_lines_no_sew_type_csv
  /\ durations_fit (PD := sample_pandas) two_lines_no_sew_type_csv
  /\ select_file_and_visualize (PD := sample_pandas) "schedule.csv"
                               (Ok two_lines_no_sew_type_csv)
     = ErrorBox "Error" ("An error occurred:" ++ newline ++ "'Sewer Name'")%string.
Proof.
  assert (H0 : "schedule.csv" <> "") by discriminate.
  assert (Hno : ~ In "Sew Type" (csv_columns two_lines_no_sew_type_csv))
    by (apply has_column_false; reflexivity).
  split; [exact H0|]. split; [exact Hno|].
  split; [exact two_lines_no_sew_type_csv_names|].
  split; [exact two_lines_no_sew_type_csv_start_times|].
  split; [exact two_lines_no_sew_type_csv_durations|].
  apply (proj2 (proj2 (desktop_error_box (PD := sample_pandas) "schedule.csv"
                         (Ok two_lines_no_sew_type_csv)))
               H0 two_lines_no_sew_type_csv eq_refl);
    try (simpl; tauto); try exact Hno.
  - exact two_lines_no_sew_type_csv_names.
  - exact two_lines_no_sew_type_csv_start_times.
  - exact two_lines_no_sew_type_csv_durations.
Defined.

(** The same file with one line: the box names Sew Type. *)
Example desktop_error_box_one_line :
  select_file_and_visualize (PD := sample_pandas) "schedule.csv"
                            (Ok no_sew_type_csv)
  = ErrorBox "Error" ("An error occurred:" ++ newline ++ "'Sew Type'")%string.
Proof. reflexivity. Qed.

(** ** The trace values of a figure *)

Section TraceFacts.
Context {V O : Type} (milliseconds : Timedelta -> V).

Lemma convert_value_plain (val : XValue) :
  is_plain (convert_value milliseconds val).
Proof. now destruct val. Qed.

Lemma convert_value_fixed (val : XValue) :
  is_plain val -> convert_value milliseconds val = val.
Proof. now destruct val. Qed.

Lemma convert_trace_spec (trace : Trace (V := V) (O := O)) :
  match convert_trace milliseconds trace with
  | Ok trace' =>
      x_is_set trace
      /\ no_timedelta trace'
      /\ trace_other trace' = trace_other trace
      /\ values_count trace' = values_count trace
      /\ (no_timedelta trace -> trace' = trace)
      /\ convert_trace milliseconds trace' = Ok trace'
  | Raise e => e = TypeError_not_iterable /\ ~ x_is_set trace
  end.
Proof.
  unfold convert_trace, x_is_set, no_timedelta, values_count.
  destruct trace as [[| |xs] other]; simpl.
  - repeat split; try discriminate.
  - split; [reflexivity|]. intros H. now apply H.
  - assert (Hplain : Forall is_plain (map (convert_value milliseconds) xs)).
    { apply Forall_forall. intros val Hval.
      apply in_map_iff in Hval. destruct Hval as (v0 & <- & _).
      apply convert_value_plain. }
    split; [discriminate|]. split; [now intros ? [= <-]|].
    split; [reflexivity|]. split; [now rewrite length_map|]. split.
    + intros Hp. f_equal. f_equal. specialize (Hp xs eq_refl).
      rewrite <- (map_id xs) at 2. apply map_ext_in. intros val Hval.
      rewrite Forall_forall in Hp. now apply convert_value_fixed, Hp.
    + f_equal. f_equal. f_equal. rewrite map_map. apply map_ext. intros val.
      apply convert_value_fixed, convert_value_plain.
Qed.

(** X20: [convert_timedelta_in_fig] returns exactly when the attribute [x]
    of no trace is [None]; otherwise the loop over the values raises a
    [TypeError].  When it returns, no trace carries a duration any more:
    every duration has become its number of milliseconds, the other values
    and the traces without [x] are as before, each trace keeps its number of
    values, and converting a second time changes nothing. *)
Theorem converted_figure_has_no_timedelta
    (fig_data : list (Trace (V := V) (O := O))) :
  (Forall x_is_set fig_data ->
   exists converted,
     convert_timedelta_in_fig milliseconds fig_data = Ok converted
     /\ Forall no_timedelta converted
     /\ Forall2 (fun trace trace' =>
                   trace_other trace' = trace_other trace
                   /\ values_count trace' = values_count trace
                   /\ (no_timedelta trace -> trace' = trace))
                fig_data converted
     /\ convert_timedelta_in_fig milliseconds converted = Ok converted)
  /\ (~ Forall x_is_set fig_data ->
      convert_timedelta_in_fig milliseconds fig_data
      = Raise TypeError_not_iterable).
Proof.
  unfold convert_timedelta_in_fig.
  induction fig_data as [|trace fig IH].
  - split.
    + intros _. exists []. repeat split; constructor.
    + intros H. destruct H. constructor.
  - destruct IH as [IHok IHraise]. simpl.
    pose proof (convert_trace_spec trace) as Ht.
    destruct (convert_trace milliseconds trace) as [trace'|e]; simpl.
    + destruct Ht as (Hset & Hplain & Hother & Hcount & Hfixed & Hagain).
      split.
      * intros Hall. inversion Hall as [|? ? _ Hall']; subst.
        destruct (IHok Hall') as (converted & -> & Hc1 & Hc2 & Hc3). simpl.
        exists (trace' :: converted). split; [reflexivity|].
        split; [now constructor|]. split; [now constructor|].
        simpl. now rewrite Hagain, Hc3.
      * intros Hnot. rewrite IHraise; [reflexivity|].
        intros Hall'. apply Hnot. now constructor.
    + destruct Ht as [-> Hnot]. split; [|reflexivity].
      intros Hall. inversion Hall; subst. contradiction.
Qed.
End TraceFacts.

Lemma converted_figure_has_no_timedelta_witness :
  let milliseconds := fun d : Timedelta => d / 1000000 in
  let fig_data := [ mkTrace (XValues [XTimedelta 1800000000000; XPlain 7]) "bar";
                    mkTrace NoAttribute "pie" ] in
  Forall x_is_set fig_data
  /\ convert_timedelta_in_fig milliseconds fig_data
     = Ok [ mkTrace (XValues [XPlain 1800000; XPlain 7]) "bar";
            mkTrace NoAttribute "pie" ]
  /\ exists converted,
       convert_timedelta_in_fig milliseconds fig_data = Ok converted
       /\ Forall no_timedelta converted.
Proof.
  intros milliseconds fig_data.
  assert (Hset : Forall x_is_set fig_data)
    by (repeat constructor; discriminate).
  split; [exact Hset|]. split; [reflexivity|].
  destruct (proj1 (converted_figure_has_no_timedelta milliseconds fig_data) Hset)
    as (converted & Hc & Hplain & _).
  exists converted. split; [exact Hc|exact Hplain].
Defined.

(** A trace whose [x] is not set. *)
Example unset_x_raises :
  convert_timedelta_in_fig (fun d : Timedelta => d / 1000000)
    [ mkTrace (XValues [XTimedelta 1800000000000]) "bar"; mkTrace XNone "bar" ]
  = Raise TypeError_not_iterable.
Proof. reflexivity. Qed.

(** ** Operation times that are negative *)

Section Durations.
Context `{PD : Pandas}.

(** X21: the loaders do not check the operation time.  A record they return
    ends at or after its start exactly when its operation time is not
    negative; a line with a negative operation time is loaded as a record
    that ends before it starts. *)
Theorem end_before_start_when_negative (df : CsvFrame) (filename : string) :
  (forall data status,
      parse_upload (Some (Ok df)) filename = Ok (Some data, status) ->
      Forall (fun r => start_time r <= end_time r <-> 0 <= operation_time r)
             (rows data))
  /\ (forall out,
        load_and_process_data (Ok df) = Ok out ->
        Forall (fun r => start_time r <= end_time r <-> 0 <= operation_time r)
               (rows out)).
Proof.
  assert (Hrec : forall machine row r,
             derives machine row r ->
             (start_time r <= end_time r <-> 0 <= operation_time r)).
  { intros machine row r Hr.
    destruct (derives_end_time _ _ _ Hr) as (_ & _ & He).
    unfold end_after_minutes in He. lia. }
  split.
  - intros data status Hp.
    destruct (parse_upload_stored _ _ _ _ Hp) as (_ & _ & _ & _ & Hd & _).
    apply Forall_forall. intros r Hr.
    destruct (Forall2_In_r _ _ _ _ Hd Hr) as (row & _ & Hder).
    exact (Hrec _ _ _ Hder).
  - intros out Hl.
    destruct (load_and_process_data_returned _ _ Hl)
      as (_ & _ & _ & _ & _ & _ & _ & records & Hd & ->).
    apply Forall_forall. intros r Hr. apply sort_values_In in Hr.
    destruct (Forall2_In_r _ _ _ _ Hd Hr) as (row & _ & Hder).
    exact (Hrec _ _ _ Hder).
Qed.
End Durations.

(** A line with an operation time of minus 30 minutes. *)
Lemma end_before_start_when_negative_witness :
  let df := {| csv_columns := all_columns;
               csv_rows := [ mkRawRow (VStr "A") (VStr "M1") (VStr "X")
                                      "2024-01-01 08:00" (-30) ] |} in
  exists out,
    load_and_process_data (PD := sample_pandas) (Ok df) = Ok out
    /\ map (fun r => end_time r - start_time r) (rows out) = [-1800000000000]
    /\ Forall (fun r => start_time r <= end_time r <-> 0 <= operation_time r)
              (rows out).
Proof.
  intros df.
  destruct (load_and_process_data (PD := sample_pandas) (Ok df)) as [out|e] eqn:Hl;
    [|discriminate Hl].
  exists out. split; [reflexivity|].
  split; [now injection Hl as <-|].
  exact (proj2 (end_before_start_when_negative (PD := sample_pandas) df
                  "schedule.csv") out Hl).
Defined.
